(** * sequence_labeling/model/seq_crf.py: the SequenceCRF model builder

    The module wires a TensorFlow graph: featurization (WordFeat, CharFeat),
    fusion, a bidirectional recurrent layer, a dense projection, and the CRF
    loss / decoder, plus optimizer, moving averages and checkpoint savers.

    Graph nodes are terms of [tensor]: a term records which framework
    function was called on which arguments, exactly as the Python code
    passes them.  Python statements with effects (logging,
    attribute assignment, variable scopes, control-dependency contexts, layer
    construction, checkpoint writes, raised exceptions) run in the monad [M]
    over the record [state].  The numerical meaning of the few element-wise
    operations the module applies itself ([*], [tf.squeeze],
    [tf.expand_dims]) is given on arrays of IEEE floats ([spec_float]). *)

From Stdlib Require Import ZArith Ascii String List Bool Lia SpecFloat DecimalString.
From stdpp Require Import base option list strings gmap.

Set Warnings "-register-all".
Local Open Scope Z_scope.

(* ------------------------------------------------------------------------- *)
(** ** Python values *)

(** Python floats and tensor elements: IEEE-754 values. *)
Abbreviation float := spec_float.

(** The literal [0.0]. *)
Definition f0 : float := S754_zero false.

(** The literal [1.0] (binary64). *)
Definition f1 : float := S754_finite false 4503599627370496 (-52).

(** The literal [-1.0]. *)
Definition fm1 : float := SFopp f1.

(** An object of the framework the module only passes around (a regularizer,
    an optimizer, a session). *)
Inductive pyobj : Type := PyObj (id : string).

Inductive exn : Type :=
| AttributeError (msg : string)
| ValueError (msg : string)
| TypeError (msg : string)
| FileNotFoundError (msg : string).

(** Decimal rendering of a length, as in Python's error messages. *)
Definition str_of_nat (n : nat) : string :=
  NilEmpty.string_of_uint (Nat.to_uint n).

(* ------------------------------------------------------------------------- *)
(** ** Hyperparameters read by this module *)

Record hyperparams : Type := {
  data_word_vocab_size : Z;
  data_char_vocab_size : Z;
  model_word_embed_dim : Z;
  model_word_dropout : float;
  model_word_embed_pretrained : bool;
  model_word_feat_trainable : bool;
  model_word_feat_enable : bool;
  model_char_embed_dim : Z;
  model_char_unit_dim : Z;
  model_char_window_size : list Z;
  model_char_hidden_activation : string;
  model_char_dropout : float;
  model_char_pooling_type : string;
  model_char_feat_trainable : bool;
  model_char_feat_enable : bool;
  model_fusion_type : string;
  model_fusion_num_layer : Z;
  model_fusion_unit_dim : Z;
  model_fusion_hidden_activation : string;
  model_fusion_dropout : float;
  model_fusion_trainable : bool;
  model_sequence_num_layer : Z;
  model_sequence_unit_dim : Z;
  model_sequence_cell_type : string;
  model_sequence_hidden_activation : string;
  model_sequence_dropout : float;
  model_sequence_forget_bias : float;
  model_sequence_residual_connect : bool;
  model_sequence_trainable : bool;
  model_projection_unit_dim : Z;
  model_projection_trainable : bool;
  train_random_seed : Z;
  train_ema_enable : bool;
  train_ema_decay_rate : float;
  train_regularization_enable : bool;
  train_optimizer_learning_rate : float;
  train_optimizer_warmup_enable : bool;
  train_optimizer_decay_enable : bool;
  train_ckpt_output_dir : string;
  train_num_epoch : Z
}.

(* ------------------------------------------------------------------------- *)
(** ** Layer objects and graph nodes *)

(** A layer object, named after the function of [util.layer_util] that
    builds it, with the arguments in the order the module passes them. *)
Inductive layer : Type :=
| create_embedding_layer
    (vocab_size embed_dim : Z) (pretrained : bool)
    (num_gpus default_gpu_id : Z) (random_seed : Z) (trainable : bool)
| create_dropout_layer
    (dropout : float) (num_gpus default_gpu_id : Z)
| create_convolution_layer
    (conv_type : string) (num_layer : Z) (num_channel num_filter : Z)
    (window_size : list Z) (stride_size : Z) (padding_type : string)
    (activation : string) (dropout : list float) (layer_dropout : option pyobj)
    (layer_norm residual_connect : bool)
    (num_gpus default_gpu_id : Z) (regularizer : option pyobj)
    (random_seed : Z) (trainable : bool)
| create_pooling_layer
    (pooling_type : string) (arg1 arg2 : Z) (num_gpus default_gpu_id : Z)
| FusionModule
    (input_unit_dim output_unit_dim : Z) (fusion_type : string)
    (num_layer : Z) (activation : string) (dropout : float)
    (num_gpus default_gpu_id : Z) (regularizer : option pyobj)
    (random_seed : Z) (trainable : bool)
| create_recurrent_layer
    (direction : string) (num_layer unit_dim : Z) (cell_type : string)
    (activation : string) (dropout forget_bias : float)
    (residual_connect : bool) (attention_mechanism : option pyobj)
    (num_gpus default_gpu_id : Z) (random_seed : Z) (trainable : bool)
| create_dense_layer
    (dense_type : string) (num_layer unit_dim : Z) (arg4 : Z)
    (activation : string) (dropout : list float)
    (layer_dropout : option pyobj) (layer_norm residual_connect : bool)
    (num_gpus default_gpu_id : Z) (regularizer : option pyobj)
    (random_seed : Z) (trainable : bool).

(** A trainable variable of the graph, known by [v.op.name]. *)
Inductive variable : Type := Variable_ (op_name : string).

Definition op_name (v : variable) : string :=
  match v with Variable_ n => n end.

(** A node of the graph under construction. [Call l args k] is the [k]-th
    component of the tuple a layer object returns when called on [args];
    [CallLists] is the same for the fusion module, which takes two lists. *)
Inductive tensor : Type :=
| Input (name : string)
| Var (v : variable)
| Const (c : float)
| Squeeze (x : tensor) (axis : Z)
| ExpandDims (x : tensor) (axis : Z)
| Mul (x y : tensor)
| Add (x y : tensor)
| ReduceSum (x : tensor) (axis : Z)
| ReduceMean (x : tensor)
| Call (l : layer) (args : list tensor) (k : nat)
| CallLists (l : layer) (feats masks : list tensor) (k : nat)
| EmbeddingPlaceholder (l : layer)
| CrfDecode (potentials transition_params sequence_length : tensor) (k : nat)
| CrfLogLikelihood
    (inputs tag_indices sequence_lengths transition_params : tensor) (k : nat)
| ApplyRegularization (regularizer : option pyobj) (weights : list tensor)
| EmaApply (decay : float) (var_list : list variable)
    (control_inputs : list tensor)
| EmaAverage (decay : float) (v : variable)
| Opaque (name : string) (args : list tensor).

(** [tf.train.Saver(var_list, max_to_keep=...)]; the framework's default
    for [max_to_keep] is 5. *)
Record saver : Type := Saver {
  saver_var_list : gmap string tensor;
  max_to_keep : Z
}.

Definition Saver_default_max_to_keep : Z := 5.

(** One call of [Saver.save]. *)
Record save_event : Type := SaverSave {
  ev_saver : saver;
  ev_sess : pyobj;
  ev_save_path : string;
  ev_global_step : Z
}.

Record data_pipeline : Type := {
  input_text_word : tensor;
  input_text_word_mask : tensor;
  input_text_char : tensor;
  input_text_char_mask : tensor;
  input_label : tensor;
  input_label_mask : tensor
}.

(* ------------------------------------------------------------------------- *)
(** ** The object under construction and the world around it *)

(** What [BaseModel.__init__] (module [model.base_model]) leaves on [self]
    and this module only reads. *)
Record base : Type := {
  hparams : hyperparams;
  pipeline : data_pipeline;
  mode : string;
  scope : string;
  num_gpus : Z;
  default_gpu_id : Z;
  regularizer : option pyobj
}.

(** A value held by an attribute of [self]. *)
Inductive value : Type :=
| VNone
| VTensor (t : tensor)
| VVariables (l : list variable)
| VLookup (d : gmap string tensor)
| VEma (decay : float)
| VObj (o : pyobj)
| VStr (s : string)
| VSaver (sv : saver).

Record state : Type := {
  attributes : gmap string value;        (* attributes set on self *)
  log : list string;                      (* lines given to logger.log_print *)
  scopes : list string;                   (* open tf.variable_scope blocks *)
  built : list (list string * layer);     (* layers built, with their scope *)
  control : list tensor;                  (* open tf.control_dependencies *)
  dirs : list string;                     (* directories that exist *)
  saved : list save_event                 (* calls of Saver.save made *)
}.

Definition state0 : state :=
  {| attributes := ∅; log := []; scopes := []; built := [];
     control := []; dirs := []; saved := [] |}.

(* ------------------------------------------------------------------------- *)
(** ** Statements: state and exceptions *)

Inductive result (A : Type) : Type :=
| Ok (a : A)
| Raise (e : exn).
Arguments Ok {A} a.
Arguments Raise {A} e.

Definition M (A : Type) : Type := state -> result A * state.

Definition ret {A} (a : A) : M A := fun s => (Ok a, s).

Definition bind {A B} (m : M A) (k : A -> M B) : M B :=
  fun s =>
    match m s with
    | (Ok a, s') => k a s'
    | (Raise e, s') => (Raise e, s')
    end.

Definition raise {A} (e : exn) : M A := fun s => (Raise e, s).

Definition get_state : M state := fun s => (Ok s, s).

Definition modify (f : state -> state) : M unit := fun s => (Ok tt, f s).

#[global] Instance M_ret : MRet M := fun A a => ret a.
#[global] Instance M_bind : MBind M := fun A B k m => bind m k.

(** [self.name = v] *)
Definition set_attr (name : string) (v : value) : M unit :=
  modify (fun s =>
    {| attributes := <[name := v]> (attributes s); log := log s; scopes := scopes s;
       built := built s; control := control s; dirs := dirs s;
       saved := saved s |}).

(** [self.logger.log_print(msg)] *)
Definition log_print (msg : string) : M unit :=
  modify (fun s =>
    {| attributes := attributes s; log := log s ++ [msg]; scopes := scopes s;
       built := built s; control := control s; dirs := dirs s;
       saved := saved s |}).

Definition set_scopes (l : list string) : M unit :=
  modify (fun s =>
    {| attributes := attributes s; log := log s; scopes := l;
       built := built s; control := control s; dirs := dirs s;
       saved := saved s |}).

Definition set_control (l : list tensor) : M unit :=
  modify (fun s =>
    {| attributes := attributes s; log := log s; scopes := scopes s;
       built := built s; control := l; dirs := dirs s;
       saved := saved s |}).

(** A [with] block: the context is left on normal exit and when the body
    raises. *)
Definition with_block {A} (enter leave : M unit) (body : M A) : M A :=
  enter ;;
  (fun s : state =>
     match body s with
     | (r, s') => (r, snd (leave s'))
     end) : M A.

(** [with tf.variable_scope(name, reuse=tf.AUTO_REUSE):] *)
Definition variable_scope {A} (name : string) (body : M A) : M A :=
  s ← get_state;
  with_block (set_scopes (scopes s ++ [name])) (set_scopes (scopes s)) body.

(** [with tf.control_dependencies(ops):] *)
Definition control_dependencies {A} (ops : list tensor) (body : M A) : M A :=
  s ← get_state;
  with_block (set_control (control s ++ ops)) (set_control (control s)) body.

(** Building a layer object registers it under the open variable scopes. *)
Definition build (l : layer) : M layer :=
  modify (fun s =>
    {| attributes := attributes s; log := log s; scopes := scopes s;
       built := built s ++ [(scopes s, l)]; control := control s;
       dirs := dirs s; saved := saved s |}) ;;
  ret l.

(** [a, b = t] and [a, b, c = t] on a Python tuple. *)
Definition unpack_error (expected got : nat) : exn :=
  if (got <? expected)%nat
  then ValueError ("not enough values to unpack (expected " +:+
                   str_of_nat expected +:+ ", got " +:+ str_of_nat got +:+ ")")
  else ValueError ("too many values to unpack (expected " +:+
                   str_of_nat expected +:+ ")").

Definition unpack2 {A} (t : list A) : M (A * A) :=
  match t with
  | [a; b] => ret (a, b)
  | _ => raise (unpack_error 2 (length t))
  end.

Definition unpack3 {A} (t : list A) : M (A * A * A) :=
  match t with
  | [a; b; c] => ret (a, b, c)
  | _ => raise (unpack_error 3 (length t))
  end.

(** [self.name] *)
Definition get_attr (name : string) : M value :=
  s ← get_state;
  match attributes s !! name with
  | Some v => ret v
  | None =>
      raise (AttributeError
        ("'SequenceCRF' object has no attribute '" +:+ name +:+ "'"))
  end.

(* ------------------------------------------------------------------------- *)
(** ** The framework and the base class *)

(** What the graph collections hold for a layer built under a scope: the
    layers of [util.layer_util] create their own variables. *)
Class Framework : Type := {
  trainable_variables : list string -> layer -> list variable;
  regularization_losses : list string -> layer -> list tensor
}.

(** The methods [SequenceCRF] inherits from [model.base_model.BaseModel]. *)
Class BaseModel : Type := {
  _get_infer_summary : base -> gmap string value -> tensor;
  _get_train_summary : base -> gmap string value -> tensor;
  _apply_learning_rate_warmup : base -> gmap string value -> tensor -> tensor;
  _apply_learning_rate_decay : base -> gmap string value -> tensor -> tensor;
  _initialize_optimizer : base -> gmap string value -> tensor -> pyobj;
  _minimize_loss :
    base -> gmap string value -> tensor -> tensor * tensor * tensor
}.

(** The checkpoint files the framework finds on disk, and what restoring
    one does: [tf.train.latest_checkpoint(dir)] ([None] when there is no
    checkpoint), [tf.train.get_checkpoint_state(dir)] (here its
    [all_model_checkpoint_paths]; [None] when there is no state) and
    [saver.restore(sess, path)]. *)
Class CheckpointStore : Type := {
  latest_checkpoint : state -> string -> option string;
  get_checkpoint_state : state -> string -> option (list string);
  Saver_restore : saver -> pyobj -> string -> M unit
}.

(** [tf.get_collection(tf.GraphKeys.TRAINABLE_VARIABLES)] *)
Definition get_trainable_variables `{Framework} : M (list variable) :=
  s ← get_state;
  ret (flat_map (fun b => trainable_variables (fst b) (snd b)) (built s)).

(** [tf.get_collection(tf.GraphKeys.REGULARIZATION_LOSSES)] *)
Definition get_regularization_losses `{Framework} : M (list tensor) :=
  s ← get_state;
  ret (flat_map (fun b => regularization_losses (fst b) (snd b)) (built s)).

(** [ema.average_name(v)] called with the scopes [sc] open: the variable's
    own name followed by the average's name, below the open name scope (in
    a fresh graph the open variable scopes).  A variable made under the
    scope [seq_crf] has its average under [seq_crf/seq_crf/...]. *)
Definition average_name (sc : list string) (v : variable) : string :=
  String.concat "/" (sc ++ [op_name v +:+ "/ExponentialMovingAverage"]).

(** [tf.train.Saver(var_list, max_to_keep=...)]: the framework refuses to
    build a saver over no variable at all. *)
Definition tf_train_Saver (var_list : gmap string tensor) (max_to_keep : Z)
  : M saver :=
  if (size var_list =? 0)%nat
  then raise (ValueError "No variables to save")
  else ret (Saver var_list max_to_keep).

(** [{key(v): val(v) for v in l}]: a later entry replaces an earlier one
    with the same key. *)
Definition dict_of {A} (key : A -> string) (val : A -> tensor) (l : list A)
  : gmap string tensor :=
  fold_left (fun d v => <[key v := val v]> d) l ∅.

Fixpoint endswith_sep (s : string) : bool :=
  match s with
  | EmptyString => false
  | String c EmptyString => Ascii.eqb c "/"%char
  | String _ s' => endswith_sep s'
  end.

(** [os.path.join(a, b)] (POSIX). *)
Definition os_path_join (a b : string) : string :=
  if String.prefix "/" b then b
  else if String.eqb a EmptyString || endswith_sep a then a +:+ b
  else a +:+ "/" +:+ b.

(** [tf.gfile.Exists(d)] *)
Definition gfile_Exists (d : string) : M bool :=
  s ← get_state;
  ret (existsb (String.eqb d) (dirs s)).

(** [tf.gfile.MakeDirs(d)] *)
Definition gfile_MakeDirs (d : string) : M unit :=
  modify (fun s =>
    {| attributes := attributes s; log := log s; scopes := scopes s;
       built := built s; control := control s; dirs := dirs s ++ [d];
       saved := saved s |}).

(** [saver.save(sess, save_path, global_step=global_step)]: the call is
    recorded.  Which files the framework then writes, and which older ones
    it deletes to stay within [max_to_keep], is its own business and is
    not followed here. *)
Definition Saver_save (sv : saver) (sess : pyobj) (save_path : string)
    (global_step : Z) : M unit :=
  modify (fun s =>
    {| attributes := attributes s; log := log s; scopes := scopes s;
       built := built s; control := control s; dirs := dirs s;
       saved := saved s ++ [SaverSave sv sess save_path global_step] |}).

(* ------------------------------------------------------------------------- *)
(** ** class WordFeat *)

Module WordFeat.

Record t : Type := {
  vocab_size : Z;
  embed_dim : Z;
  dropout : float;
  pretrained : bool;
  random_seed : Z;
  trainable : bool;
  scope : string;
  embedding_layer : layer;
  dropout_layer : layer
}.

Definition __init__ (vocab_size embed_dim : Z) (dropout : float)
    (pretrained : bool) (random_seed : Z) (trainable : bool)
    (scope : string) : M t :=
  variable_scope scope (
    embedding_layer ← build (create_embedding_layer vocab_size embed_dim
                               pretrained 0 0 random_seed trainable);
    dropout_layer ← build (create_dropout_layer dropout 0 0);
    mret {| vocab_size := vocab_size; embed_dim := embed_dim;
            dropout := dropout; pretrained := pretrained;
            random_seed := random_seed; trainable := trainable;
            scope := scope; embedding_layer := embedding_layer;
            dropout_layer := dropout_layer |}).

(** The tensor handed to the dropout layer: the squeezed embedding times
    the mask. *)
Definition input_word_embedding (self : t) (input_word input_word_mask : tensor)
  : tensor :=
  Mul (Squeeze (Call (embedding_layer self) [input_word] 0) (-2))
      input_word_mask.

Definition __call__ (self : t) (input_word input_word_mask : tensor)
  : M (list tensor) :=
  variable_scope (scope self) (
    let input_word_embedding_mask := input_word_mask in
    let input_word_embedding :=
      input_word_embedding self input_word input_word_embedding_mask in
    let input_word_dropout :=
      Call (dropout_layer self)
           [input_word_embedding; input_word_embedding_mask] 0 in
    let input_word_dropout_mask :=
      Call (dropout_layer self)
           [input_word_embedding; input_word_embedding_mask] 1 in
    let input_word_feat := input_word_dropout in
    let input_word_feat_mask := input_word_dropout_mask in
    mret [input_word_feat; input_word_feat_mask]).

Definition get_embedding_placeholder (self : t) : tensor :=
  EmbeddingPlaceholder (embedding_layer self).

End WordFeat.

(* ------------------------------------------------------------------------- *)
(** ** class CharFeat *)

Module CharFeat.

Record t : Type := {
  vocab_size : Z;
  embed_dim : Z;
  unit_dim : Z;
  window_size : list Z;
  activation : string;
  pooling_type : string;
  dropout : float;
  num_gpus : Z;
  default_gpu_id : Z;
  regularizer : option pyobj;
  random_seed : Z;
  trainable : bool;
  scope : string;
  embedding_layer : layer;
  conv_layer : layer;
  pooling_layer : layer
}.

Definition __init__ (vocab_size embed_dim unit_dim : Z) (window_size : list Z)
    (activation pooling_type : string) (dropout : float)
    (num_gpus default_gpu_id : Z) (regularizer : option pyobj)
    (random_seed : Z) (trainable : bool) (scope : string) : M t :=
  variable_scope scope (
    embedding_layer ← build (create_embedding_layer vocab_size embed_dim
                               false 0 0 random_seed trainable);
    conv_layer ← build (create_convolution_layer "stacked_multi_1d" 1
                          embed_dim unit_dim window_size 1 "SAME" activation
                          [dropout] None false false num_gpus default_gpu_id
                          regularizer random_seed trainable);
    pooling_layer ← build (create_pooling_layer pooling_type (-1) 1 0 0);
    mret {| vocab_size := vocab_size; embed_dim := embed_dim;
            unit_dim := unit_dim; window_size := window_size;
            activation := activation; pooling_type := pooling_type;
            dropout := dropout; num_gpus := num_gpus;
            default_gpu_id := default_gpu_id; regularizer := regularizer;
            random_seed := random_seed; trainable := trainable;
            scope := scope; embedding_layer := embedding_layer;
            conv_layer := conv_layer; pooling_layer := pooling_layer |}).

Definition input_char_embedding_mask (input_char_mask : tensor) : tensor :=
  ExpandDims input_char_mask (-1).

(** The tensor handed to the convolution layer: the embedding times the
    expanded mask. *)
Definition input_char_embedding (self : t) (input_char input_char_mask : tensor)
  : tensor :=
  Mul (Call (embedding_layer self) [input_char] 0)
      (input_char_embedding_mask input_char_mask).

Definition __call__ (self : t) (input_char input_char_mask : tensor)
  : M (list tensor) :=
  variable_scope (scope self) (
    let input_char_embedding_mask := input_char_embedding_mask input_char_mask in
    let input_char_embedding :=
      input_char_embedding self input_char input_char_mask in
    let input_char_conv :=
      Call (conv_layer self)
           [input_char_embedding; input_char_embedding_mask] 0 in
    let input_char_conv_mask :=
      Call (conv_layer self)
           [input_char_embedding; input_char_embedding_mask] 1 in
    let input_char_pool :=
      Call (pooling_layer self) [input_char_conv; input_char_conv_mask] 0 in
    let input_char_pool_mask :=
      Call (pooling_layer self) [input_char_conv; input_char_conv_mask] 1 in
    let input_char_feat := input_char_pool in
    let input_char_feat_mask := input_char_pool_mask in
    mret [input_char_feat; input_char_feat_mask]).

End CharFeat.

(* ------------------------------------------------------------------------- *)
(** ** class SequenceCRF *)

Module SequenceCRF.
Section Methods.
Context `{Framework} `{BaseModel}.

(** [x if self.mode == "train" else 0.0] *)
Definition word_dropout (self : base) : float :=
  if String.eqb (mode self) "train"
  then model_word_dropout (hparams self) else f0.

Definition char_dropout (self : base) : float :=
  if String.eqb (mode self) "train"
  then model_char_dropout (hparams self) else f0.

Definition fusion_dropout (self : base) : float :=
  if String.eqb (mode self) "train"
  then model_fusion_dropout (hparams self) else f0.

Definition sequence_dropout (self : base) : float :=
  if String.eqb (mode self) "train"
  then model_sequence_dropout (hparams self) else f0.

Definition _build_representation_layer (self : base)
    (text_word text_word_mask text_char text_char_mask : tensor)
  : M (list tensor) :=
  let hp := hparams self in
  let word_vocab_size := data_word_vocab_size hp in
  let word_embed_dim := model_word_embed_dim hp in
  let word_dropout := word_dropout self in
  let word_embed_pretrained := model_word_embed_pretrained hp in
  let word_feat_trainable := model_word_feat_trainable hp in
  let word_feat_enable := model_word_feat_enable hp in
  let char_vocab_size := data_char_vocab_size hp in
  let char_embed_dim := model_char_embed_dim hp in
  let char_unit_dim := model_char_unit_dim hp in
  let char_window_size := model_char_window_size hp in
  let char_hidden_activation := model_char_hidden_activation hp in
  let char_dropout := char_dropout self in
  let char_pooling_type := model_char_pooling_type hp in
  let char_feat_trainable := model_char_feat_trainable hp in
  let char_feat_enable := model_char_feat_enable hp in
  let fusion_type := model_fusion_type hp in
  let fusion_num_layer := model_fusion_num_layer hp in
  let fusion_unit_dim := model_fusion_unit_dim hp in
  let fusion_hidden_activation := model_fusion_hidden_activation hp in
  let fusion_dropout := fusion_dropout self in
  let fusion_trainable := model_fusion_trainable hp in
  let random_seed := train_random_seed hp in
  '(text_feat, text_feat_mask) ←
    variable_scope "representation" (
      let text_feat_list := [] in
      let text_feat_mask_list := [] in
      '(text_feat_list, text_feat_mask_list, word_unit_dim) ←
        (if word_feat_enable then
           log_print "# build word-level representation layer";;
           word_feat_layer ←
             WordFeat.__init__ word_vocab_size word_embed_dim word_dropout
               word_embed_pretrained random_seed word_feat_trainable
               "word_feat";
           r ← WordFeat.__call__ word_feat_layer text_word text_word_mask;
           '(text_word_feat, text_word_feat_mask) ← unpack2 r;
           set_attr "word_embedding_placeholder"
             (VTensor (WordFeat.get_embedding_placeholder word_feat_layer));;
           mret (text_feat_list ++ [text_word_feat],
                 text_feat_mask_list ++ [text_word_feat_mask],
                 word_embed_dim)
         else
           set_attr "word_embedding_placeholder" VNone;;
           mret (text_feat_list, text_feat_mask_list, 0));
      '(text_feat_list, text_feat_mask_list, char_unit_dim) ←
        (if char_feat_enable then
           log_print "# build char-level representation layer";;
           char_feat_layer ←
             CharFeat.__init__ char_vocab_size char_embed_dim char_unit_dim
               char_window_size char_hidden_activation char_pooling_type
               char_dropout (num_gpus self) (default_gpu_id self)
               (regularizer self) random_seed char_feat_trainable
               "char_feat";
           r ← CharFeat.__call__ char_feat_layer text_char text_char_mask;
           '(text_char_feat, text_char_feat_mask) ← unpack2 r;
           mret (text_feat_list ++ [text_char_feat],
                 text_feat_mask_list ++ [text_char_feat_mask],
                 char_unit_dim)
         else
           mret (text_feat_list, text_feat_mask_list, 0));
      let feat_unit_dim := word_unit_dim + char_unit_dim in
      feat_fusion_layer ←
        build (FusionModule feat_unit_dim fusion_unit_dim fusion_type
                 fusion_num_layer fusion_hidden_activation fusion_dropout
                 (num_gpus self) (default_gpu_id self) (regularizer self)
                 random_seed fusion_trainable);
      mret (CallLists feat_fusion_layer text_feat_list text_feat_mask_list 0,
            CallLists feat_fusion_layer text_feat_list text_feat_mask_list 1));
  mret [text_feat; text_feat_mask].

Definition _build_modeling_layer (self : base)
    (text_feat text_feat_mask : tensor) : M (list tensor) :=
  let hp := hparams self in
  let sequence_num_layer := model_sequence_num_layer hp in
  let sequence_unit_dim := model_sequence_unit_dim hp in
  let sequence_cell_type := model_sequence_cell_type hp in
  let sequence_hidden_activation := model_sequence_hidden_activation hp in
  let sequence_dropout := sequence_dropout self in
  let sequence_forget_bias := model_sequence_forget_bias hp in
  let sequence_residual_connect := model_sequence_residual_connect hp in
  let sequence_trainable := model_sequence_trainable hp in
  let projection_unit_dim := model_projection_unit_dim hp in
  let projection_trainable := model_projection_trainable hp in
  let random_seed := train_random_seed hp in
  '(text_modeling, text_modeling_mask) ←
    variable_scope "modeling" (
      log_print "# build sequence modeling layer";;
      sequence_modeling_layer ←
        build (create_recurrent_layer "bi" sequence_num_layer
                 sequence_unit_dim sequence_cell_type
                 sequence_hidden_activation sequence_dropout
                 sequence_forget_bias sequence_residual_connect None
                 (num_gpus self) (default_gpu_id self) random_seed
                 sequence_trainable);
      let text_sequence_modeling :=
        Call sequence_modeling_layer [text_feat; text_feat_mask] 0 in
      let text_sequence_modeling_mask :=
        Call sequence_modeling_layer [text_feat; text_feat_mask] 1 in
      projection_modeling_layer ←
        build (create_dense_layer "single" 1 projection_unit_dim 1 EmptyString [f0]
                 None false false (num_gpus self) (default_gpu_id self)
                 (regularizer self) random_seed projection_trainable);
      let text_projection_modeling :=
        Call projection_modeling_layer
             [text_sequence_modeling; text_sequence_modeling_mask] 0 in
      let text_projection_modeling_mask :=
        Call projection_modeling_layer
             [text_sequence_modeling; text_sequence_modeling_mask] 1 in
      let text_modeling := text_projection_modeling in
      let text_modeling_mask := text_projection_modeling_mask in
      mret (text_modeling, text_modeling_mask));
  mret [text_modeling; text_modeling_mask].

Definition _build_graph (self : base)
    (text_word text_word_mask text_char text_char_mask : tensor)
  : M (list tensor) :=
  '(predict, predict_mask) ←
    variable_scope "graph" (
      r ← _build_representation_layer self text_word text_word_mask
            text_char text_char_mask;
      '(text_feat, text_feat_mask) ← unpack2 r;
      r ← _build_modeling_layer self text_feat text_feat_mask;
      '(text_modeling, text_modeling_mask) ← unpack2 r;
      let predict := text_modeling in
      let predict_mask := text_modeling_mask in
      mret (predict, predict_mask));
  mret [predict; predict_mask].

Definition _compute_loss
    (label predict sequence_length transition_matrix : tensor) : tensor :=
  let log_likelihood :=
    CrfLogLikelihood predict label sequence_length transition_matrix 0 in
  let loss := ReduceMean (Mul (Const fm1) log_likelihood) in
  loss.

(** [tf.get_variable(name, ...)] under the open variable scopes. *)
Definition get_variable (name : string) : M tensor :=
  s ← get_state;
  mret (Var (Variable_ (String.concat "/" (scopes s ++ [name])))).

(** The current attributes of [self], as an inherited method sees them. *)
Definition this : M (gmap string value) :=
  s ← get_state; mret (attributes s).

Definition ensure_dir (d : string) : M unit :=
  e ← gfile_Exists d;
  if negb e then gfile_MakeDirs d else mret tt.

(** The statements of [__init__] after the build of the prediction graph
    are given block by block, one definition for each block the source
    marks off, then put together in [after_build_graph]. *)

(** Lines 48-53: the trainable variables and the lookup the savers use. *)
Definition collect_variables (self : base)
  : M (list variable * option float * gmap string tensor) :=
  let hp := hparams self in
  variable_list ← get_trainable_variables;
  set_attr "variable_list" (VVariables variable_list);;
  let variable_lookup := dict_of op_name Var variable_list in
  set_attr "variable_lookup" (VLookup variable_lookup);;
  if train_ema_enable hp then
    let ema := train_ema_decay_rate hp in
    set_attr "ema" (VEma ema);;
    s ← get_state;
    let variable_lookup :=
      dict_of (average_name (scopes s)) Var variable_list in
    set_attr "variable_lookup" (VLookup variable_lookup);;
    mret (variable_list, Some ema, variable_lookup)
  else mret (variable_list, None, variable_lookup).

(** Lines 56-61, the body of [if self.mode == "infer"]. *)
Definition infer_block (self : base)
    (sequence_length predict predict_mask transition_matrix : tensor)
  : M unit :=
  set_attr "infer_predict"
    (VTensor (CrfDecode predict transition_matrix sequence_length 0));;
  set_attr "infer_predict_mask" (VTensor predict_mask);;
  me ← this;
  set_attr "infer_summary" (VTensor (_get_infer_summary self me)).

(** Lines 64-71: the optimization loss. *)
Definition loss_block (self : base)
    (label sequence_length predict transition_matrix : tensor) : M tensor :=
  let hp := hparams self in
  log_print "# setup loss computation mechanism";;
  let train_loss :=
    _compute_loss label predict sequence_length transition_matrix in
  set_attr "train_loss" (VTensor train_loss);;
  if train_regularization_enable hp then
    regularization_variables ← get_regularization_losses;
    let regularization_loss :=
      ApplyRegularization (regularizer self) regularization_variables in
    let train_loss := Add train_loss regularization_loss in
    set_attr "train_loss" (VTensor train_loss);;
    mret train_loss
  else mret train_loss.

(** Lines 73-89: the learning rate. *)
Definition learning_rate_block (self : base) : M tensor :=
  let hp := hparams self in
  log_print "# setup initial learning rate mechanism";;
  let initial_learning_rate := Const (train_optimizer_learning_rate hp) in
  set_attr "initial_learning_rate" (VTensor initial_learning_rate);;
  warmup_learning_rate ←
    (if train_optimizer_warmup_enable hp then
       log_print "# setup learning rate warm-up mechanism";;
       me ← this;
       mret (_apply_learning_rate_warmup self me initial_learning_rate)
     else mret initial_learning_rate);
  set_attr "warmup_learning_rate" (VTensor warmup_learning_rate);;
  decayed_learning_rate ←
    (if train_optimizer_decay_enable hp then
       log_print "# setup learning rate decay mechanism";;
       me ← this;
       mret (_apply_learning_rate_decay self me warmup_learning_rate)
     else mret warmup_learning_rate);
  set_attr "decayed_learning_rate" (VTensor decayed_learning_rate);;
  let learning_rate := decayed_learning_rate in
  set_attr "learning_rate" (VTensor learning_rate);;
  mret learning_rate.

(** Lines 91-97: the optimizer and the update of the model. *)
Definition minimize_block (self : base) (learning_rate train_loss : tensor)
  : M tensor :=
  log_print "# setup training optimizer";;
  me ← this;
  set_attr "optimizer" (VObj (_initialize_optimizer self me learning_rate));;
  log_print "# setup loss minimization mechanism";;
  me ← this;
  let '(update_model, clipped_gradients, gradient_norm) :=
    _minimize_loss self me train_loss in
  set_attr "update_model" (VTensor update_model);;
  set_attr "clipped_gradients" (VTensor clipped_gradients);;
  set_attr "gradient_norm" (VTensor gradient_norm);;
  mret update_model.

(** [self.ema.apply(var_list)]: the op is built under the open
    control-dependency contexts. *)
Definition ema_apply (ema : float) (var_list : list variable) : M tensor :=
  s ← get_state;
  mret (EmaApply ema var_list (control s)).

(** Lines 99-104: the update op, and the lookup of the averages. *)
Definition update_op_block (self : base) (update_model : tensor)
    (variable_list : list variable) (ema : option float)
    (variable_lookup : gmap string tensor) : M (gmap string tensor) :=
  let hp := hparams self in
  if train_ema_enable hp then
    control_dependencies [update_model] (
      match ema with
      | Some ema =>
          update_op ← ema_apply ema variable_list;
          set_attr "update_op" (VTensor update_op);;
          s ← get_state;
          let variable_lookup :=
            dict_of (average_name (scopes s)) (EmaAverage ema)
              variable_list in
          set_attr "variable_lookup" (VLookup variable_lookup);;
          mret variable_lookup
      | None =>
          raise (AttributeError "'SequenceCRF' object has no attribute 'ema'")
      end)
  else
    set_attr "update_op" (VTensor update_model);;
    mret variable_lookup.

(** Lines 64-107, the body of [if self.mode == "train"]. *)
Definition train_block (self : base)
    (label sequence_length predict transition_matrix : tensor)
    (variable_list : list variable) (ema : option float)
    (variable_lookup : gmap string tensor) : M (gmap string tensor) :=
  train_loss ← loss_block self label sequence_length predict
                 transition_matrix;
  learning_rate ← learning_rate_block self;
  update_model ← minimize_block self learning_rate train_loss;
  variable_lookup ← update_op_block self update_model variable_list ema
                      variable_lookup;
  me ← this;
  set_attr "train_summary" (VTensor (_get_train_summary self me));;
  mret variable_lookup.

(** Lines 109-125: the checkpoint directories and the two savers. *)
Definition create_checkpoint_saver (self : base)
    (variable_lookup : gmap string tensor) : M unit :=
  let hp := hparams self in
  ensure_dir (train_ckpt_output_dir hp);;
  let ckpt_debug_dir := os_path_join (train_ckpt_output_dir hp) "debug" in
  let ckpt_epoch_dir := os_path_join (train_ckpt_output_dir hp) "epoch" in
  set_attr "ckpt_debug_dir" (VStr ckpt_debug_dir);;
  set_attr "ckpt_epoch_dir" (VStr ckpt_epoch_dir);;
  ensure_dir ckpt_debug_dir;;
  ensure_dir ckpt_epoch_dir;;
  let ckpt_debug_name := os_path_join ckpt_debug_dir "model_debug_ckpt" in
  let ckpt_epoch_name := os_path_join ckpt_epoch_dir "model_epoch_ckpt" in
  set_attr "ckpt_debug_name" (VStr ckpt_debug_name);;
  set_attr "ckpt_epoch_name" (VStr ckpt_epoch_name);;
  ckpt_debug_saver ← tf_train_Saver variable_lookup Saver_default_max_to_keep;
  set_attr "ckpt_debug_saver" (VSaver ckpt_debug_saver);;
  ckpt_epoch_saver ← tf_train_Saver variable_lookup (train_num_epoch hp);
  set_attr "ckpt_epoch_saver" (VSaver ckpt_epoch_saver).

(** Lines 48-125, run from the three names line 46 binds. *)
Definition after_build_graph (self : base)
    (label sequence_length predict predict_mask transition_matrix : tensor)
  : M unit :=
  '(variable_list, ema, variable_lookup) ← collect_variables self;
  (if String.eqb (mode self) "infer"
   then infer_block self sequence_length predict predict_mask
          transition_matrix
   else mret tt);;
  variable_lookup ←
    (if String.eqb (mode self) "train"
     then train_block self label sequence_length predict transition_matrix
            variable_list ema variable_lookup
     else mret variable_lookup);
  create_checkpoint_saver self variable_lookup.

(** [SequenceCRF.__init__], entered after [BaseModel.__init__] has filled
    [self : base]. *)
Definition __init__ (self : base) : M unit :=
  variable_scope (scope self) (
    global_step ← get_variable "global_step";
    set_attr "global_step" (VTensor global_step);;
    let text_word := input_text_word (pipeline self) in
    let text_word_mask := input_text_word_mask (pipeline self) in
    let text_char := input_text_char (pipeline self) in
    let text_char_mask := input_text_char_mask (pipeline self) in
    let label := input_label (pipeline self) in
    let label_mask := input_label_mask (pipeline self) in
    let sequence_length := ReduceSum label_mask (-1) in
    log_print "# build graph";;
    r ← _build_graph self text_word text_word_mask text_char text_char_mask;
    '(predict, predict_mask, transition_matrix) ← unpack3 r;
    after_build_graph self label sequence_length predict predict_mask
      transition_matrix).

Definition get_saver (name : string) : M saver :=
  v ← get_attr name;
  match v with
  | VSaver sv => mret sv
  | _ => raise (AttributeError "object has no attribute 'save'")
  end.

Definition get_str (name : string) : M string :=
  v ← get_attr name;
  match v with
  | VStr s => mret s
  | _ => raise (TypeError "expected str, bytes or os.PathLike object")
  end.

Definition save (sess : pyobj) (global_step : Z) (save_mode : string)
  : M unit :=
  if String.eqb save_mode "debug" then
    sv ← get_saver "ckpt_debug_saver";
    name ← get_str "ckpt_debug_name";
    Saver_save sv sess name global_step
  else if String.eqb save_mode "epoch" then
    sv ← get_saver "ckpt_epoch_saver";
    name ← get_str "ckpt_epoch_name";
    Saver_save sv sess name global_step
  else
    raise (ValueError ("unsupported save mode " +:+ save_mode)).

Context `{CheckpointStore}.

Definition get_restorer (name : string) : M saver :=
  v ← get_attr name;
  match v with
  | VSaver sv => mret sv
  | _ => raise (AttributeError "object has no attribute 'restore'")
  end.

(** [ckpt_file] is [None] or a path. *)
Definition restore (sess : pyobj) (ckpt_file : option string)
    (ckpt_type : string) : M unit :=
  match ckpt_file with
  | None => raise (FileNotFoundError "checkpoint file doesn't exist")
  | Some ckpt_file =>
      if String.eqb ckpt_type "debug" then
        sv ← get_restorer "ckpt_debug_saver";
        Saver_restore sv sess ckpt_file
      else if String.eqb ckpt_type "epoch" then
        sv ← get_restorer "ckpt_epoch_saver";
        Saver_restore sv sess ckpt_file
      else
        raise (ValueError ("unsupported checkpoint type " +:+ ckpt_type))
  end.

Definition get_latest_ckpt (ckpt_type : string) : M string :=
  if String.eqb ckpt_type "debug" then
    dir ← get_str "ckpt_debug_dir";
    s ← get_state;
    match latest_checkpoint s dir with
    | None =>
        raise (FileNotFoundError "latest checkpoint file doesn't exist")
    | Some ckpt_file => mret ckpt_file
    end
  else if String.eqb ckpt_type "epoch" then
    dir ← get_str "ckpt_epoch_dir";
    s ← get_state;
    match latest_checkpoint s dir with
    | None =>
        raise (FileNotFoundError "latest checkpoint file doesn't exist")
    | Some ckpt_file => mret ckpt_file
    end
  else
    raise (ValueError ("unsupported checkpoint type " +:+ ckpt_type)).

Definition get_ckpt_list (ckpt_type : string) : M (list string) :=
  if String.eqb ckpt_type "debug" then
    dir ← get_str "ckpt_debug_dir";
    s ← get_state;
    match get_checkpoint_state s dir with
    | None => raise (FileNotFoundError "checkpoint files doesn't exist")
    | Some all_model_checkpoint_paths => mret all_model_checkpoint_paths
    end
  else if String.eqb ckpt_type "epoch" then
    dir ← get_str "ckpt_epoch_dir";
    s ← get_state;
    match get_checkpoint_state s dir with
    | None => raise (FileNotFoundError "checkpoint files doesn't exist")
    | Some all_model_checkpoint_paths => mret all_model_checkpoint_paths
    end
  else
    raise (ValueError ("unsupported checkpoint type " +:+ ckpt_type)).

End Methods.
End SequenceCRF.

(* ------------------------------------------------------------------------- *)
(** ** Values of tensors *)

(** An n-dimensional array of floats: a scalar, or a list of sub-arrays
    along the leading axis. *)
Inductive arr : Type :=
| Scalar (x : float)
| Arr (xs : list arr).

(** Multiplication of two [tf.float32] elements: the IEEE 754 binary32
    product.  A kernel that flushes subnormal numbers to zero computes
    [mulf_flushed] instead; the two agree wherever one factor is a zero
    (lemma [mulf_flushed_masked]), which is where the results below use
    the product. *)
Definition mulf (a b : float) : float := SFmul 24 128 a b.

(** A subnormal binary32 number (a significand below [2^23]) replaced by
    the zero of its sign. *)
Definition flush (a : float) : float :=
  match a with
  | S754_finite sign m _ =>
      if (Z.pos m <? 2 ^ 23)%Z then S754_zero sign else a
  | _ => a
  end.

Definition mulf_flushed (a b : float) : float :=
  flush (mulf (flush a) (flush b)).

Definition is_zero (a : float) : bool :=
  match a with S754_zero _ => true | _ => false end.

(** Neither NaN nor an infinity. *)
Definition is_finite (a : float) : bool :=
  match a with S754_zero _ | S754_finite _ _ _ => true | _ => false end.

Fixpoint rank (x : arr) : nat :=
  match x with
  | Scalar _ => 0
  | Arr [] => 1
  | Arr (x0 :: _) => S (rank x0)
  end.

(** All sub-results, or [None] when one of them fails. *)
Fixpoint sequence {A} (l : list (option A)) : option (list A) :=
  match l with
  | [] => Some []
  | Some a :: l' => option_map (cons a) (sequence l')
  | None :: _ => None
  end.

(** Element-wise product of arrays of the same rank, an axis of length one
    being stretched to the length of the other operand's axis. *)
Fixpoint bmul (x y : arr) {struct x} : option arr :=
  match x, y with
  | Scalar a, Scalar b => Some (Scalar (mulf a b))
  | Arr xs, Arr ys =>
      match xs, ys with
      | _, [y0] =>
          option_map Arr (sequence (map (fun x' => bmul x' y0) xs))
      | [x0], _ =>
          option_map Arr (sequence (map (fun y' => bmul x0 y') ys))
      | _, _ =>
          option_map Arr
            ((fix zip (l1 : list arr) (l2 : list arr) : option (list arr) :=
                match l1, l2 with
                | [], [] => Some []
                | a :: l1', b :: l2' =>
                    match bmul a b, zip l1' l2' with
                    | Some r, Some rs => Some (r :: rs)
                    | _, _ => None
                    end
                | _, _ => None
                end) xs ys)
      end
  | _, _ => None
  end.

(** [n] leading axes of length one. *)
Fixpoint pad (n : nat) (x : arr) : arr :=
  match n with
  | O => x
  | S n' => Arr [pad n' x]
  end.

(** [x * y] on tensors: the operand of lower rank gets leading axes of
    length one, then the product is taken axis by axis. *)
Definition tf_mul (x y : arr) : option arr :=
  let r := Nat.max (rank x) (rank y) in
  bmul (pad (r - rank x) x) (pad (r - rank y) y).

(** Drop axis [k], which must have length one. *)
Fixpoint squeeze_at (k : nat) (x : arr) : option arr :=
  match k, x with
  | O, Arr [x0] => Some x0
  | S k', Arr xs => option_map Arr (sequence (map (squeeze_at k') xs))
  | _, _ => None
  end.

(** Insert an axis of length one at position [k]. *)
Fixpoint expand_at (k : nat) (x : arr) : option arr :=
  match k, x with
  | O, _ => Some (Arr [x])
  | S k', Arr xs => option_map Arr (sequence (map (expand_at k') xs))
  | S _, Scalar _ => None
  end.

(** [tf.squeeze(x, axis=axis)]; a negative axis counts from the last. *)
Definition tf_squeeze (x : arr) (axis : Z) : option arr :=
  let k := if axis <? 0 then Z.of_nat (rank x) + axis else axis in
  if (0 <=? k) && (k <? Z.of_nat (rank x))
  then squeeze_at (Z.to_nat k) x else None.

(** [tf.expand_dims(x, axis=axis)] *)
Definition tf_expand_dims (x : arr) (axis : Z) : option arr :=
  let k := if axis <? 0 then Z.of_nat (rank x) + 1 + axis else axis in
  if (0 <=? k) && (k <=? Z.of_nat (rank x))
  then expand_at (Z.to_nat k) x else None.

(** The element at an index path. *)
Fixpoint get (x : arr) (p : list nat) : option float :=
  match x, p with
  | Scalar a, [] => Some a
  | Arr xs, i :: p' =>
      match nth_error xs i with
      | Some x' => get x' p'
      | None => None
      end
  | _, _ => None
  end.

(** The element an operand contributes at an index path of a product: on
    an axis of length one every index reads the only entry. *)
Fixpoint get_stretched (x : arr) (p : list nat) : option float :=
  match x, p with
  | Scalar a, [] => Some a
  | Arr [x0], _ :: p' => get_stretched x0 p'
  | Arr xs, i :: p' =>
      match nth_error xs i with
      | Some x' => get_stretched x' p'
      | None => None
      end
  | _, _ => None
  end.

(** The element of operand [x] at path [p] of a product of rank [r]. *)
Definition operand_at (r : nat) (x : arr) (p : list nat) : option float :=
  get_stretched (pad (r - rank x) x) p.

(** What a run of the graph is given: the fed inputs, the variable values
    (inside the layers' meaning), and the random draws [noise] the layers
    may consume. *)
Record interp (noise : Type) : Type := {
  feed : string -> option arr;
  variable_value : variable -> option arr;
  layer_apply : layer -> noise -> list arr -> nat -> option arr;
  fusion_apply : layer -> noise -> list arr -> list arr -> nat -> option arr;
  op_apply : string -> list arr -> nat -> option arr
}.
Arguments feed {noise}.
Arguments variable_value {noise}.
Arguments layer_apply {noise}.
Arguments fusion_apply {noise}.
Arguments op_apply {noise}.

Section Eval.
Context {noise : Type} (I : interp noise) (n : noise).

(** The value of a node in one run. The element-wise operations are
    computed; everything else is the framework's. *)
Fixpoint eval (t : tensor) : option arr :=
  let evals :=
    fix evals (l : list tensor) : option (list arr) :=
      match l with
      | [] => Some []
      | t :: l' =>
          match eval t, evals l' with
          | Some v, Some vs => Some (v :: vs)
          | _, _ => None
          end
      end in
  match t with
  | Input name => feed I name
  | Var v => variable_value I v
  | Const c => Some (Scalar c)
  | Squeeze x axis =>
      match eval x with Some v => tf_squeeze v axis | None => None end
  | ExpandDims x axis =>
      match eval x with Some v => tf_expand_dims v axis | None => None end
  | Mul x y =>
      match eval x, eval y with
      | Some v, Some w => tf_mul v w
      | _, _ => None
      end
  | Call l args k =>
      match evals args with
      | Some vs => layer_apply I l n vs k
      | None => None
      end
  | CallLists l feats masks k =>
      match evals feats, evals masks with
      | Some fs, Some ms => fusion_apply I l n fs ms k
      | _, _ => None
      end
  | Add x y =>
      match eval x, eval y with
      | Some v, Some w => op_apply I "add" [v; w] 0
      | _, _ => None
      end
  | ReduceSum x _ =>
      match eval x with
      | Some v => op_apply I "reduce_sum" [v] 0
      | None => None
      end
  | ReduceMean x =>
      match eval x with
      | Some v => op_apply I "reduce_mean" [v] 0
      | None => None
      end
  | CrfDecode x y z k =>
      match eval x, eval y, eval z with
      | Some a, Some b, Some c => op_apply I "crf_decode" [a; b; c] k
      | _, _, _ => None
      end
  | CrfLogLikelihood x y z w k =>
      match eval x, eval y, eval z, eval w with
      | Some a, Some b, Some c, Some d =>
          op_apply I "crf_log_likelihood" [a; b; c; d] k
      | _, _, _, _ => None
      end
  | ApplyRegularization _ ws =>
      match evals ws with
      | Some vs => op_apply I "apply_regularization" vs 0
      | None => None
      end
  | Opaque name args =>
      match evals args with
      | Some vs => op_apply I name vs 0
      | None => None
      end
  | EmbeddingPlaceholder _ => None
  | EmaApply _ _ _ => None
  | EmaAverage _ v => variable_value I v
  end.

Fixpoint evals (l : list tensor) : option (list arr) :=
  match l with
  | [] => Some []
  | t :: l' =>
      match eval t, evals l' with
      | Some v, Some vs => Some (v :: vs)
      | _, _ => None
      end
  end.

End Eval.

(** The dropout rates a layer object was built with. *)
Definition layer_rates (l : layer) : list float :=
  match l with
  | create_embedding_layer _ _ _ _ _ _ _ => []
  | create_dropout_layer d _ _ => [d]
  | create_convolution_layer _ _ _ _ _ _ _ _ d _ _ _ _ _ _ _ _ => d
  | create_pooling_layer _ _ _ _ _ => []
  | FusionModule _ _ _ _ _ d _ _ _ _ _ => [d]
  | create_recurrent_layer _ _ _ _ _ d _ _ _ _ _ _ _ => [d]
  | create_dense_layer _ _ _ _ _ d _ _ _ _ _ _ _ _ => d
  end.

(** No dropout: every rate is the literal [0.0]. *)
Definition no_dropout (l : layer) : Prop :=
  Forall (fun d => d = f0) (layer_rates l).

(** Every layer called in a node has no dropout. *)
Fixpoint dropout_free (t : tensor) : Prop :=
  let all := fix all (l : list tensor) : Prop :=
    match l with
    | [] => True
    | t :: l' => dropout_free t /\ all l'
    end in
  match t with
  | Input _ | Var _ | Const _ | EmbeddingPlaceholder _
  | EmaApply _ _ _ | EmaAverage _ _ => True
  | Squeeze x _ | ExpandDims x _ | ReduceSum x _ | ReduceMean x =>
      dropout_free x
  | Mul x y | Add x y => dropout_free x /\ dropout_free y
  | Call l args _ => no_dropout l /\ all args
  | CallLists l feats masks _ => no_dropout l /\ all feats /\ all masks
  | CrfDecode x y z _ => dropout_free x /\ dropout_free y /\ dropout_free z
  | CrfLogLikelihood x y z w _ =>
      dropout_free x /\ dropout_free y /\ dropout_free z /\ dropout_free w
  | ApplyRegularization _ ws => all ws
  | Opaque _ args => all args
  end.

(** A layer without dropout draws nothing: its result is the same whatever
    the random draws of the run. *)
Definition noise_only_through_dropout {noise} (I : interp noise) : Prop :=
  forall l, no_dropout l ->
    (forall n1 n2 vs k, layer_apply I l n1 vs k = layer_apply I l n2 vs k) /\
    (forall n1 n2 fs ms k,
        fusion_apply I l n1 fs ms k = fusion_apply I l n2 fs ms k).

(* ------------------------------------------------------------------------- *)
(** ** The prediction graph as terms

    The values the locals of [_build_representation_layer] and
    [_build_modeling_layer] hold when the functions return, named after
    those locals. [k] selects the component of a returned tuple: [0] the
    values, [1] the mask. *)

Module Graph.
Section Terms.
Context (self : base)
        (text_word text_word_mask text_char text_char_mask : tensor).
Let hp := hparams self.

Definition word_feat_layer : WordFeat.t :=
  {| WordFeat.vocab_size := data_word_vocab_size hp;
     WordFeat.embed_dim := model_word_embed_dim hp;
     WordFeat.dropout := SequenceCRF.word_dropout self;
     WordFeat.pretrained := model_word_embed_pretrained hp;
     WordFeat.random_seed := train_random_seed hp;
     WordFeat.trainable := model_word_feat_trainable hp;
     WordFeat.scope := "word_feat";
     WordFeat.embedding_layer :=
       create_embedding_layer (data_word_vocab_size hp)
         (model_word_embed_dim hp) (model_word_embed_pretrained hp) 0 0
         (train_random_seed hp) (model_word_feat_trainable hp);
     WordFeat.dropout_layer :=
       create_dropout_layer (SequenceCRF.word_dropout self) 0 0 |}.

Definition char_feat_layer : CharFeat.t :=
  {| CharFeat.vocab_size := data_char_vocab_size hp;
     CharFeat.embed_dim := model_char_embed_dim hp;
     CharFeat.unit_dim := model_char_unit_dim hp;
     CharFeat.window_size := model_char_window_size hp;
     CharFeat.activation := model_char_hidden_activation hp;
     CharFeat.pooling_type := model_char_pooling_type hp;
     CharFeat.dropout := SequenceCRF.char_dropout self;
     CharFeat.num_gpus := num_gpus self;
     CharFeat.default_gpu_id := default_gpu_id self;
     CharFeat.regularizer := regularizer self;
     CharFeat.random_seed := train_random_seed hp;
     CharFeat.trainable := model_char_feat_trainable hp;
     CharFeat.scope := "char_feat";
     CharFeat.embedding_layer :=
       create_embedding_layer (data_char_vocab_size hp)
         (model_char_embed_dim hp) false 0 0 (train_random_seed hp)
         (model_char_feat_trainable hp);
     CharFeat.conv_layer :=
       create_convolution_layer "stacked_multi_1d" 1
         (model_char_embed_dim hp) (model_char_unit_dim hp)
         (model_char_window_size hp) 1 "SAME"
         (model_char_hidden_activation hp)
         [SequenceCRF.char_dropout self] None false false
         (num_gpus self) (default_gpu_id self) (regularizer self)
         (train_random_seed hp) (model_char_feat_trainable hp);
     CharFeat.pooling_layer :=
       create_pooling_layer (model_char_pooling_type hp) (-1) 1 0 0 |}.

(** The word-level stream: embedding, mask, dropout layer. *)
Definition text_word_feat (k : nat) : tensor :=
  Call (WordFeat.dropout_layer word_feat_layer)
       [WordFeat.input_word_embedding word_feat_layer text_word
          text_word_mask;
        text_word_mask] k.

(** The character-level stream: embedding, mask, convolution, pooling. *)
Definition text_char_feat (k : nat) : tensor :=
  let m := CharFeat.input_char_embedding_mask text_char_mask in
  let e := CharFeat.input_char_embedding char_feat_layer text_char
             text_char_mask in
  Call (CharFeat.pooling_layer char_feat_layer)
       [Call (CharFeat.conv_layer char_feat_layer) [e; m] 0;
        Call (CharFeat.conv_layer char_feat_layer) [e; m] 1] k.

(** The enabled streams, word-level first. *)
Definition text_feat_list (k : nat) : list tensor :=
  (if model_word_feat_enable hp then [text_word_feat k] else []) ++
  (if model_char_feat_enable hp then [text_char_feat k] else []).

Definition word_unit_dim : Z :=
  if model_word_feat_enable hp then model_word_embed_dim hp else 0.

Definition char_unit_dim : Z :=
  if model_char_feat_enable hp then model_char_unit_dim hp else 0.

Definition feat_fusion_layer : layer :=
  FusionModule (word_unit_dim + char_unit_dim) (model_fusion_unit_dim hp)
    (model_fusion_type hp) (model_fusion_num_layer hp)
    (model_fusion_hidden_activation hp) (SequenceCRF.fusion_dropout self)
    (num_gpus self) (default_gpu_id self) (regularizer self)
    (train_random_seed hp) (model_fusion_trainable hp).

Definition sequence_modeling_layer : layer :=
  create_recurrent_layer "bi" (model_sequence_num_layer hp)
    (model_sequence_unit_dim hp) (model_sequence_cell_type hp)
    (model_sequence_hidden_activation hp) (SequenceCRF.sequence_dropout self)
    (model_sequence_forget_bias hp) (model_sequence_residual_connect hp)
    None (num_gpus self) (default_gpu_id self) (train_random_seed hp)
    (model_sequence_trainable hp).

Definition projection_modeling_layer : layer :=
  create_dense_layer "single" 1 (model_projection_unit_dim hp) 1 EmptyString
    [f0]
    None false false (num_gpus self) (default_gpu_id self)
    (regularizer self) (train_random_seed hp)
    (model_projection_trainable hp).

(** The layers in the order they are built, each with the variable scopes
    open at that point, below the scopes [sc] of the caller. *)
Definition layers_built (sc : list string) : list (list string * layer) :=
  (if model_word_feat_enable hp then
     [(sc ++ ["graph"; "representation"; "word_feat"],
       WordFeat.embedding_layer word_feat_layer);
      (sc ++ ["graph"; "representation"; "word_feat"],
       WordFeat.dropout_layer word_feat_layer)]
   else []) ++
  (if model_char_feat_enable hp then
     [(sc ++ ["graph"; "representation"; "char_feat"],
       CharFeat.embedding_layer char_feat_layer);
      (sc ++ ["graph"; "representation"; "char_feat"],
       CharFeat.conv_layer char_feat_layer);
      (sc ++ ["graph"; "representation"; "char_feat"],
       CharFeat.pooling_layer char_feat_layer)]
   else []) ++
  [(sc ++ ["graph"; "representation"], feat_fusion_layer);
   (sc ++ ["graph"; "modeling"], sequence_modeling_layer);
   (sc ++ ["graph"; "modeling"], projection_modeling_layer)].

(** The lines the logger receives while the graph is built. *)
Definition lines_logged : list string :=
  (if model_word_feat_enable hp
   then ["# build word-level representation layer"] else []) ++
  (if model_char_feat_enable hp
   then ["# build char-level representation layer"] else []) ++
  ["# build sequence modeling layer"].

(** [self.word_embedding_placeholder] *)
Definition word_embedding_placeholder : value :=
  if model_word_feat_enable hp
  then VTensor (WordFeat.get_embedding_placeholder word_feat_layer)
  else VNone.

(** The fused features, the recurrent layer's output, the projection. *)
Definition text_feat (k : nat) : tensor :=
  CallLists feat_fusion_layer (text_feat_list 0) (text_feat_list 1) k.

Definition text_sequence_modeling (k : nat) : tensor :=
  Call sequence_modeling_layer [text_feat 0; text_feat 1] k.

Definition text_projection_modeling (k : nat) : tensor :=
  Call projection_modeling_layer
       [text_sequence_modeling 0; text_sequence_modeling 1] k.

(** The state [_build_graph] leaves, from the state it starts in. *)
Definition state_after (s : state) : state :=
  {| attributes :=
       <["word_embedding_placeholder" := word_embedding_placeholder]>
         (attributes s);
     log := log s ++ lines_logged;
     scopes := scopes s;
     built := built s ++ layers_built (scopes s);
     control := control s;
     dirs := dirs s;
     saved := saved s |}.

End Terms.
End Graph.

(* ------------------------------------------------------------------------- *)
(** ** Vocabulary of the results *)

(** [untouched k m]: running [m] leaves attribute [k] of [self] as it was
    (also when [m] raises). *)
Definition untouched {A} (k : string) (m : M A) : Prop :=
  forall s, attributes (snd (m s)) !! k = attributes s !! k.

(** The attributes each block of [__init__] assigns. *)
Definition checkpoint_attributes : list string :=
  ["ckpt_debug_dir"; "ckpt_epoch_dir"; "ckpt_debug_name"; "ckpt_epoch_name";
   "ckpt_debug_saver"; "ckpt_epoch_saver"].

Definition infer_attributes : list string :=
  ["infer_predict"; "infer_predict_mask"; "infer_summary"].

Definition train_attributes : list string :=
  ["train_loss"; "initial_learning_rate"; "warmup_learning_rate";
   "decayed_learning_rate"; "learning_rate"; "optimizer"; "update_model";
   "clipped_gradients"; "gradient_norm"; "update_op"; "variable_lookup";
   "train_summary"].

(** The scopes, layers, control contexts and calls of [Saver.save] are the
    same. *)
Definition same_world (s s' : state) : Prop :=
  scopes s' = scopes s /\ built s' = built s /\ control s' = control s /\
  saved s' = saved s.

(** The message Python gives when two values are unpacked into three
    names. *)
Definition unpack_message : string :=
  "not enough values to unpack (expected 3, got 2)".

Section Collections.
Context `{Framework}.

(** [tf.get_collection(tf.GraphKeys.TRAINABLE_VARIABLES)] in state [s]. *)
Definition variables_in (s : state) : list variable :=
  flat_map (fun b => trainable_variables (fst b) (snd b)) (built s).

(** [tf.get_collection(tf.GraphKeys.REGULARIZATION_LOSSES)] in state [s]. *)
Definition regularization_in (s : state) : list tensor :=
  flat_map (fun b => regularization_losses (fst b) (snd b)) (built s).

Context (self : base).

(** [self.ema], when moving averages are enabled. *)
Definition ema_object : option float :=
  if train_ema_enable (hparams self)
  then Some (train_ema_decay_rate (hparams self)) else None.

(** The lookup after lines 48-53: keyed by variable name, or by average
    name when moving averages are enabled; the values are the variables. *)
Definition lookup_of_variables (s : state) : gmap string tensor :=
  if train_ema_enable (hparams self)
  then dict_of (average_name (scopes s)) Var (variables_in s)
  else dict_of op_name Var (variables_in s).

(** The lookup after the training branch: with moving averages, the
    averages under their average names. *)
Definition lookup_of_averages (sc : list string)
    (variable_list : list variable) (variable_lookup : gmap string tensor)
  : gmap string tensor :=
  match ema_object with
  | Some ema => dict_of (average_name sc) (EmaAverage ema) variable_list
  | None => variable_lookup
  end.

(** The lookup both savers are built over. *)
Definition saver_lookup (s : state) : gmap string tensor :=
  if String.eqb (mode self) "train"
  then lookup_of_averages (scopes s) (variables_in s) (lookup_of_variables s)
  else lookup_of_variables s.

(** The loss the training branch minimizes. *)
Definition train_loss_in (s : state)
    (label sequence_length predict transition_matrix : tensor) : tensor :=
  let loss :=
    SequenceCRF._compute_loss label predict sequence_length
      transition_matrix in
  if train_regularization_enable (hparams self)
  then Add loss (ApplyRegularization (regularizer self) (regularization_in s))
  else loss.

(** [self.update_op] from [self.update_model]. *)
Definition update_op_of (variable_list : list variable)
    (control_inputs : list tensor) (update_model : tensor) : tensor :=
  match ema_object with
  | Some ema =>
      EmaApply ema variable_list (control_inputs ++ [update_model])
  | None => update_model
  end.

End Collections.

(** The ops an op waits for. *)
Definition control_inputs (t : tensor) : list tensor :=
  match t with
  | EmaApply _ _ ops => ops
  | _ => []
  end.

(** An order of execution honours control dependencies when every op in it
    comes after each of its control inputs. *)
Definition honours_control (order : list tensor) : Prop :=
  forall i op, order !! i = Some op ->
  forall c, c ∈ control_inputs op ->
  exists j, (j < i)%nat /\ order !! j = Some c.

(** The names of the fed inputs a node reads. *)
Fixpoint inputs_of (t : tensor) : list string :=
  let all := fix all (l : list tensor) : list string :=
    match l with
    | [] => []
    | t :: l' => inputs_of t ++ all l'
    end in
  match t with
  | Input name => [name]
  | Var _ | Const _ | EmbeddingPlaceholder _
  | EmaApply _ _ _ | EmaAverage _ _ => []
  | Squeeze x _ | ExpandDims x _ | ReduceSum x _ | ReduceMean x =>
      inputs_of x
  | Mul x y | Add x y => inputs_of x ++ inputs_of y
  | Call _ args _ => all args
  | CallLists _ feats masks _ => all feats ++ all masks
  | CrfDecode x y z _ => inputs_of x ++ inputs_of y ++ inputs_of z
  | CrfLogLikelihood x y z w _ =>
      inputs_of x ++ inputs_of y ++ inputs_of z ++ inputs_of w
  | ApplyRegularization _ ws => all ws
  | Opaque _ args => all args
  end.

Fixpoint inputs_of_all (l : list tensor) : list string :=
  match l with
  | [] => []
  | t :: l' => inputs_of t ++ inputs_of_all l'
  end.

(** Two runs that differ at most in what is fed. *)
Definition same_but_feed {noise} (I1 I2 : interp noise) : Prop :=
  variable_value I1 = variable_value I2 /\
  layer_apply I1 = layer_apply I2 /\
  fusion_apply I1 = fusion_apply I2 /\
  op_apply I1 = op_apply I2.

(** [self] with another mode. *)
Definition with_mode (m : string) (self : base) : base :=
  {| hparams := hparams self; pipeline := pipeline self; mode := m;
     scope := scope self; num_gpus := num_gpus self;
     default_gpu_id := default_gpu_id self; regularizer := regularizer self |}.

(** The state with one more call of [Saver.save] made. *)
Definition with_saved (s : state) (e : save_event) : state :=
  {| attributes := attributes s; log := log s; scopes := scopes s;
     built := built s; control := control s; dirs := dirs s;
     saved := saved s ++ [e] |}.

(** The inputs of the enabled streams. *)
Definition enabled_inputs (self : base)
    (text_word text_word_mask text_char text_char_mask : tensor)
  : list string :=
  (if model_word_feat_enable (hparams self)
   then inputs_of text_word ++ inputs_of text_word_mask else []) ++
  (if model_char_feat_enable (hparams self)
   then inputs_of text_char ++ inputs_of text_char_mask else []).

(** [l] with [d] added at the end unless it is there. *)
Definition ensure (d : string) (l : list string) : list string :=
  if existsb (String.eqb d) l then l else l ++ [d].

(** The state with other directories. *)
Definition with_dirs (s : state) (l : list string) : state :=
  {| attributes := attributes s; log := log s; scopes := scopes s;
     built := built s; control := control s; dirs := l; saved := saved s |}.

(** The entry of a list that index [i] reads once an axis of length one is
    stretched. *)
Definition stretched_nth (l : list arr) (i : nat) : option arr :=
  match l with
  | [a] => Some a
  | _ => nth_error l i
  end.

(* ------------------------------------------------------------------------- *)
(** ** A concrete configuration

    A small model with both streams, moving averages and regularization
    switched on, used to run the definitions. *)

Module Example.

#[local] Instance framework : Framework :=
  {| trainable_variables := fun sc l =>
       match l with
       | create_dropout_layer _ _ _ | create_pooling_layer _ _ _ _ _ => []
       | _ => [Variable_ (String.concat "/" sc +:+ "/kernel")]
       end;
     regularization_losses := fun _ _ => [] |}.

#[local] Instance base_model : BaseModel :=
  {| _get_infer_summary := fun _ _ => Opaque "infer_summary" [];
     _get_train_summary := fun _ _ => Opaque "train_summary" [];
     _apply_learning_rate_warmup := fun _ _ lr => Opaque "warmup" [lr];
     _apply_learning_rate_decay := fun _ _ lr => Opaque "decay" [lr];
     _initialize_optimizer := fun _ _ _ => PyObj "optimizer";
     _minimize_loss := fun _ _ loss =>
       (Opaque "update_model" [loss], Opaque "clipped_gradients" [loss],
        Opaque "gradient_norm" [loss]) |}.

Definition hyperparams : hyperparams :=
  {| data_word_vocab_size := 100; data_char_vocab_size := 50;
     model_word_embed_dim := 8; model_word_dropout := f1;
     model_word_embed_pretrained := false;
     model_word_feat_trainable := true; model_word_feat_enable := true;
     model_char_embed_dim := 4; model_char_unit_dim := 6;
     model_char_window_size := [3];
     model_char_hidden_activation := "relu"; model_char_dropout := f1;
     model_char_pooling_type := "max"; model_char_feat_trainable := true;
     model_char_feat_enable := true; model_fusion_type := "concate";
     model_fusion_num_layer := 1; model_fusion_unit_dim := 14;
     model_fusion_hidden_activation := "relu"; model_fusion_dropout := f1;
     model_fusion_trainable := true; model_sequence_num_layer := 1;
     model_sequence_unit_dim := 10; model_sequence_cell_type := "lstm";
     model_sequence_hidden_activation := "tanh";
     model_sequence_dropout := f1; model_sequence_forget_bias := f1;
     model_sequence_residual_connect := false;
     model_sequence_trainable := true; model_projection_unit_dim := 5;
     model_projection_trainable := true; train_random_seed := 0;
     train_ema_enable := true; train_ema_decay_rate := f1;
     train_regularization_enable := true;
     train_optimizer_learning_rate := f1;
     train_optimizer_warmup_enable := false;
     train_optimizer_decay_enable := false;
     train_ckpt_output_dir := "output"; train_num_epoch := 3 |}.

Definition data_pipeline : data_pipeline :=
  {| input_text_word := Input "text_word";
     input_text_word_mask := Input "text_word_mask";
     input_text_char := Input "text_char";
     input_text_char_mask := Input "text_char_mask";
     input_label := Input "label";
     input_label_mask := Input "label_mask" |}.

(** [self] as [BaseModel.__init__] leaves it for the given mode. *)
Definition model (mode : string) : base :=
  {| hparams := hyperparams; pipeline := data_pipeline; mode := mode;
     scope := "seq_crf"; num_gpus := 1; default_gpu_id := 0;
     regularizer := None |}.

(** A constructed object, as [save] needs one: the four checkpoint
    attributes set, the savers built over a lookup of one variable. *)
Definition variable_lookup : gmap string tensor :=
  {[ "seq_crf/graph/modeling/kernel" :=
       Var (Variable_ "seq_crf/graph/modeling/kernel") ]}.

Definition debug_saver : saver :=
  Saver variable_lookup Saver_default_max_to_keep.
Definition epoch_saver : saver := Saver variable_lookup 3.

Definition constructed : state :=
  {| attributes :=
       <["ckpt_epoch_saver" := VSaver epoch_saver]>
       (<["ckpt_debug_saver" := VSaver debug_saver]>
       (<["ckpt_epoch_name" := VStr "output/epoch/model_epoch_ckpt"]>
       (<["ckpt_debug_name" := VStr "output/debug/model_debug_ckpt"]> ∅)));
     log := []; scopes := []; built := []; control := [];
     dirs := ["output"; "output/debug"; "output/epoch"]; saved := [] |}.

(** The state in which the constructor stops. *)
Definition stopped (mode : string) : state :=
  snd (SequenceCRF.__init__ (model mode) state0).

(** The hyper-parameters above with other switches, and the object that
    holds them. *)
Definition variant (word_feat_enable char_feat_enable ema_enable : bool) :=
  {| data_word_vocab_size := data_word_vocab_size hyperparams;
     data_char_vocab_size := data_char_vocab_size hyperparams;
     model_word_embed_dim := model_word_embed_dim hyperparams;
     model_word_dropout := model_word_dropout hyperparams;
     model_word_embed_pretrained := model_word_embed_pretrained hyperparams;
     model_word_feat_trainable := model_word_feat_trainable hyperparams;
     model_word_feat_enable := word_feat_enable;
     model_char_embed_dim := model_char_embed_dim hyperparams;
     model_char_unit_dim := model_char_unit_dim hyperparams;
     model_char_window_size := model_char_window_size hyperparams;
     model_char_hidden_activation := model_char_hidden_activation hyperparams;
     model_char_dropout := model_char_dropout hyperparams;
     model_char_pooling_type := model_char_pooling_type hyperparams;
     model_char_feat_trainable := model_char_feat_trainable hyperparams;
     model_char_feat_enable := char_feat_enable;
     model_fusion_type := model_fusion_type hyperparams;
     model_fusion_num_layer := model_fusion_num_layer hyperparams;
     model_fusion_unit_dim := model_fusion_unit_dim hyperparams;
     model_fusion_hidden_activation := model_fusion_hidden_activation hyperparams;
     model_fusion_dropout := model_fusion_dropout hyperparams;
     model_fusion_trainable := model_fusion_trainable hyperparams;
     model_sequence_num_layer := model_sequence_num_layer hyperparams;
     model_sequence_unit_dim := model_sequence_unit_dim hyperparams;
     model_sequence_cell_type := model_sequence_cell_type hyperparams;
     model_sequence_hidden_activation := model_sequence_hidden_activation hyperparams;
     model_sequence_dropout := model_sequence_dropout hyperparams;
     model_sequence_forget_bias := model_sequence_forget_bias hyperparams;
     model_sequence_residual_connect := model_sequence_residual_connect hyperparams;
     model_sequence_trainable := model_sequence_trainable hyperparams;
     model_projection_unit_dim := model_projection_unit_dim hyperparams;
     model_projection_trainable := model_projection_trainable hyperparams;
     train_random_seed := train_random_seed hyperparams;
     train_ema_enable := ema_enable;
     train_ema_decay_rate := train_ema_decay_rate hyperparams;
     train_regularization_enable := train_regularization_enable hyperparams;
     train_optimizer_learning_rate := train_optimizer_learning_rate hyperparams;
     train_optimizer_warmup_enable := train_optimizer_warmup_enable hyperparams;
     train_optimizer_decay_enable := train_optimizer_decay_enable hyperparams;
     train_ckpt_output_dir := train_ckpt_output_dir hyperparams;
     train_num_epoch := train_num_epoch hyperparams |}.

Definition model_of (word_feat_enable char_feat_enable ema_enable : bool)
    (mode : string) : base :=
  {| hparams := variant word_feat_enable char_feat_enable ema_enable;
     pipeline := data_pipeline; mode := mode; scope := "seq_crf";
     num_gpus := 1; default_gpu_id := 0; regularizer := None |}.

(** The object as the checkpointing block leaves it, and after two debug
    checkpoints. *)
Definition checkpointed : state :=
  snd (SequenceCRF.create_checkpoint_saver (model "train") variable_lookup
         state0).

(** The state at line 46, where the constructor stops, seen from inside the
    constructor's variable scope. *)
Definition at_line_46 (self : base) : state :=
  let s := snd (SequenceCRF.__init__ self state0) in
  {| attributes := attributes s; log := log s; scopes := [scope self];
     built := built s; control := control s; dirs := dirs s;
     saved := saved s |}.

Definition after_two_saves : state :=
  snd ((SequenceCRF.save (PyObj "session") 1 "debug";;
        SequenceCRF.save (PyObj "session") 2 "debug") checkpointed).

(** A store that finds one checkpoint, named [<path>-<step>], for each
    call of [Saver.save] made (the examples make no more calls than
    [max_to_keep], so the framework deletes none), has a checkpoint state
    for a directory once a checkpoint is there, and whose restore leaves
    a line in the log. *)
Definition written_in (s : state) (dir : string) : list string :=
  flat_map (fun e =>
              if String.prefix dir (ev_save_path e)
              then [ev_save_path e +:+ "-" +:+
                    str_of_nat (Z.to_nat (ev_global_step e))]
              else [])
           (saved s).

#[local] Instance store : CheckpointStore :=
  {| latest_checkpoint := fun s dir => last (written_in s dir);
     get_checkpoint_state := fun s dir =>
       match written_in s dir with
       | [] => None
       | paths => Some paths
       end;
     Saver_restore := fun _ _ path => log_print ("restored " +:+ path) |}.

(** Two runs that agree but for the labels they are fed. *)
Definition labelled_run (label : float) : interp unit :=
  {| feed := fun name =>
       if String.eqb name "label" then Some (Arr [Arr [Scalar label]])
       else Some (Arr [Arr [Arr [Scalar f1]]]);
     variable_value := fun _ => None;
     layer_apply := fun l _ vs _ =>
       match l with
       | create_embedding_layer _ _ _ _ _ _ _ =>
           Some (Arr [Arr [Arr [Arr [Scalar f1]]]])
       | _ => head vs
       end;
     fusion_apply := fun _ _ fs _ _ => head fs;
     op_apply := fun _ _ _ => None |}.

(** A run with one sentence of one word (of one character) whose position
    is masked out, and an embedding table holding an infinity. *)
Definition inf : float := S754_infinity false.

Definition masked_run (e : float) : interp unit :=
  {| feed := fun name =>
       if String.eqb name "text_word" then
         Some (Arr [Arr [Arr [Scalar f1]]])
       else if String.eqb name "text_word_mask" then
         Some (Arr [Arr [Arr [Scalar f0]]])
       else if String.eqb name "text_char" then
         Some (Arr [Arr [Arr [Scalar f1]]])
       else if String.eqb name "text_char_mask" then
         Some (Arr [Arr [Arr [Scalar f0]]])
       else None;
     variable_value := fun _ => None;
     layer_apply := fun l _ vs k =>
       match l, vs with
       | create_embedding_layer _ _ _ _ _ _ _, [Arr [Arr [Arr [Scalar _]]]] =>
           Some (Arr [Arr [Arr [Arr [Scalar e]]]])
       | _, v :: _ => Some v
       | _, [] => None
       end;
     fusion_apply := fun _ _ fs _ _ => head fs;
     op_apply := fun _ _ _ => None |}.

(** A run whose layers add a random draw to their input exactly when they
    have a dropout rate other than [0.0]. *)
Definition rate_is_zero (d : float) : bool :=
  match d with S754_zero false => true | _ => false end.

Definition noisy_run : interp float :=
  {| feed := fun _ => Some (Arr [Arr [Arr [Scalar f1]]]);
     variable_value := fun _ => None;
     layer_apply := fun l n vs _ =>
       match l with
       | create_embedding_layer _ _ _ _ _ _ _ =>
           Some (Arr [Arr [Arr [Arr [Scalar f1]]]])
       | _ =>
           if forallb rate_is_zero (layer_rates l) then head vs
           else Some (Scalar n)
       end;
     fusion_apply := fun l n fs _ _ =>
       if forallb rate_is_zero (layer_rates l) then head fs
       else Some (Scalar n);
     op_apply := fun _ _ _ => None |}.

End Example.

(* ------------------------------------------------------------------------- *)
(** ** Results: running the graph builder *)

(** Symbolic execution of the statements: unfold the monad and the methods,
    leaving the framework's lists and maps alone. *)
Ltac run :=
  cbv beta iota zeta delta
    [mbind mret M_bind M_ret bind ret raise modify get_state log_print
     set_attr build set_scopes set_control variable_scope with_block
     control_dependencies unpack2 unpack3 fst snd
     attributes log scopes built control dirs saved
     WordFeat.__init__ WordFeat.__call__ CharFeat.__init__ CharFeat.__call__
     WordFeat.scope WordFeat.embedding_layer WordFeat.dropout_layer
     WordFeat.get_embedding_placeholder
     CharFeat.scope CharFeat.embedding_layer CharFeat.conv_layer
     CharFeat.pooling_layer
     SequenceCRF._build_graph SequenceCRF._build_representation_layer
     SequenceCRF._build_modeling_layer SequenceCRF.get_variable
     SequenceCRF.this].

Ltac graph_terms :=
  cbv beta iota zeta delta
    [Graph.state_after Graph.text_projection_modeling
     Graph.text_sequence_modeling Graph.text_feat Graph.text_feat_list
     Graph.text_word_feat Graph.text_char_feat
     Graph.feat_fusion_layer Graph.sequence_modeling_layer
     Graph.projection_modeling_layer Graph.word_feat_layer
     Graph.char_feat_layer Graph.word_unit_dim Graph.char_unit_dim
     Graph.layers_built Graph.lines_logged Graph.word_embedding_placeholder].

Ltac by_flags self :=
  destruct (model_word_feat_enable (hparams self)),
           (model_char_feat_enable (hparams self)).

Section GraphResults.
Context `{Framework} `{BaseModel}.
Context (self : base)
        (text_word text_word_mask text_char text_char_mask : tensor).

Local Abbreviation word_feat k :=
  (Graph.text_word_feat self text_word text_word_mask k).
Local Abbreviation char_feat k :=
  (Graph.text_char_feat self text_char text_char_mask k).
Local Abbreviation feat_list k :=
  (Graph.text_feat_list self text_word text_word_mask text_char
     text_char_mask k).
Local Abbreviation projection k :=
  (Graph.text_projection_modeling self text_word text_word_mask text_char
     text_char_mask k).

Lemma build_representation_layer_run (s : state) :
  exists s',
    SequenceCRF._build_representation_layer self text_word text_word_mask
      text_char text_char_mask s
    = (Ok [CallLists (Graph.feat_fusion_layer self)
             (feat_list 0%nat) (feat_list 1%nat) 0;
           CallLists (Graph.feat_fusion_layer self)
             (feat_list 0%nat) (feat_list 1%nat) 1], s') /\
    built s' =
      built s ++
      (if model_word_feat_enable (hparams self) then
         [(scopes s ++ ["representation"; "word_feat"],
           WordFeat.embedding_layer (Graph.word_feat_layer self));
          (scopes s ++ ["representation"; "word_feat"],
           WordFeat.dropout_layer (Graph.word_feat_layer self))]
       else []) ++
      (if model_char_feat_enable (hparams self) then
         [(scopes s ++ ["representation"; "char_feat"],
           CharFeat.embedding_layer (Graph.char_feat_layer self));
          (scopes s ++ ["representation"; "char_feat"],
           CharFeat.conv_layer (Graph.char_feat_layer self));
          (scopes s ++ ["representation"; "char_feat"],
           CharFeat.pooling_layer (Graph.char_feat_layer self))]
       else []) ++
      [(scopes s ++ ["representation"], Graph.feat_fusion_layer self)].
Proof.
  run; graph_terms.
  by_flags self; run; eexists; (split; [reflexivity |]);
    run; rewrite <- ?app_assoc; cbn [app]; reflexivity.
Qed.

Lemma build_graph_run (s : state) :
  SequenceCRF._build_graph self text_word text_word_mask text_char
    text_char_mask s
  = (Ok [projection 0%nat; projection 1%nat], Graph.state_after self s).
Proof.
  run; graph_terms.
  by_flags self; run; rewrite <- ?app_assoc; cbn [app]; reflexivity.
Qed.

End GraphResults.

(* ------------------------------------------------------------------------- *)
(** ** Results: what the prediction graph is made of *)

Section Composition.
Context `{Framework} `{BaseModel}.

(** C8. For every setting of the hyperparameters the fusion module is called
    on exactly the enabled feature streams, the word-level stream before
    the character-level stream, and is built with an input dimension equal
    to [word_embed_dim] if the word stream is enabled (else 0) plus
    [char_unit_dim] if the character stream is enabled (else 0). *)
Theorem fusion_takes_enabled_streams (self : base)
    (text_word text_word_mask text_char text_char_mask : tensor) (s : state) :
  let hp := hparams self in
  let streams (k : nat) :=
    (if model_word_feat_enable hp
     then [Graph.text_word_feat self text_word text_word_mask k] else []) ++
    (if model_char_feat_enable hp
     then [Graph.text_char_feat self text_char text_char_mask k] else []) in
  let input_unit_dim :=
    (if model_word_feat_enable hp then model_word_embed_dim hp else 0) +
    (if model_char_feat_enable hp then model_char_unit_dim hp else 0) in
  let fusion :=
    FusionModule input_unit_dim (model_fusion_unit_dim hp)
      (model_fusion_type hp) (model_fusion_num_layer hp)
      (model_fusion_hidden_activation hp) (SequenceCRF.fusion_dropout self)
      (num_gpus self) (default_gpu_id self) (regularizer self)
      (train_random_seed hp) (model_fusion_trainable hp) in
  exists s',
    SequenceCRF._build_representation_layer self text_word text_word_mask
      text_char text_char_mask s
    = (Ok [CallLists fusion (streams 0%nat) (streams 1%nat) 0;
           CallLists fusion (streams 0%nat) (streams 1%nat) 1], s') /\
    last (built s') = Some (scopes s ++ ["representation"], fusion).
Proof.
  intros hp streams input_unit_dim fusion.
  destruct (build_representation_layer_run self text_word text_word_mask
              text_char text_char_mask s) as (s' & Hrun & Hbuilt).
  exists s'. split.
  - exact Hrun.
  - rewrite Hbuilt, !app_assoc. apply last_snoc.
Qed.

End Composition.

(* ------------------------------------------------------------------------- *)
(** ** Results: which attributes a block of statements assigns *)

Section Frames.
Context `{Framework} `{BaseModel}.
Context (k : string).

Lemma untouched_ret {A} (a : A) : untouched k (mret a).
Proof. intros s; reflexivity. Qed.

Lemma untouched_raise {A} (e : exn) : untouched k (raise (A := A) e).
Proof. intros s; reflexivity. Qed.

Lemma untouched_bind {A B} (m : M A) (f : A -> M B) :
  untouched k m -> (forall a, untouched k (f a)) -> untouched k (m ≫= f).
Proof.
  intros Hm Hf s. specialize (Hm s).
  unfold mbind, M_bind, bind. destruct (m s) as [[a | e] s1]; cbn in *.
  - rewrite Hf. exact Hm.
  - exact Hm.
Qed.

Lemma untouched_bind_raise {A B} (e : exn) (f : A -> M B) :
  untouched k (raise e ≫= f).
Proof. intros s; reflexivity. Qed.

Lemma untouched_set_attr (name : string) (v : value) :
  name <> k -> untouched k (set_attr name v).
Proof. intros Hne s. cbn. apply lookup_insert_ne. exact Hne. Qed.

Lemma untouched_log_print (msg : string) : untouched k (log_print msg).
Proof. intros s; reflexivity. Qed.

Lemma untouched_get_state : untouched k get_state.
Proof. intros s; reflexivity. Qed.

Lemma untouched_set_scopes (l : list string) : untouched k (set_scopes l).
Proof. intros s; reflexivity. Qed.

Lemma untouched_set_control (l : list tensor) : untouched k (set_control l).
Proof. intros s; reflexivity. Qed.

Lemma untouched_MakeDirs (d : string) : untouched k (gfile_MakeDirs d).
Proof. intros s; reflexivity. Qed.

Lemma untouched_with_block {A} (enter leave : M unit) (body : M A) :
  untouched k enter -> untouched k leave -> untouched k body ->
  untouched k (with_block enter leave body).
Proof.
  intros He Hl Hb. unfold with_block. apply untouched_bind; [exact He |].
  intros _ s. specialize (Hb s). destruct (body s) as [r s1]; cbn in *.
  rewrite Hl. exact Hb.
Qed.

Lemma untouched_control_dependencies {A} (ops : list tensor) (body : M A) :
  untouched k body -> untouched k (control_dependencies ops body).
Proof.
  intros Hb. unfold control_dependencies.
  apply untouched_bind; [apply untouched_get_state |].
  intros s0. apply untouched_with_block;
    [apply untouched_set_control | apply untouched_set_control | exact Hb].
Qed.

Lemma untouched_variable_scope {A} (name : string) (body : M A) :
  untouched k body -> untouched k (variable_scope name body).
Proof.
  intros Hb. unfold variable_scope.
  apply untouched_bind; [apply untouched_get_state |].
  intros s0. apply untouched_with_block;
    [apply untouched_set_scopes | apply untouched_set_scopes | exact Hb].
Qed.

End Frames.

Create HintDb frame.
#[local] Hint Resolve untouched_ret untouched_raise untouched_log_print
  untouched_get_state untouched_set_scopes untouched_set_control
  untouched_MakeDirs : frame.

(** Turn [k ∉ [a; b; ...]] into [k <> a], [k <> b], ... *)
Ltac split_notin Hk :=
  repeat (apply not_elem_of_cons in Hk as [? Hk]).

(** Decide [untouched k m] for a block of statements, by its structure. *)
Ltac frame_step :=
  lazymatch goal with
  | |- untouched _ (with_block _ _ _) => apply untouched_with_block
  | |- untouched _ (control_dependencies _ _) =>
      apply untouched_control_dependencies
  | |- untouched _ (variable_scope _ _) => apply untouched_variable_scope
  | |- untouched _ (mbind _ (raise _)) => apply untouched_bind_raise
  | |- untouched _ (mbind _ _) => apply untouched_bind; [| intros ? ]
  | |- untouched _ (set_attr _ _) =>
      apply untouched_set_attr;
      first [ discriminate | apply not_eq_sym; assumption ]
  | |- untouched _ (if ?b then _ else _) => destruct b
  | |- untouched _ (match ?o with Some _ => _ | None => _ end) => destruct o
  | |- untouched _ (let '(_, _) := ?p in _) => destruct p
  | |- untouched _ _ => solve [ auto with frame ]
  end.

Ltac frame := repeat frame_step.

Section Blocks.
Context `{Framework} `{BaseModel}.

Lemma untouched_this (k : string) : untouched k SequenceCRF.this.
Proof. unfold SequenceCRF.this. frame. Qed.

Lemma untouched_ensure_dir (k d : string) :
  untouched k (SequenceCRF.ensure_dir d).
Proof. unfold SequenceCRF.ensure_dir, gfile_Exists. frame. Qed.

Lemma untouched_get_trainable_variables (k : string) :
  untouched k get_trainable_variables.
Proof. unfold get_trainable_variables. frame. Qed.

Lemma untouched_get_regularization_losses (k : string) :
  untouched k get_regularization_losses.
Proof. unfold get_regularization_losses. frame. Qed.

Lemma untouched_tf_train_Saver (k : string) (var_list : gmap string tensor)
    (max_to_keep : Z) :
  untouched k (tf_train_Saver var_list max_to_keep).
Proof. unfold tf_train_Saver. frame. Qed.

#[local] Hint Resolve untouched_this untouched_ensure_dir
  untouched_get_trainable_variables untouched_get_regularization_losses
  untouched_tf_train_Saver : frame.

Lemma untouched_create_checkpoint_saver (k : string) (self : base)
    (variable_lookup : gmap string tensor) :
  k ∉ checkpoint_attributes ->
  untouched k (SequenceCRF.create_checkpoint_saver self variable_lookup).
Proof.
  intros Hk. split_notin Hk.
  unfold SequenceCRF.create_checkpoint_saver. frame.
Qed.

(** When the framework refuses the savers, the block assigns the
    directories and the checkpoint names only. *)
Lemma untouched_refused_savers (k : string) (self : base)
    (variable_lookup : gmap string tensor) :
  (size variable_lookup =? 0)%nat = true ->
  k ∉ ["ckpt_debug_dir"; "ckpt_epoch_dir"; "ckpt_debug_name";
       "ckpt_epoch_name"] ->
  untouched k (SequenceCRF.create_checkpoint_saver self variable_lookup).
Proof.
  intros Z Hk. split_notin Hk.
  unfold SequenceCRF.create_checkpoint_saver, tf_train_Saver.
  rewrite Z. cbv iota. frame.
Qed.

Lemma untouched_infer_block (k : string) (self : base)
    (sequence_length predict predict_mask transition_matrix : tensor) :
  k ∉ infer_attributes ->
  untouched k (SequenceCRF.infer_block self sequence_length predict
                 predict_mask transition_matrix).
Proof.
  intros Hk. split_notin Hk. unfold SequenceCRF.infer_block. frame.
Qed.

Lemma untouched_train_block (k : string) (self : base)
    (label sequence_length predict transition_matrix : tensor)
    (variable_list : list variable) (ema : option float)
    (variable_lookup : gmap string tensor) :
  k ∉ train_attributes ->
  untouched k (SequenceCRF.train_block self label sequence_length predict
                 transition_matrix variable_list ema variable_lookup).
Proof.
  intros Hk. split_notin Hk.
  unfold SequenceCRF.train_block, SequenceCRF.loss_block,
    SequenceCRF.learning_rate_block, SequenceCRF.minimize_block,
    SequenceCRF.update_op_block, SequenceCRF.ema_apply.
  frame.
Qed.

End Blocks.

#[local] Hint Resolve untouched_this untouched_ensure_dir
  untouched_get_trainable_variables untouched_get_regularization_losses
  untouched_tf_train_Saver : frame.

(* ------------------------------------------------------------------------- *)
(** ** Results: the statements after the graph is built *)

Ltac run_blocks :=
  cbv beta iota zeta delta
    [mbind mret M_bind M_ret bind ret raise modify get_state log_print
     set_attr set_scopes set_control with_block control_dependencies fst snd
     attributes log scopes built control dirs saved
     get_trainable_variables get_regularization_losses
     gfile_Exists gfile_MakeDirs negb
     SequenceCRF.this SequenceCRF.ensure_dir SequenceCRF.collect_variables
     SequenceCRF.infer_block SequenceCRF.loss_block
     SequenceCRF.learning_rate_block SequenceCRF.minimize_block
     SequenceCRF.ema_apply SequenceCRF.update_op_block
     SequenceCRF.train_block SequenceCRF.create_checkpoint_saver
     tf_train_Saver].

(** Look an attribute up through the assignments made so far. *)
Ltac lookup_attr :=
  cbn;
  repeat first
    [ rewrite lookup_insert_eq
    | rewrite lookup_insert_ne by discriminate ];
  try reflexivity.

(** A literal name is not in a list of other literal names. *)
Ltac notin :=
  unfold checkpoint_attributes, train_attributes, infer_attributes;
  repeat (apply not_elem_of_cons; split; [discriminate |]);
  apply not_elem_of_nil.

Section AfterGraph.
Context `{Framework} `{BaseModel}.
Context (self : base).
Let hp := hparams self.

Lemma collect_variables_run (s : state) :
  exists s',
    SequenceCRF.collect_variables self s
    = (Ok (variables_in s, ema_object self, lookup_of_variables self s), s') /\
    same_world s s' /\ dirs s' = dirs s /\ log s' = log s /\
    attributes s' !! "variable_lookup"
      = Some (VLookup (lookup_of_variables self s)) /\
    attributes s' !! "variable_list" = Some (VVariables (variables_in s)).
Proof.
  unfold lookup_of_variables, ema_object, variables_in, same_world, hp.
  run_blocks.
  destruct (train_ema_enable (hparams self)); run_blocks;
    eexists; (split; [reflexivity |]); repeat split; lookup_attr.
Qed.

Lemma infer_block_run
    (sequence_length predict predict_mask transition_matrix : tensor)
    (s : state) :
  exists s',
    SequenceCRF.infer_block self sequence_length predict predict_mask
      transition_matrix s = (Ok tt, s') /\
    same_world s s' /\ dirs s' = dirs s /\ log s' = log s /\
    attributes s' !! "infer_predict"
      = Some (VTensor
                (CrfDecode predict transition_matrix sequence_length 0)) /\
    attributes s' !! "infer_predict_mask" = Some (VTensor predict_mask).
Proof.
  unfold same_world. run_blocks.
  eexists; (split; [reflexivity |]); repeat split; lookup_attr.
Qed.

Lemma train_block_run
    (label sequence_length predict transition_matrix : tensor)
    (variable_list : list variable) (variable_lookup : gmap string tensor)
    (s : state) :
  exists s' update_model,
    SequenceCRF.train_block self label sequence_length predict
      transition_matrix variable_list (ema_object self) variable_lookup s
    = (Ok (lookup_of_averages self (scopes s) variable_list variable_lookup),
       s') /\
    same_world s s' /\ dirs s' = dirs s /\
    attributes s' !! "train_loss"
      = Some (VTensor (train_loss_in self s label sequence_length predict
                         transition_matrix)) /\
    attributes s' !! "update_model" = Some (VTensor update_model) /\
    attributes s' !! "update_op"
      = Some (VTensor (update_op_of self variable_list (control s) update_model)).
Proof.
  unfold lookup_of_averages, update_op_of, ema_object, train_loss_in,
    regularization_in, same_world, hp.
  run_blocks.
  destruct (train_regularization_enable (hparams self)),
    (train_optimizer_warmup_enable (hparams self)),
    (train_optimizer_decay_enable (hparams self)); run_blocks;
  match goal with
  | |- context [_minimize_loss ?a ?b ?c] =>
      destruct (_minimize_loss a b c) as [[update_model clipped] norm]
  end;
  destruct (train_ema_enable (hparams self)); run_blocks;
  (eexists; exists update_model; (split; [reflexivity |]);
   repeat split; lookup_attr).
Qed.

Lemma create_checkpoint_saver_run (variable_lookup : gmap string tensor)
    (s : state) :
  let output_dir := train_ckpt_output_dir hp in
  exists s',
    SequenceCRF.create_checkpoint_saver self variable_lookup s
      = (if (size variable_lookup =? 0)%nat
         then Raise (ValueError "No variables to save") else Ok tt, s') /\
    same_world s s' /\
    (variable_lookup <> ∅ ->
     attributes s' !! "ckpt_debug_saver"
       = Some (VSaver (Saver variable_lookup Saver_default_max_to_keep))) /\
    (variable_lookup <> ∅ ->
     attributes s' !! "ckpt_epoch_saver"
       = Some (VSaver (Saver variable_lookup (train_num_epoch hp)))) /\
    attributes s' !! "ckpt_debug_name"
      = Some (VStr (os_path_join (os_path_join output_dir "debug")
                      "model_debug_ckpt")) /\
    attributes s' !! "ckpt_epoch_name"
      = Some (VStr (os_path_join (os_path_join output_dir "epoch")
                      "model_epoch_ckpt")).
Proof.
  unfold same_world, hp. run_blocks.
  repeat match goal with
         | |- context [existsb ?f ?l] => destruct (existsb f l); run_blocks
         end;
    destruct (size variable_lookup =? 0)%nat eqn:Es; run_blocks;
    (eexists; (split; [reflexivity |]); repeat split; lookup_attr);
    intros Hne; exfalso; apply Hne, map_size_empty_iff, Nat.eqb_eq, Es.
Qed.

Lemma untouched_collect_variables (k : string) :
  k ∉ ["variable_list"; "variable_lookup"; "ema"] ->
  untouched k (SequenceCRF.collect_variables self).
Proof.
  intros Hk. split_notin Hk. unfold SequenceCRF.collect_variables. frame.
Qed.

Lemma same_world_trans (s1 s2 s3 : state) :
  same_world s1 s2 -> same_world s2 s3 -> same_world s1 s3.
Proof.
  unfold same_world. intros (? & ? & ? & ?) (? & ? & ? & ?).
  repeat split; congruence.
Qed.

Lemma same_world_refl (s : state) : same_world s s.
Proof. repeat split. Qed.

(** The statements after the graph build run to line 124, where the
    framework refuses a saver over no variable, and leave these
    attributes. *)
Lemma after_build_graph_run
    (label sequence_length predict predict_mask transition_matrix : tensor)
    (s : state) :
  exists s',
    SequenceCRF.after_build_graph self label sequence_length predict
      predict_mask transition_matrix s
      = (if (size (saver_lookup self s) =? 0)%nat
         then Raise (ValueError "No variables to save") else Ok tt, s') /\
    same_world s s' /\
    (saver_lookup self s <> ∅ ->
     attributes s' !! "ckpt_debug_saver"
       = Some (VSaver (Saver (saver_lookup self s)
                         Saver_default_max_to_keep))) /\
    (saver_lookup self s <> ∅ ->
     attributes s' !! "ckpt_epoch_saver"
       = Some (VSaver (Saver (saver_lookup self s) (train_num_epoch hp)))) /\
    (mode self = "infer" ->
     attributes s' !! "infer_predict"
       = Some (VTensor
                 (CrfDecode predict transition_matrix sequence_length 0)) /\
     attributes s' !! "infer_predict_mask" = Some (VTensor predict_mask)) /\
    (mode self = "train" ->
     exists update_model,
       attributes s' !! "train_loss"
         = Some (VTensor (train_loss_in self s label sequence_length predict
                            transition_matrix)) /\
       attributes s' !! "update_model" = Some (VTensor update_model) /\
       attributes s' !! "update_op"
         = Some (VTensor (update_op_of self (variables_in s) (control s)
                            update_model))).
Proof.
  destruct (collect_variables_run s)
    as (s1 & E1 & W1 & D1 & L1 & A1 & V1).
  assert (exists s2,
    (if String.eqb (mode self) "infer"
     then SequenceCRF.infer_block self sequence_length predict predict_mask
            transition_matrix
     else mret tt) s1 = (Ok tt, s2) /\ same_world s1 s2 /\
    (mode self = "infer" ->
     attributes s2 !! "infer_predict"
       = Some (VTensor
                 (CrfDecode predict transition_matrix sequence_length 0)) /\
     attributes s2 !! "infer_predict_mask" = Some (VTensor predict_mask)))
    as (s2 & E2 & W2 & I2).
  { destruct (String.eqb_spec (mode self) "infer") as [Em | Em].
    - destruct (infer_block_run sequence_length predict predict_mask
                  transition_matrix s1) as (s2 & E & W & _ & _ & P & Q).
      exists s2. auto.
    - exists s1. split; [reflexivity |]. split; [apply same_world_refl |].
      intros E; contradiction. }
  assert (Es : scopes s2 = scopes s)
    by (destruct W1 as (? & _), W2 as (? & _); congruence).
  assert (exists s3,
    (if String.eqb (mode self) "train"
     then SequenceCRF.train_block self label sequence_length predict
            transition_matrix (variables_in s) (ema_object self)
            (lookup_of_variables self s)
     else mret (lookup_of_variables self s)) s2 = (Ok (saver_lookup self s), s3) /\
    same_world s2 s3 /\
    (forall k, k ∉ train_attributes ->
               attributes s3 !! k = attributes s2 !! k) /\
    (mode self = "train" ->
     exists update_model,
       attributes s3 !! "train_loss"
         = Some (VTensor (train_loss_in self s2 label sequence_length predict
                            transition_matrix)) /\
       attributes s3 !! "update_model" = Some (VTensor update_model) /\
       attributes s3 !! "update_op"
         = Some (VTensor (update_op_of self (variables_in s) (control s2)
                            update_model))))
    as (s3 & E3 & W3 & F3 & T3).
  { unfold saver_lookup.
    destruct (String.eqb_spec (mode self) "train") as [Em | Em].
    - destruct (train_block_run label sequence_length predict
                  transition_matrix (variables_in s) (lookup_of_variables self s)
                  s2) as (s3 & um & E & W & _ & P & Q & R).
      rewrite Es in E.
      exists s3. repeat split; try apply W; try exact E.
      + intros k Hk.
        pose proof (untouched_train_block k self label sequence_length
                      predict transition_matrix (variables_in s) (ema_object self)
                      (lookup_of_variables self s) Hk s2) as U.
        rewrite E in U. exact U.
      + intros _. exists um. auto.
    - exists s2. split; [reflexivity |]. split; [apply same_world_refl |].
      split; [reflexivity |]. intros E; contradiction. }
  destruct (create_checkpoint_saver_run (saver_lookup self s) s3)
    as (s4 & E4 & W4 & Sd & Se & _).
  assert (F4 : forall k, k ∉ checkpoint_attributes ->
                         attributes s4 !! k = attributes s3 !! k).
  { intros k Hk.
    pose proof (untouched_create_checkpoint_saver k self (saver_lookup self s)
                  Hk s3) as U.
    rewrite E4 in U. exact U. }
  exists s4. split.
  { unfold SequenceCRF.after_build_graph, mbind, M_bind, bind.
    rewrite E1. cbv beta iota zeta. rewrite E2, E3. exact E4. }
  split.
  { eauto using same_world_trans. }
  split; [exact Sd |]. split; [exact Se |]. split.
  - intros Em. destruct (I2 Em) as [P Q].
    rewrite !F4, !F3 by notin.
    auto.
  - intros Em. destruct (T3 Em) as (um & P & Q & R). exists um.
    rewrite !F4 by notin.
    assert (Eb : built s2 = built s)
      by (destruct W1 as (_ & ? & _), W2 as (_ & ? & _); congruence).
    assert (Ec : control s2 = control s)
      by (destruct W1 as (_ & _ & ? & _), W2 as (_ & _ & ? & _); congruence).
    unfold train_loss_in, regularization_in in *.
    rewrite Eb, Ec in *. auto.
Qed.

End AfterGraph.

(* ------------------------------------------------------------------------- *)
(** ** Results: the constructor *)

Section Constructor.
Context `{Framework} `{BaseModel}.

(** [__init__], from any state: the graph is built, then line 46 raises. *)
Lemma init_run (self : base) (s : state) :
  let dp := pipeline self in
  SequenceCRF.__init__ self s
  = (Raise (ValueError unpack_message),
     let s1 :=
       {| attributes :=
            <["global_step" :=
                VTensor (Var (Variable_ (String.concat "/"
                               ((scopes s ++ [scope self])
                                  ++ ["global_step"]))))]>
              (attributes s);
          log := log s ++ ["# build graph"];
          scopes := scopes s ++ [scope self];
          built := built s; control := control s; dirs := dirs s;
          saved := saved s |} in
     let s2 := Graph.state_after self s1 in
     {| attributes := attributes s2; log := log s2; scopes := scopes s;
        built := built s2; control := control s2; dirs := dirs s2;
        saved := saved s2 |}).
Proof.
  unfold SequenceCRF.__init__.
  cbv beta iota zeta delta
    [mbind mret M_bind M_ret bind ret raise modify get_state log_print
     set_attr set_scopes variable_scope with_block SequenceCRF.get_variable
     fst snd].
  cbn [attributes log scopes built control dirs saved].
  rewrite build_graph_run. reflexivity.
Qed.

Lemma init_assigns_nothing_else (self : base) (s : state) (k : string) :
  k ∉ ["global_step"; "word_embedding_placeholder"] ->
  attributes (snd (SequenceCRF.__init__ self s)) !! k = attributes s !! k.
Proof.
  intros Hk. split_notin Hk. rewrite init_run. cbn.
  rewrite !lookup_insert_ne by (apply not_eq_sym; assumption).
  reflexivity.
Qed.

(** C2. For every mode and every hyperparameter setting, [_build_graph]
    returns a tuple of exactly two values (the scores and their mask), and
    [__init__] unpacks it into three names: every construction raises
    ValueError at that statement.  Nothing of the loss, decoding or
    checkpoint machinery exists at that point: of the attributes of
    [self] only [global_step] and [word_embedding_placeholder] have been
    assigned, the only layers built are those of the prediction graph
    (none of them a transition matrix), no directory was created and no
    checkpoint written. *)
Theorem init_fails_at_unpacking (self : base) (s : state) :
  (forall text_word text_word_mask text_char text_char_mask s0,
     exists predict predict_mask s1,
       SequenceCRF._build_graph self text_word text_word_mask text_char
         text_char_mask s0 = (Ok [predict; predict_mask], s1)) /\
  exists s',
    SequenceCRF.__init__ self s
      = (Raise (ValueError
                  "not enough values to unpack (expected 3, got 2)"), s') /\
    (forall k, k ∉ ["global_step"; "word_embedding_placeholder"] ->
               attributes s' !! k = attributes s !! k) /\
    built s' = built s ++ Graph.layers_built self (scopes s ++ [scope self]) /\
    dirs s' = dirs s /\ saved s' = saved s /\
    scopes s' = scopes s /\ control s' = control s.
Proof.
  split.
  - intros tw twm tc tcm s0. do 3 eexists. apply build_graph_run.
  - eexists. split; [apply init_run |].
    split; [| repeat split].
    intros k Hk. rewrite <- (init_assigns_nothing_else self s k Hk).
    rewrite init_run. reflexivity.
Qed.

End Constructor.

Section OrderAndSave.
Context `{Framework} `{BaseModel}.

(** C1. Every construction builds the layers of the prediction graph in
    one order (the layers of the enabled embedding streams, word-level
    before character-level, then the fusion module, the bidirectional
    recurrent layer and the single dense layer) and composes them in that
    order: the score tensor is the first output of the dense layer, applied
    to the recurrent layer's outputs, applied to the fusion of the streams.
    No construction feeds that tensor to a CRF function: the constructor
    raises at line 46, having assigned [global_step] and
    [word_embedding_placeholder] only, so [infer_predict] and [train_loss]
    are as they were before. *)
Theorem scores_never_reach_crf (self : base) (s : state) :
  let hp := hparams self in
  let dp := pipeline self in
  let rate (configured : float) :=
    if String.eqb (mode self) "train" then configured else f0 in
  let word_embedding :=
    create_embedding_layer (data_word_vocab_size hp)
      (model_word_embed_dim hp) (model_word_embed_pretrained hp) 0 0
      (train_random_seed hp) (model_word_feat_trainable hp) in
  let word_dropout := create_dropout_layer (rate (model_word_dropout hp)) 0 0 in
  let char_embedding :=
    create_embedding_layer (data_char_vocab_size hp)
      (model_char_embed_dim hp) false 0 0 (train_random_seed hp)
      (model_char_feat_trainable hp) in
  let char_conv :=
    create_convolution_layer "stacked_multi_1d" 1 (model_char_embed_dim hp)
      (model_char_unit_dim hp) (model_char_window_size hp) 1 "SAME"
      (model_char_hidden_activation hp) [rate (model_char_dropout hp)] None
      false false (num_gpus self) (default_gpu_id self) (regularizer self)
      (train_random_seed hp) (model_char_feat_trainable hp) in
  let char_pooling :=
    create_pooling_layer (model_char_pooling_type hp) (-1) 1 0 0 in
  let fusion :=
    FusionModule
      ((if model_word_feat_enable hp then model_word_embed_dim hp else 0) +
       (if model_char_feat_enable hp then model_char_unit_dim hp else 0))
      (model_fusion_unit_dim hp) (model_fusion_type hp)
      (model_fusion_num_layer hp) (model_fusion_hidden_activation hp)
      (rate (model_fusion_dropout hp)) (num_gpus self) (default_gpu_id self)
      (regularizer self) (train_random_seed hp) (model_fusion_trainable hp) in
  let recurrent :=
    create_recurrent_layer "bi" (model_sequence_num_layer hp)
      (model_sequence_unit_dim hp) (model_sequence_cell_type hp)
      (model_sequence_hidden_activation hp)
      (rate (model_sequence_dropout hp)) (model_sequence_forget_bias hp)
      (model_sequence_residual_connect hp) None (num_gpus self)
      (default_gpu_id self) (train_random_seed hp)
      (model_sequence_trainable hp) in
  let dense :=
    create_dense_layer "single" 1 (model_projection_unit_dim hp) 1 EmptyString
      [f0] None false false (num_gpus self) (default_gpu_id self)
      (regularizer self) (train_random_seed hp)
      (model_projection_trainable hp) in
  (* the word-level stream *)
  let word_masked :=
    Mul (Squeeze (Call word_embedding [input_text_word dp] 0) (-2))
        (input_text_word_mask dp) in
  let word_stream (k : nat) :=
    Call word_dropout [word_masked; input_text_word_mask dp] k in
  (* the character-level stream *)
  let char_mask := ExpandDims (input_text_char_mask dp) (-1) in
  let char_masked :=
    Mul (Call char_embedding [input_text_char dp] 0) char_mask in
  let char_convolved (k : nat) :=
    Call char_conv [char_masked; char_mask] k in
  let char_stream (k : nat) :=
    Call char_pooling [char_convolved 0%nat; char_convolved 1%nat] k in
  (* fusion, recurrent layer, dense layer *)
  let streams (k : nat) :=
    (if model_word_feat_enable hp then [word_stream k] else []) ++
    (if model_char_feat_enable hp then [char_stream k] else []) in
  let fused (k : nat) := CallLists fusion (streams 0%nat) (streams 1%nat) k in
  let encoded (k : nat) := Call recurrent [fused 0%nat; fused 1%nat] k in
  let scores := Call dense [encoded 0%nat; encoded 1%nat] 0 in
  let scores_mask := Call dense [encoded 0%nat; encoded 1%nat] 1 in
  (* the layers, in the order they are built under the scopes [sc] *)
  let layers (sc : list string) :=
    (if model_word_feat_enable hp then
       [(sc ++ ["graph"; "representation"; "word_feat"], word_embedding);
        (sc ++ ["graph"; "representation"; "word_feat"], word_dropout)]
     else []) ++
    (if model_char_feat_enable hp then
       [(sc ++ ["graph"; "representation"; "char_feat"], char_embedding);
        (sc ++ ["graph"; "representation"; "char_feat"], char_conv);
        (sc ++ ["graph"; "representation"; "char_feat"], char_pooling)]
     else []) ++
    [(sc ++ ["graph"; "representation"], fusion);
     (sc ++ ["graph"; "modeling"], recurrent);
     (sc ++ ["graph"; "modeling"], dense)] in
  (* the graph, from any state *)
  (forall s0, exists s1,
     SequenceCRF._build_graph self (input_text_word dp)
       (input_text_word_mask dp) (input_text_char dp)
       (input_text_char_mask dp) s0 = (Ok [scores; scores_mask], s1) /\
     built s1 = built s0 ++ layers (scopes s0)) /\
  (* every construction builds it and stops *)
  exists s',
    SequenceCRF.__init__ self s
      = (Raise (ValueError
                  "not enough values to unpack (expected 3, got 2)"), s') /\
    built s' = built s ++ layers (scopes s ++ [scope self]) /\
    attributes s' !! "global_step"
      = Some (VTensor (Var (Variable_
                (String.concat "/"
                   ((scopes s ++ [scope self]) ++ ["global_step"]))))) /\
    attributes s' !! "word_embedding_placeholder"
      = Some (if model_word_feat_enable hp
              then VTensor (EmbeddingPlaceholder word_embedding)
              else VNone) /\
    (forall k, k <> "global_step" -> k <> "word_embedding_placeholder" ->
               attributes s' !! k = attributes s !! k) /\
    attributes s' !! "infer_predict" = attributes s !! "infer_predict" /\
    attributes s' !! "train_loss" = attributes s !! "train_loss".
Proof.
  intros hp dp rate word_embedding word_dropout char_embedding char_conv
    char_pooling fusion recurrent dense word_masked word_stream char_mask
    char_masked char_convolved char_stream streams fused encoded scores
    scores_mask layers.
  split.
  - intros s0. eexists. rewrite build_graph_run. split; reflexivity.
  - eexists. split; [apply init_run |].
    cbn [attributes built scopes Graph.state_after].
    split; [reflexivity |].
    split; [rewrite lookup_insert_ne by discriminate;
            apply lookup_insert_eq |].
    split; [apply lookup_insert_eq |].
    split; [| split].
    + intros k Hg Hw.
      rewrite !lookup_insert_ne by (apply not_eq_sym; assumption).
      reflexivity.
    + rewrite !lookup_insert_ne by discriminate. reflexivity.
    + rewrite !lookup_insert_ne by discriminate. reflexivity.
Qed.

(** C7. No construction leaves an object that [save] can persist: the
    constructor raises at line 46, before the statements that name the
    checkpoints and build the savers, so on the object it leaves
    [save(sess, global_step, save_mode)] raises AttributeError for
    [save_mode] "debug" and for "epoch", having called no saver; only for
    every other [save_mode] does it raise ValueError as intended. *)
Theorem save_finds_no_saver (self : base) (s : state) (sess : pyobj)
    (global_step : Z) (save_mode : string) :
  attributes s !! "ckpt_debug_saver" = None ->
  attributes s !! "ckpt_epoch_saver" = None ->
  exists s',
    SequenceCRF.__init__ self s
      = (Raise (ValueError
                  "not enough values to unpack (expected 3, got 2)"), s') /\
    attributes s' !! "ckpt_debug_saver" = None /\
    attributes s' !! "ckpt_epoch_saver" = None /\
    saved s' = saved s /\ dirs s' = dirs s /\
    (save_mode = "debug" ->
     SequenceCRF.save sess global_step save_mode s'
       = (Raise (AttributeError
                   "'SequenceCRF' object has no attribute 'ckpt_debug_saver'"),
          s')) /\
    (save_mode = "epoch" ->
     SequenceCRF.save sess global_step save_mode s'
       = (Raise (AttributeError
                   "'SequenceCRF' object has no attribute 'ckpt_epoch_saver'"),
          s')) /\
    (save_mode <> "debug" -> save_mode <> "epoch" ->
     SequenceCRF.save sess global_step save_mode s'
       = (Raise (ValueError ("unsupported save mode " +:+ save_mode)), s')).
Proof.
  intros Hd He.
  assert (Ad : attributes (snd (SequenceCRF.__init__ self s))
                 !! "ckpt_debug_saver" = None)
    by (rewrite init_assigns_nothing_else by notin; exact Hd).
  assert (Ae : attributes (snd (SequenceCRF.__init__ self s))
                 !! "ckpt_epoch_saver" = None)
    by (rewrite init_assigns_nothing_else by notin; exact He).
  exists (snd (SequenceCRF.__init__ self s)).
  split; [rewrite init_run; reflexivity |].
  split; [exact Ad |]. split; [exact Ae |].
  split; [rewrite init_run; reflexivity |].
  split; [rewrite init_run; reflexivity |].
  revert Ad Ae. generalize (snd (SequenceCRF.__init__ self s)).
  intros s' Ad Ae.
  unfold SequenceCRF.save, SequenceCRF.get_saver, get_attr.
  split; [| split].
  - intros ->. cbn.
    cbv beta iota zeta delta [mbind mret M_bind M_ret bind ret raise
                                get_state].
    rewrite Ad. reflexivity.
  - intros ->. cbn.
    cbv beta iota zeta delta [mbind mret M_bind M_ret bind ret raise
                                get_state].
    rewrite Ae. reflexivity.
  - intros Hnd Hne.
    destruct (String.eqb_spec save_mode "debug") as [E | _];
      [contradiction |].
    destruct (String.eqb_spec save_mode "epoch") as [E | _];
      [contradiction |].
    reflexivity.
Qed.

End OrderAndSave.

(* ------------------------------------------------------------------------- *)
(** ** Results: the lookup of the savers and the order of the update *)

Section Lookup.
Context {A : Type} (key : A -> string) (val : A -> tensor).

Lemma dict_of_acc (l : list A) (d : gmap string tensor) (k : string) :
  fold_left (fun (d : gmap string tensor) v => <[key v := val v]> d) l d !! k
  = match dict_of key val l !! k with
    | Some t => Some t
    | None => d !! k
    end.
Proof.
  unfold dict_of. revert d. induction l as [| v l IH]; intros d; cbn.
  - rewrite lookup_empty. reflexivity.
  - rewrite (IH (<[key v := val v]> d)), (IH (<[key v := val v]> ∅)).
    destruct (fold_left _ l ∅ !! k); [reflexivity |].
    destruct (decide (key v = k)) as [-> | Hne].
    + rewrite !lookup_insert_eq. reflexivity.
    + rewrite !lookup_insert_ne, lookup_empty by exact Hne. reflexivity.
Qed.

(** Every entry of the dictionary comes from an element of the list. *)
Lemma dict_of_lookup_Some (l : list A) (k : string) (t : tensor) :
  dict_of key val l !! k = Some t ->
  exists v, v ∈ l /\ key v = k /\ t = val v.
Proof.
  induction l as [| v l IH].
  - unfold dict_of; cbn. rewrite lookup_empty. discriminate.
  - unfold dict_of; cbn. rewrite dict_of_acc.
    destruct (dict_of key val l !! k) as [t' |] eqn:E.
    + intros [= <-]. destruct (IH eq_refl) as (w & Hw & Hk & Ht).
      exists w. split; [right; exact Hw | auto].
    + destruct (decide (key v = k)) as [<- | Hne].
      * rewrite lookup_insert_eq. intros [= <-].
        exists v. split; [left | auto].
      * rewrite lookup_insert_ne, lookup_empty by exact Hne. discriminate.
Qed.

(** With distinct keys, every element of the list is found under its key. *)
Lemma dict_of_lookup (l : list A) (v : A) :
  NoDup (key <$> l) -> v ∈ l ->
  dict_of key val l !! key v = Some (val v).
Proof.
  induction l as [| w l IH]; intros Hnd Hin.
  - inversion Hin.
  - apply NoDup_cons in Hnd as [Hw Hnd].
    unfold dict_of; cbn. rewrite dict_of_acc.
    apply elem_of_cons in Hin as [-> | Hin].
    + destruct (dict_of key val l !! key w) as [t |] eqn:E.
      * apply dict_of_lookup_Some in E as (u & Hu & Hk & _).
        exfalso. apply Hw. rewrite <- Hk. apply list_elem_of_fmap.
        exists u. auto.
      * apply lookup_insert_eq.
    + rewrite (IH Hnd Hin). reflexivity.
Qed.

(** The dictionary is empty exactly when the list is. *)
Lemma dict_of_size (l : list A) :
  (size (dict_of key val l) =? 0)%nat
  = match l with [] => true | _ => false end.
Proof.
  destruct l as [| v l].
  - apply Nat.eqb_eq, map_size_empty_iff. reflexivity.
  - apply Nat.eqb_neq. intros E. apply map_size_empty_iff in E.
    assert (L : dict_of key val (v :: l) !! key v = None)
      by (rewrite E; apply lookup_empty).
    unfold dict_of in L; cbn in L. rewrite dict_of_acc in L.
    destruct (dict_of key val l !! key v); [discriminate |].
    rewrite lookup_insert_eq in L. discriminate.
Qed.

End Lookup.

(* ------------------------------------------------------------------------- *)
(** ** Results: what the statements after line 46 would assign

    [__init__] never reaches them (C2); the lemmas below are about the
    statements themselves, run from any three tensors in place of the
    names line 46 fails to bind. *)

Section Unreached.
Context `{Framework} `{BaseModel}.
Context (self : base)
        (label sequence_length predict predict_mask transition_matrix
           : tensor).
Let hp := hparams self.

Lemma untouched_after_build_graph (k : string) :
  mode self <> "train" ->
  k ∉ ["variable_list"; "variable_lookup"; "ema"] ->
  k ∉ infer_attributes -> k ∉ checkpoint_attributes ->
  untouched k (SequenceCRF.after_build_graph self label sequence_length
                 predict predict_mask transition_matrix).
Proof.
  intros Hm Hc Hi Hs. unfold SequenceCRF.after_build_graph.
  destruct (String.eqb_spec (mode self) "train") as [E | _];
    [contradiction |].
  apply untouched_bind; [apply untouched_collect_variables; exact Hc |].
  intros [[variable_list ema] variable_lookup].
  apply untouched_bind.
  { destruct (String.eqb (mode self) "infer");
      [apply untouched_infer_block; exact Hi | apply untouched_ret]. }
  intros _. apply untouched_bind; [apply untouched_ret |].
  intros lookup. apply untouched_create_checkpoint_saver. exact Hs.
Qed.

(** The savers can be built exactly when the graph has a trainable
    variable. *)
Lemma saver_lookup_size (s : state) :
  (size (saver_lookup self s) =? 0)%nat
  = match variables_in s with [] => true | _ => false end.
Proof.
  unfold saver_lookup, lookup_of_averages, lookup_of_variables, ema_object.
  destruct (String.eqb (mode self) "train"),
    (train_ema_enable (hparams self)); apply dict_of_size.
Qed.

Lemma saver_lookup_nonempty (s : state) :
  variables_in s <> [] -> saver_lookup self s <> ∅.
Proof.
  intros Hv E. apply map_size_empty_iff, Nat.eqb_eq in E.
  rewrite saver_lookup_size in E. destruct (variables_in s);
    [contradiction | discriminate].
Qed.

(** The statements of lines 48-125 from any state: they stop only at line
    124, and only when the graph has no trainable variable. *)
Lemma after_build_graph_result (s : state) :
  exists s',
    SequenceCRF.after_build_graph self label sequence_length predict
      predict_mask transition_matrix s
    = (match variables_in s with
       | [] => Raise (ValueError "No variables to save")
       | _ => Ok tt
       end, s') /\
    (variables_in s <> [] ->
     attributes s' !! "ckpt_debug_saver"
       = Some (VSaver (Saver (saver_lookup self s)
                         Saver_default_max_to_keep)) /\
     attributes s' !! "ckpt_epoch_saver"
       = Some (VSaver (Saver (saver_lookup self s) (train_num_epoch hp)))) /\
    (mode self = "infer" ->
     attributes s' !! "infer_predict"
       = Some (VTensor
                 (CrfDecode predict transition_matrix sequence_length 0)) /\
     attributes s' !! "infer_predict_mask" = Some (VTensor predict_mask)) /\
    (mode self = "train" ->
     exists update_model,
       attributes s' !! "train_loss"
         = Some (VTensor (train_loss_in self s label sequence_length predict
                            transition_matrix)) /\
       attributes s' !! "update_model" = Some (VTensor update_model) /\
       attributes s' !! "update_op"
         = Some (VTensor (update_op_of self (variables_in s) (control s)
                            update_model))).
Proof.
  destruct (after_build_graph_run self label sequence_length predict
              predict_mask transition_matrix s)
    as (s' & E & _ & Sd & Se & Inf & T).
  exists s'. split.
  { rewrite E, saver_lookup_size. destruct (variables_in s); reflexivity. }
  split; [| split; assumption].
  intros Hv. split; [apply Sd | apply Se]; apply saver_lookup_nonempty, Hv.
Qed.

(** Lines 63-71: the training loss is the mean of the negated CRF
    log-likelihood, plus the regularization loss when that is enabled. *)
Lemma train_branch_loss (s : state) :
  mode self = "train" ->
  let likelihood :=
    CrfLogLikelihood predict label sequence_length transition_matrix 0 in
  let loss := ReduceMean (Mul (Const fm1) likelihood) in
  SequenceCRF._compute_loss label predict sequence_length transition_matrix
    = loss /\
  exists s',
    snd (SequenceCRF.after_build_graph self label sequence_length predict
           predict_mask transition_matrix s) = s' /\
    attributes s' !! "train_loss"
      = Some (VTensor
                (if train_regularization_enable hp
                 then Add loss (ApplyRegularization (regularizer self)
                                  (regularization_in s))
                 else loss)).
Proof.
  intros Hm likelihood loss. split; [reflexivity |].
  destruct (after_build_graph_result s) as (s' & E & _ & _ & T).
  destruct (T Hm) as (um & P & _).
  exists s'. split; [rewrite E; reflexivity | exact P].
Qed.

(** Lines 55-61: in mode "infer" the prediction is the Viterbi decoding of
    the scores, the mask is the graph's mask, and no attribute of the
    training branch is assigned. *)
Lemma infer_branch_decodes (s : state) :
  mode self = "infer" ->
  exists s',
    snd (SequenceCRF.after_build_graph self label sequence_length predict
           predict_mask transition_matrix s) = s' /\
    attributes s' !! "infer_predict"
      = Some (VTensor
                (CrfDecode predict transition_matrix sequence_length 0)) /\
    attributes s' !! "infer_predict_mask" = Some (VTensor predict_mask) /\
    forall k, k ∈ train_attributes -> k <> "variable_lookup" ->
              attributes s' !! k = attributes s !! k.
Proof.
  intros Hm.
  destruct (after_build_graph_result s) as (s' & E & _ & Inf & _).
  destruct (Inf Hm) as [P Q].
  exists s'. split; [rewrite E; reflexivity |].
  repeat split; try assumption.
  intros k Hk Hne.
  assert (Hm' : mode self <> "train") by (rewrite Hm; discriminate).
  pose proof (untouched_after_build_graph k Hm') as U.
  unfold untouched in U. specialize (fun a b c => U a b c s).
  rewrite E in U. apply U; clear U;
    unfold train_attributes, infer_attributes, checkpoint_attributes in *;
    repeat (apply elem_of_cons in Hk as [-> | Hk];
            [first [contradiction | notin] |]);
    inversion Hk.
Qed.

(** Lines 99-104: with moving averages the update op is the averaging op,
    built under a control dependency on the model update, so that in any
    order of execution that honours control dependencies the model update
    comes first; without them the update op is the model update. *)
Lemma ema_update_after_model_update (s : state) :
  mode self = "train" ->
  exists s' update_model update_op,
    snd (SequenceCRF.after_build_graph self label sequence_length predict
           predict_mask transition_matrix s) = s' /\
    attributes s' !! "update_model" = Some (VTensor update_model) /\
    attributes s' !! "update_op" = Some (VTensor update_op) /\
    (train_ema_enable hp = false -> update_op = update_model) /\
    (train_ema_enable hp = true ->
     update_op = EmaApply (train_ema_decay_rate hp) (variables_in s)
                   (control s ++ [update_model]) /\
     forall order, honours_control order ->
       forall i, order !! i = Some update_op ->
       exists j, (j < i)%nat /\ order !! j = Some update_model).
Proof.
  intros Hm.
  destruct (after_build_graph_result s) as (s' & E & _ & _ & T).
  destruct (T Hm) as (um & _ & P & Q).
  exists s', um, (update_op_of self (variables_in s) (control s) um).
  split; [rewrite E; reflexivity |].
  split; [exact P |]. split; [exact Q |].
  unfold update_op_of, ema_object. fold hp.
  destruct (train_ema_enable hp); (split; [| split]); try discriminate;
    try reflexivity.
  intros order Ho i Hi. apply (Ho i _ Hi). cbn.
  apply elem_of_app. right. left.
Qed.

(** Lines 51-53, 102 and 124-125: with moving averages, and at least one
    trainable variable, both savers are built over one lookup keyed by
    average names, holding the averages in mode "train" and the variables
    themselves in any other mode. *)
Lemma savers_keyed_by_average_names (s : state) :
  train_ema_enable hp = true ->
  variables_in s <> [] ->
  exists s' lookup,
    SequenceCRF.after_build_graph self label sequence_length predict
      predict_mask transition_matrix s = (Ok tt, s') /\
    attributes s' !! "ckpt_debug_saver"
      = Some (VSaver (Saver lookup Saver_default_max_to_keep)) /\
    attributes s' !! "ckpt_epoch_saver"
      = Some (VSaver (Saver lookup (train_num_epoch hp))) /\
    let value (v : variable) :=
      if String.eqb (mode self) "train"
      then EmaAverage (train_ema_decay_rate hp) v else Var v in
    let name := average_name (scopes s) in
    lookup = dict_of name value (variables_in s) /\
    (forall k t, lookup !! k = Some t ->
       exists v, v ∈ variables_in s /\ k = name v /\ t = value v) /\
    (NoDup (name <$> variables_in s) ->
     forall v, v ∈ variables_in s -> lookup !! name v = Some (value v)).
Proof.
  intros He Hv.
  destruct (after_build_graph_result s) as (s' & E & S & _).
  destruct (S Hv) as [Sd Se].
  exists s', (saver_lookup self s).
  assert (EL : saver_lookup self s
               = dict_of (average_name (scopes s))
                   (fun v => if String.eqb (mode self) "train"
                             then EmaAverage (train_ema_decay_rate hp) v
                             else Var v) (variables_in s)).
  { unfold saver_lookup, lookup_of_averages, lookup_of_variables,
      ema_object. fold hp. rewrite He.
    destruct (String.eqb (mode self) "train"); reflexivity. }
  split.
  { rewrite E. destruct (variables_in s); [contradiction | reflexivity]. }
  repeat split; try assumption.
  - intros k t Hk. rewrite EL in Hk.
    destruct (dict_of_lookup_Some _ _ _ _ _ Hk) as (v & Hv' & <- & ->).
    exists v. auto.
  - intros Hnd v Hv'. rewrite EL. apply dict_of_lookup; assumption.
Qed.

End Unreached.

(* ------------------------------------------------------------------------- *)
(** ** Results: dropout and the randomness of a run *)

Section Noise.
Context {noise : Type} (I : interp noise).
Hypothesis HI : noise_only_through_dropout I.
Context (n1 n2 : noise).

Lemma eval_Call (n : noise) (l : layer) (args : list tensor) (k : nat) :
  eval I n (Call l args k)
  = match evals I n args with
    | Some vs => layer_apply I l n vs k
    | None => None
    end.
Proof. reflexivity. Qed.

Lemma eval_CallLists (n : noise) (l : layer) (feats masks : list tensor)
    (k : nat) :
  eval I n (CallLists l feats masks k)
  = match evals I n feats, evals I n masks with
    | Some fs, Some ms => fusion_apply I l n fs ms k
    | _, _ => None
    end.
Proof. reflexivity. Qed.

(** A node whose layers all have no dropout has the same value whatever
    the random draws. *)
Lemma eval_noise_irrelevant (t : tensor) :
  dropout_free t -> eval I n1 t = eval I n2 t.
Proof.
  revert t. fix IH 1. intros t.
  destruct t; cbn [dropout_free]; intros Hdf;
    try reflexivity;
    (* nodes with a fixed number of inputs *)
    try (cbn [eval];
         repeat match goal with
                | H : _ /\ _ |- _ => destruct H
                end;
         repeat match goal with
                | H : dropout_free ?x |- _ =>
                    rewrite (IH x H); clear H
                end;
         reflexivity).
  - (* a layer called on a list of nodes *)
    destruct Hdf as [Hl Hargs]. rewrite !eval_Call.
    assert (E : evals I n1 args = evals I n2 args).
    { induction args as [| a args IHargs]; [reflexivity |].
      destruct Hargs as [Ha Hargs]. cbn [evals].
      rewrite (IH a Ha), (IHargs Hargs). reflexivity. }
    rewrite E. destruct (evals I n2 args); [apply (HI l Hl) | reflexivity].
  - (* the fusion module, called on two lists of nodes *)
    destruct Hdf as (Hl & Hfeats & Hmasks). rewrite !eval_CallLists.
    assert (E : evals I n1 feats = evals I n2 feats).
    { induction feats as [| a feats IHfeats]; [reflexivity |].
      destruct Hfeats as [Ha Hfeats]. cbn [evals].
      rewrite (IH a Ha), (IHfeats Hfeats). reflexivity. }
    assert (E' : evals I n1 masks = evals I n2 masks).
    { induction masks as [| a masks IHmasks]; [reflexivity |].
      destruct Hmasks as [Ha Hmasks]. cbn [evals].
      rewrite (IH a Ha), (IHmasks Hmasks). reflexivity. }
    rewrite E, E'.
    destruct (evals I n2 feats), (evals I n2 masks);
      try reflexivity; apply (HI l Hl).
  - (* apply_regularization *)
    change (match evals I n1 weights with
            | Some vs => op_apply I "apply_regularization" vs 0
            | None => None
            end
            = match evals I n2 weights with
              | Some vs => op_apply I "apply_regularization" vs 0
              | None => None
              end).
    assert (E : evals I n1 weights = evals I n2 weights).
    { induction weights as [| a weights IHweights]; [reflexivity |].
      destruct Hdf as [Ha Hdf]. cbn [evals].
      rewrite (IH a Ha), (IHweights Hdf). reflexivity. }
    rewrite E. reflexivity.
  - (* an op of the base class *)
    change (match evals I n1 args with
            | Some vs => op_apply I name vs 0
            | None => None
            end
            = match evals I n2 args with
              | Some vs => op_apply I name vs 0
              | None => None
              end).
    assert (E : evals I n1 args = evals I n2 args).
    { induction args as [| a args IHargs]; [reflexivity |].
      destruct Hdf as [Ha Hdf]. cbn [evals].
      rewrite (IH a Ha), (IHargs Hdf). reflexivity. }
    rewrite E. reflexivity.
Qed.

End Noise.

(* ------------------------------------------------------------------------- *)
(** ** Results: dropout outside training *)

Section Dropout.
Context `{Framework} `{BaseModel}.

Lemma dropout_outside_training (self : base) :
  mode self <> "train" ->
  SequenceCRF.word_dropout self = f0 /\
  SequenceCRF.char_dropout self = f0 /\
  SequenceCRF.fusion_dropout self = f0 /\
  SequenceCRF.sequence_dropout self = f0.
Proof.
  intros Hm.
  unfold SequenceCRF.word_dropout, SequenceCRF.char_dropout,
    SequenceCRF.fusion_dropout, SequenceCRF.sequence_dropout.
  destruct (String.eqb_spec (mode self) "train") as [E | _];
    [contradiction | auto].
Qed.

Lemma dropout_in_training (self : base) :
  mode self = "train" ->
  SequenceCRF.word_dropout self = model_word_dropout (hparams self) /\
  SequenceCRF.char_dropout self = model_char_dropout (hparams self) /\
  SequenceCRF.fusion_dropout self = model_fusion_dropout (hparams self) /\
  SequenceCRF.sequence_dropout self = model_sequence_dropout (hparams self).
Proof.
  intros Hm.
  unfold SequenceCRF.word_dropout, SequenceCRF.char_dropout,
    SequenceCRF.fusion_dropout, SequenceCRF.sequence_dropout.
  rewrite Hm. auto.
Qed.

Lemma layers_built_no_dropout (self : base) (sc : list string) :
  mode self <> "train" ->
  Forall (fun b => no_dropout (snd b)) (Graph.layers_built self sc).
Proof.
  intros Hm. destruct (dropout_outside_training self Hm) as (W & C & F & S).
  unfold Graph.layers_built, Graph.feat_fusion_layer,
    Graph.sequence_modeling_layer, Graph.projection_modeling_layer,
    Graph.word_feat_layer, Graph.char_feat_layer.
  cbn [WordFeat.embedding_layer WordFeat.dropout_layer
       CharFeat.embedding_layer CharFeat.conv_layer CharFeat.pooling_layer].
  rewrite W, C, F, S.
  by_flags self; repeat (apply Forall_cons; split);
    try apply Forall_nil; repeat constructor.
Qed.

Lemma projection_dropout_free (self : base)
    (text_word text_word_mask text_char text_char_mask : tensor) (k : nat) :
  mode self <> "train" ->
  dropout_free text_word -> dropout_free text_word_mask ->
  dropout_free text_char -> dropout_free text_char_mask ->
  dropout_free (Graph.text_projection_modeling self text_word text_word_mask
                  text_char text_char_mask k).
Proof.
  intros Hm Hw Hwm Hc Hcm.
  destruct (dropout_outside_training self Hm) as (W & C & F & S).
  graph_terms.
  cbn [WordFeat.embedding_layer WordFeat.dropout_layer
       CharFeat.embedding_layer CharFeat.conv_layer CharFeat.pooling_layer].
  unfold WordFeat.input_word_embedding, CharFeat.input_char_embedding,
    CharFeat.input_char_embedding_mask.
  cbn [WordFeat.embedding_layer WordFeat.dropout_layer
       CharFeat.embedding_layer CharFeat.conv_layer CharFeat.pooling_layer].
  rewrite W, C, F, S.
  by_flags self; cbn; unfold no_dropout; cbn;
    repeat split; try assumption; repeat constructor.
Qed.

(** C9. In every mode other than "train" the dropout rate handed to the
    word, character, fusion and sequence-modeling layers is exactly [0.0],
    and so is the rate of every layer the graph is built from; hence, for
    fixed inputs and variable values (one interpretation), the outputs of
    the graph have the same value in any two runs, whatever the random
    draws, as long as a layer draws only to apply dropout. *)
Theorem inference_graph_deterministic (self : base)
    (text_word text_word_mask text_char text_char_mask : tensor)
    (s : state) :
  mode self <> "train" ->
  dropout_free text_word -> dropout_free text_word_mask ->
  dropout_free text_char -> dropout_free text_char_mask ->
  SequenceCRF.word_dropout self = f0 /\
  SequenceCRF.char_dropout self = f0 /\
  SequenceCRF.fusion_dropout self = f0 /\
  SequenceCRF.sequence_dropout self = f0 /\
  exists outputs s' layers,
    SequenceCRF._build_graph self text_word text_word_mask text_char
      text_char_mask s = (Ok outputs, s') /\
    built s' = built s ++ layers /\
    Forall (fun b => no_dropout (snd b)) layers /\
    forall t, t ∈ outputs ->
      forall (noise : Type) (I : interp noise),
        noise_only_through_dropout I ->
        forall n1 n2 : noise, eval I n1 t = eval I n2 t.
Proof.
  intros Hm Hw Hwm Hc Hcm.
  destruct (dropout_outside_training self Hm) as (W & C & F & S).
  repeat (split; [assumption |]).
  do 3 eexists. split; [apply build_graph_run |].
  split; [reflexivity |].
  split; [apply layers_built_no_dropout; exact Hm |].
  intros t Ht noise I HI n1 n2.
  apply eval_noise_irrelevant; [exact HI |].
  apply elem_of_cons in Ht as [-> | Ht];
    [| apply elem_of_cons in Ht as [-> | Ht]; [| inversion Ht]];
    apply projection_dropout_free; assumption.
Qed.

End Dropout.

Lemma noisy_run_only_through_dropout :
  noise_only_through_dropout Example.noisy_run.
Proof.
  intros l Hl.
  assert (E : forallb Example.rate_is_zero (layer_rates l) = true).
  { unfold no_dropout in Hl. induction Hl as [| d ds Hd _ IH];
      [reflexivity |].
    cbn. rewrite Hd, IH. reflexivity. }
  split; intros; cbn; rewrite E; [destruct l |]; reflexivity.
Qed.

(** In mode "infer" two runs of the example graph with different random
    draws give the same scores. *)
Lemma inference_graph_deterministic_witness :
  exists outputs s',
    SequenceCRF._build_graph (Example.model "infer") (Input "text_word")
      (Input "text_word_mask") (Input "text_char") (Input "text_char_mask")
      state0 = (Ok outputs, s') /\
    outputs <> [] /\
    forall t, t ∈ outputs ->
      eval Example.noisy_run f0 t = eval Example.noisy_run f1 t /\
      eval Example.noisy_run f0 t <> None.
Proof.
  assert (Hm : mode (Example.model "infer") <> "train")
    by (cbn; discriminate).
  destruct (inference_graph_deterministic (Example.model "infer")
              (Input "text_word") (Input "text_word_mask")
              (Input "text_char") (Input "text_char_mask") state0
              Hm Logic.I Logic.I Logic.I Logic.I)
    as (_ & _ & _ & _ & outputs & s' & layers & E & _ & _ & D).
  exists outputs, s'. split; [exact E |].
  rewrite build_graph_run in E. injection E as <- _.
  split; [discriminate |].
  intros t Ht. split.
  - exact (D t Ht float Example.noisy_run noisy_run_only_through_dropout
             f0 f1).
  - apply elem_of_cons in Ht as [-> | Ht];
      [| apply elem_of_cons in Ht as [-> | Ht]; [| inversion Ht]];
      vm_compute; discriminate.
Defined.

(** In mode "train" the same two runs differ: the hypotheses above are not
    vacuous. *)
Lemma training_graph_depends_on_draws :
  exists t s',
    SequenceCRF._build_graph (Example.model "train") (Input "text_word")
      (Input "text_word_mask") (Input "text_char") (Input "text_char_mask")
      state0 = (Ok [t; Call (Graph.projection_modeling_layer
                               (Example.model "train"))
                         [Graph.text_sequence_modeling (Example.model "train")
                            (Input "text_word") (Input "text_word_mask")
                            (Input "text_char") (Input "text_char_mask")
                            0%nat;
                          Graph.text_sequence_modeling (Example.model "train")
                            (Input "text_word") (Input "text_word_mask")
                            (Input "text_char") (Input "text_char_mask")
                            1%nat] 1], s') /\
    eval Example.noisy_run f0 t <> eval Example.noisy_run f1 t.
Proof.
  do 2 eexists. split; [apply build_graph_run |].
  intros E. vm_compute in E. discriminate E.
Qed.

(* ------------------------------------------------------------------------- *)
(** ** Results: element-wise products and masks *)

Section Products.

Lemma arr_ind' (P : arr -> Prop) :
  (forall a, P (Scalar a)) ->
  (forall xs, Forall P xs -> P (Arr xs)) ->
  forall x, P x.
Proof.
  intros HS HA. fix IH 1. intros [a | xs]; [apply HS | apply HA].
  induction xs as [| x xs IHxs]; constructor; [apply IH | exact IHxs].
Qed.

Lemma get_stretched_cons (l : list arr) (i : nat) (p : list nat) :
  get_stretched (Arr l) (i :: p)
  = match stretched_nth l i with
    | Some a => get_stretched a p
    | None => None
    end.
Proof. destruct l as [| a [| b l]]; reflexivity. Qed.

Lemma sequence_nth {A} (l : list (option A)) (rs : list A) :
  sequence l = Some rs ->
  forall i r, nth_error rs i = Some r -> nth_error l i = Some (Some r).
Proof.
  revert rs. induction l as [| [a |] l IH]; cbn; intros rs E.
  - injection E as <-. intros [| i] r; discriminate.
  - destruct (sequence l) as [rs' |]; [| discriminate].
    injection E as <-. intros [| i] r; cbn.
    + intros [= ->]. reflexivity.
    + apply IH. reflexivity.
  - discriminate.
Qed.

Lemma sequence_map_nth (f : arr -> option arr) (xs rs : list arr) :
  sequence (map f xs) = Some rs ->
  forall i r, nth_error rs i = Some r ->
  exists x, nth_error xs i = Some x /\ f x = Some r.
Proof.
  intros E i r Hr. pose proof (sequence_nth _ _ E i r Hr) as Hn.
  rewrite nth_error_map in Hn.
  destruct (nth_error xs i) as [x |]; [| discriminate].
  exists x. split; [reflexivity |]. cbn in Hn. congruence.
Qed.

Lemma nth_error_singleton (a x : arr) (i : nat) :
  nth_error [a] i = Some x -> x = a.
Proof. destruct i as [| [| i]]; cbn; congruence. Qed.

(** Entry [i] of a product along the leading axis is the product of the
    entries the two operands contribute at [i]. *)
Lemma bmul_entries (xs ys : list arr) (r : arr) :
  bmul (Arr xs) (Arr ys) = Some r ->
  exists rs, r = Arr rs /\
    forall i ri, nth_error rs i = Some ri ->
    exists xi yi,
      stretched_nth xs i = Some xi /\ stretched_nth ys i = Some yi /\
      In xi xs /\ bmul xi yi = Some ri.
Proof.
  destruct ys as [| y0 [| y1 ys']].
  - (* the second operand is empty *)
    destruct xs as [| x0 [| x1 xs']]; cbn; intros E; try discriminate;
      injection E as <-; eexists; (split; [reflexivity |]);
      intros [| i] ri Hri; discriminate Hri.
  - (* the second operand has length one: it is stretched *)
    assert (E0 : bmul (Arr xs) (Arr [y0])
                 = option_map Arr
                     (sequence (map (fun x' => bmul x' y0) xs)))
      by (destruct xs as [| x0 [| x1 xs']]; reflexivity).
    rewrite E0. clear E0. intros E.
    destruct (sequence (map (fun x' => bmul x' y0) xs)) as [rs |] eqn:Es;
      [| discriminate E].
    injection E as <-. exists rs. split; [reflexivity |].
    intros i ri Hri.
    destruct (sequence_map_nth _ _ _ Es i ri Hri) as (xi & Hxi & Hm).
    exists xi, y0. repeat split; try exact Hm.
    + destruct xs as [| x0 [| x1 xs']]; try exact Hxi.
      cbn. f_equal. symmetry. eapply nth_error_singleton, Hxi.
    + eapply nth_error_In, Hxi.
  - (* the second operand is longer *)
    destruct xs as [| x0 [| x1 xs']].
    + cbn. discriminate.
    + (* the first operand has length one: it is stretched *)
      cbn [bmul]. intros E.
      destruct (sequence (map (fun y' => bmul x0 y') (y0 :: y1 :: ys')))
        as [rs |] eqn:Es; [| discriminate E].
      injection E as <-. exists rs. split; [reflexivity |].
      intros i ri Hri.
      destruct (sequence_map_nth _ _ _ Es i ri Hri) as (yi & Hyi & Hm).
      exists x0, yi. repeat split; try exact Hm; try exact Hyi.
      left; reflexivity.
    + (* entry by entry *)
      pose (zip := fix zip (l1 l2 : list arr) : option (list arr) :=
             match l1, l2 with
             | [], [] => Some []
             | a :: l1', b :: l2' =>
                 match bmul a b, zip l1' l2' with
                 | Some r, Some rs => Some (r :: rs)
                 | _, _ => None
                 end
             | _, _ => None
             end).
      assert (Hzip : forall l1 l2 rs, zip l1 l2 = Some rs ->
                forall i ri, nth_error rs i = Some ri ->
                exists a b, nth_error l1 i = Some a /\
                            nth_error l2 i = Some b /\
                            bmul a b = Some ri).
      { induction l1 as [| a l1 IH]; intros [| b l2] rs E;
          cbn in E; try discriminate.
        - injection E as <-. intros [| i] ri Hri; discriminate Hri.
        - destruct (bmul a b) as [r0 |] eqn:Eab; [| discriminate].
          destruct (zip l1 l2) as [rs0 |] eqn:Ez; [| discriminate].
          injection E as <-. intros [| i] ri; cbn.
          + intros [= <-]. exists a, b. auto.
          + apply (IH l2 rs0 Ez). }
      change (bmul (Arr (x0 :: x1 :: xs')) (Arr (y0 :: y1 :: ys')))
        with (option_map Arr (zip (x0 :: x1 :: xs') (y0 :: y1 :: ys'))).
      intros E.
      destruct (zip (x0 :: x1 :: xs') (y0 :: y1 :: ys')) as [rs |] eqn:Ez;
        [| discriminate E].
      injection E as <-. exists rs. split; [reflexivity |].
      intros i ri Hri.
      destruct (Hzip _ _ _ Ez i ri Hri) as (a & b & Ha & Hb & Hm).
      exists a, b. repeat split; try assumption.
      eapply nth_error_In, Ha.
Qed.

(** Every element of a product is the product of the elements the two
    operands contribute at that index path. *)
Lemma bmul_get (x : arr) :
  forall y r, bmul x y = Some r ->
  forall p v, get r p = Some v ->
  exists a b,
    get_stretched x p = Some a /\ get_stretched y p = Some b /\
    v = mulf a b.
Proof.
  induction x as [a | xs IH] using arr_ind'; intros y r E p v Hv.
  - destruct y as [b | ys]; [| discriminate].
    injection E as <-. destruct p; [| discriminate].
    injection Hv as <-. exists a, b. auto.
  - destruct y as [b | ys]; [discriminate |].
    destruct (bmul_entries xs ys r E) as (rs & -> & Hrs).
    destruct p as [| i p]; [discriminate |].
    cbn in Hv. destruct (nth_error rs i) as [ri |] eqn:Hri; [| discriminate].
    destruct (Hrs i ri Hri) as (xi & yi & Hxi & Hyi & Hin & Hm).
    rewrite Forall_forall in IH. apply list_elem_of_In in Hin.
    destruct (IH xi Hin yi ri Hm p v Hv) as (a & b & Ha & Hb & ->).
    exists a, b. rewrite !get_stretched_cons, Hxi, Hyi. auto.
Qed.

End Products.

(** Every element of [x * y] is the product of the elements of [x] and [y]
    that broadcasting aligns with it. *)
Lemma tf_mul_get (x y r : arr) :
  tf_mul x y = Some r ->
  forall p v, get r p = Some v ->
  exists a b,
    operand_at (Nat.max (rank x) (rank y)) x p = Some a /\
    operand_at (Nat.max (rank x) (rank y)) y p = Some b /\
    v = mulf a b.
Proof. intros E p v Hv. exact (bmul_get _ _ _ E p v Hv). Qed.

(** A finite value times a zero is a zero (of either sign). *)
Lemma mulf_finite_zero (a b : float) :
  is_finite a = true -> is_zero b = true -> is_zero (mulf a b) = true.
Proof. destruct a, b; cbn; congruence. Qed.

(** An infinity or a NaN times a zero is NaN. *)
Lemma mulf_not_finite_zero (a b : float) :
  is_finite a = false -> is_zero b = true -> mulf a b = S754_nan.
Proof. destruct a, b; cbn; congruence. Qed.

(** Flushing subnormal numbers to zero changes no product with a zero. *)
Lemma mulf_flushed_masked (a b : float) :
  is_zero b = true -> mulf_flushed a b = mulf a b.
Proof.
  intros Hb. destruct b; try discriminate Hb.
  destruct a as [sa | sa | | sa m e]; try reflexivity.
  unfold mulf_flushed, flush.
  destruct (Z.pos m <? 2 ^ 23)%Z; reflexivity.
Qed.

Section Masking.
Context {noise : Type} (I : interp noise) (n : noise).

(** The product of an embedding with a mask, element by element. *)
Lemma masked_product (embedding mask : tensor) (r : arr) :
  eval I n (Mul embedding mask) = Some r ->
  exists e m,
    eval I n embedding = Some e /\ eval I n mask = Some m /\
    forall p v, get r p = Some v ->
    exists a b,
      operand_at (Nat.max (rank e) (rank m)) e p = Some a /\
      operand_at (Nat.max (rank e) (rank m)) m p = Some b /\
      v = mulf a b /\
      (is_zero b = true -> is_finite a = true -> is_zero v = true) /\
      (is_zero b = true -> is_finite a = false -> v = S754_nan).
Proof.
  cbn [eval]. intros E.
  destruct (eval I n embedding) as [e |]; [| discriminate].
  destruct (eval I n mask) as [m |]; [| discriminate].
  exists e, m. repeat split. intros p v Hv.
  destruct (tf_mul_get e m r E p v Hv) as (a & b & Ha & Hb & ->).
  exists a, b. repeat split; try assumption.
  - intros Hz Hf. apply mulf_finite_zero; assumption.
  - intros Hz Hf. apply mulf_not_finite_zero; assumption.
Qed.

End Masking.

(** C10 (as amended). In [WordFeat.__call__] and [CharFeat.__call__] the
    embedding output is multiplied element-wise by the input mask (expanded
    by one axis for characters) before anything else is applied to it: the
    product is what the dropout layer, respectively the convolution layer,
    receives.  Every element of the product at a position where the mask
    is zero is a zero provided the embedding value there is finite; where
    the embedding value is an infinity or NaN the element is NaN. *)
Theorem mask_applied_before_layers :
  (forall (self : WordFeat.t) (input_word input_word_mask : tensor)
          (s : state),
     let masked :=
       Mul (Squeeze (Call (WordFeat.embedding_layer self) [input_word] 0)
                    (-2))
           input_word_mask in
     exists s',
       WordFeat.__call__ self input_word input_word_mask s
       = (Ok [Call (WordFeat.dropout_layer self)
                [masked; input_word_mask] 0;
              Call (WordFeat.dropout_layer self)
                [masked; input_word_mask] 1], s')) /\
  (forall (self : CharFeat.t) (input_char input_char_mask : tensor)
          (s : state),
     let mask := ExpandDims input_char_mask (-1) in
     let masked :=
       Mul (Call (CharFeat.embedding_layer self) [input_char] 0) mask in
     let conv (k : nat) := Call (CharFeat.conv_layer self) [masked; mask] k in
     exists s',
       CharFeat.__call__ self input_char input_char_mask s
       = (Ok [Call (CharFeat.pooling_layer self) [conv 0%nat; conv 1%nat] 0;
              Call (CharFeat.pooling_layer self) [conv 0%nat; conv 1%nat] 1],
          s')) /\
  (forall (noise : Type) (I : interp noise) (n : noise)
          (embedding mask : tensor) (r : arr),
     eval I n (Mul embedding mask) = Some r ->
     exists e m,
       eval I n embedding = Some e /\ eval I n mask = Some m /\
       forall p v, get r p = Some v ->
       exists a b,
         operand_at (Nat.max (rank e) (rank m)) e p = Some a /\
         operand_at (Nat.max (rank e) (rank m)) m p = Some b /\
         v = mulf a b /\
         (is_zero b = true -> is_finite a = true -> is_zero v = true) /\
         (is_zero b = true -> is_finite a = false -> v = S754_nan)).
Proof.
  split; [| split].
  - intros self input_word input_word_mask s masked.
    eexists. unfold WordFeat.__call__. run. reflexivity.
  - intros self input_char input_char_mask s mask masked conv.
    eexists. unfold CharFeat.__call__. run. reflexivity.
  - intros noise I n. apply masked_product.
Qed.

(** With a finite embedding value the masked-out element is a zero. *)
Lemma mask_applied_before_layers_witness :
  let masked :=
    Mul (Squeeze (Call (create_embedding_layer 100 8 false 0 0 0 true)
                       [Input "text_word"] 0) (-2))
        (Input "text_word_mask") in
  eval (Example.masked_run f1) tt masked
    = Some (Arr [Arr [Arr [Scalar (S754_zero false)]]]) /\
  exists e m,
    eval (Example.masked_run f1) tt
      (Squeeze (Call (create_embedding_layer 100 8 false 0 0 0 true)
                     [Input "text_word"] 0) (-2)) = Some e /\
    eval (Example.masked_run f1) tt (Input "text_word_mask") = Some m /\
    forall p v,
      get (Arr [Arr [Arr [Scalar (S754_zero false)]]]) p = Some v ->
      exists a b,
        operand_at (Nat.max (rank e) (rank m)) e p = Some a /\
        operand_at (Nat.max (rank e) (rank m)) m p = Some b /\
        v = mulf a b /\
        (is_zero b = true -> is_finite a = true -> is_zero v = true) /\
        (is_zero b = true -> is_finite a = false -> v = S754_nan).
Proof.
  split; [reflexivity |].
  apply (proj2 (proj2 mask_applied_before_layers) unit
           (Example.masked_run f1) tt).
  reflexivity.
Defined.

(** C10 as stated fails: with an infinity in the embedding table and a
    mask that is zero at the only position, the element that enters the
    dropout layer of [WordFeat], and the one that enters the convolution
    layer of [CharFeat], is NaN, not zero. *)
Lemma masked_infinity_is_nan :
  let word := Graph.word_feat_layer (Example.model "infer") in
  let char := Graph.char_feat_layer (Example.model "infer") in
  let run := Example.masked_run Example.inf in
  (* the mask is zero at position [0; 0; 0] *)
  (exists m, eval run tt (Input "text_word_mask") = Some m /\
             get m [0; 0; 0]%nat = Some f0) /\
  (* the word-level product there is NaN *)
  (exists r,
     eval run tt (WordFeat.input_word_embedding word (Input "text_word")
                    (Input "text_word_mask")) = Some r /\
     get r [0; 0; 0]%nat = Some S754_nan) /\
  (* the character-level product there is NaN *)
  (exists r,
     eval run tt (CharFeat.input_char_embedding char (Input "text_char")
                    (Input "text_char_mask")) = Some r /\
     get r [0; 0; 0; 0]%nat = Some S754_nan) /\
  is_zero S754_nan = false.
Proof.
  repeat split; eexists; split; reflexivity.
Qed.

(* ------------------------------------------------------------------------- *)
(** ** Results: constructing the example model *)

Section Runs.
#[local] Existing Instance Example.framework.
#[local] Existing Instance Example.base_model.

Lemma example_init_raises (mode : string) :
  SequenceCRF.__init__ (Example.model mode) state0
  = (Raise (ValueError unpack_message), Example.stopped mode).
Proof. unfold Example.stopped. rewrite init_run. reflexivity. Qed.

Lemma example_init_unset (mode k : string) :
  k ∉ ["global_step"; "word_embedding_placeholder"] ->
  attributes (Example.stopped mode) !! k = None.
Proof.
  intros Hk. unfold Example.stopped.
  rewrite (init_assigns_nothing_else _ _ _ Hk). apply lookup_empty.
Qed.

(** C3. Constructing the model in mode "train" raises at line 46; no
    training loss is computed: [self.train_loss] is never assigned. *)
Theorem train_loss_never_assigned :
  SequenceCRF.__init__ (Example.model "train") state0
    = (Raise (ValueError
                "not enough values to unpack (expected 3, got 2)"),
       Example.stopped "train") /\
  attributes (Example.stopped "train") !! "train_loss" = None.
Proof.
  split; [apply example_init_raises |].
  apply example_init_unset. notin.
Qed.

(** C4. Constructing the model in mode "infer" raises at line 46; nothing
    is decoded: [self.infer_predict] and [self.infer_predict_mask] are
    never assigned. *)
Theorem infer_predict_never_assigned :
  SequenceCRF.__init__ (Example.model "infer") state0
    = (Raise (ValueError
                "not enough values to unpack (expected 3, got 2)"),
       Example.stopped "infer") /\
  attributes (Example.stopped "infer") !! "infer_predict" = None /\
  attributes (Example.stopped "infer") !! "infer_predict_mask" = None.
Proof.
  split; [apply example_init_raises |].
  split; apply example_init_unset; notin.
Qed.

(** C5. Constructing the model in mode "train" with moving averages
    enabled raises at line 46; neither the model update nor the averaging
    op is built: [self.update_model] and [self.update_op] are never
    assigned. *)
Theorem update_op_never_assigned :
  train_ema_enable (hparams (Example.model "train")) = true /\
  SequenceCRF.__init__ (Example.model "train") state0
    = (Raise (ValueError
                "not enough values to unpack (expected 3, got 2)"),
       Example.stopped "train") /\
  attributes (Example.stopped "train") !! "update_model" = None /\
  attributes (Example.stopped "train") !! "update_op" = None.
Proof.
  split; [reflexivity |].
  split; [apply example_init_raises |].
  split; apply example_init_unset; notin.
Qed.

(** C6. Constructing the model with moving averages enabled raises at line
    46 in mode "train" and in mode "infer"; no lookup is made and no saver
    is built: [self.variable_lookup], [self.ckpt_debug_saver] and
    [self.ckpt_epoch_saver] are never assigned. *)
Theorem savers_never_assigned :
  train_ema_enable Example.hyperparams = true /\
  (SequenceCRF.__init__ (Example.model "train") state0
     = (Raise (ValueError
                 "not enough values to unpack (expected 3, got 2)"),
        Example.stopped "train") /\
   attributes (Example.stopped "train") !! "variable_lookup" = None /\
   attributes (Example.stopped "train") !! "ckpt_debug_saver" = None /\
   attributes (Example.stopped "train") !! "ckpt_epoch_saver" = None) /\
  (SequenceCRF.__init__ (Example.model "infer") state0
     = (Raise (ValueError
                 "not enough values to unpack (expected 3, got 2)"),
        Example.stopped "infer") /\
   attributes (Example.stopped "infer") !! "variable_lookup" = None /\
   attributes (Example.stopped "infer") !! "ckpt_debug_saver" = None /\
   attributes (Example.stopped "infer") !! "ckpt_epoch_saver" = None).
Proof.
  split; [reflexivity |].
  split; (split; [apply example_init_raises |]);
    repeat split; apply example_init_unset; notin.
Qed.

(** The example model in mode "infer": the constructor stops at line 46
    and nothing is decoded. *)
Lemma scores_never_reach_crf_witness :
  SequenceCRF.__init__ (Example.model "infer") state0
    = (Raise (ValueError
                "not enough values to unpack (expected 3, got 2)"),
       Example.stopped "infer") /\
  length (built (Example.stopped "infer")) = 8%nat /\
  attributes (Example.stopped "infer") !! "infer_predict" = None /\
  attributes (Example.stopped "infer") !! "train_loss" = None.
Proof.
  destruct (scores_never_reach_crf (Example.model "infer") state0)
    as (_ & s' & E & B & _ & _ & _ & Hi & Ht).
  assert (Es : s' = Example.stopped "infer")
    by (unfold Example.stopped; rewrite E; reflexivity).
  subst s'. split; [exact E |]. split; [rewrite B; reflexivity |].
  split; [exact Hi | exact Ht].
Defined.

(** The constructor of the example stops with only two attributes set. *)
Lemma init_fails_at_unpacking_witness :
  SequenceCRF.__init__ (Example.model "train") state0
    = (Raise (ValueError
                "not enough values to unpack (expected 3, got 2)"),
       Example.stopped "train") /\
  attributes (Example.stopped "train") !! "train_loss" = None /\
  dirs (Example.stopped "train") = [] /\ saved (Example.stopped "train") = [].
Proof.
  destruct (init_fails_at_unpacking (Example.model "train") state0)
    as (_ & s' & E & U & _ & D & S & _).
  assert (Es : s' = Example.stopped "train") by (unfold Example.stopped; rewrite E; reflexivity).
  subst s'. split; [exact E |]. split; [| split; assumption].
  rewrite U; [reflexivity | notin].
Defined.

(** Saving the object the constructor of the example leaves. *)
Lemma save_finds_no_saver_witness :
  SequenceCRF.__init__ (Example.model "train") state0
    = (Raise (ValueError
                "not enough values to unpack (expected 3, got 2)"),
       Example.stopped "train") /\
  SequenceCRF.save (PyObj "session") 7 "epoch" (Example.stopped "train")
    = (Raise (AttributeError
                "'SequenceCRF' object has no attribute 'ckpt_epoch_saver'"),
       Example.stopped "train") /\
  saved (Example.stopped "train") = [].
Proof.
  destruct (save_finds_no_saver (Example.model "train") state0
              (PyObj "session") 7 "epoch" eq_refl eq_refl)
    as (s' & E & _ & _ & S & _ & _ & He & _).
  assert (Es : s' = Example.stopped "train")
    by (unfold Example.stopped; rewrite E; reflexivity).
  subst s'. split; [exact E |]. split; [apply He; reflexivity | exact S].
Defined.

End Runs.
(* ------------------------------------------------------------------------- *)
(** ** More results: saving, restoring and listing checkpoints *)

Ltac run_ckpt :=
  cbv beta iota zeta delta
    [mbind mret M_bind M_ret bind ret raise modify get_state get_attr
     Saver_save SequenceCRF.get_saver SequenceCRF.get_str
     SequenceCRF.get_restorer SequenceCRF.save SequenceCRF.restore
     SequenceCRF.get_latest_ckpt SequenceCRF.get_ckpt_list].

Section Checkpoints.
Context `{CheckpointStore}.

(** X1. [save] on an object that lacks the saver of the requested mode
    (attribute [ckpt_debug_saver] for "debug", [ckpt_epoch_saver] for
    "epoch") raises AttributeError naming that attribute and writes no
    checkpoint; the state is left as it was. *)
Theorem save_without_saver (s : state) (sess : pyobj) (global_step : Z)
    (save_mode : string) :
  save_mode = "debug" \/ save_mode = "epoch" ->
  attributes s !! ("ckpt_" +:+ save_mode +:+ "_saver") = None ->
  SequenceCRF.save sess global_step save_mode s
  = (Raise (AttributeError
              ("'SequenceCRF' object has no attribute 'ckpt_" +:+ save_mode
               +:+ "_saver'")), s).
Proof.
  intros [-> | ->] Hs.
  - change (attributes s !! "ckpt_debug_saver" = None) in Hs.
    run_ckpt. cbn. rewrite Hs. reflexivity.
  - change (attributes s !! "ckpt_epoch_saver" = None) in Hs.
    run_ckpt. cbn. rewrite Hs. reflexivity.
Qed.

Lemma save_writes (s : state) (sess : pyobj) (step : Z) (save_mode : string)
    (debug_saver epoch_saver : saver) (debug_name epoch_name : string) :
  attributes s !! "ckpt_debug_saver" = Some (VSaver debug_saver) ->
  attributes s !! "ckpt_debug_name" = Some (VStr debug_name) ->
  attributes s !! "ckpt_epoch_saver" = Some (VSaver epoch_saver) ->
  attributes s !! "ckpt_epoch_name" = Some (VStr epoch_name) ->
  save_mode = "debug" \/ save_mode = "epoch" ->
  SequenceCRF.save sess step save_mode s
  = (Ok tt,
     with_saved s
       (if String.eqb save_mode "debug"
        then SaverSave debug_saver sess debug_name step
        else SaverSave epoch_saver sess epoch_name step)).
Proof.
  intros Hds Hdn Hes Hen [-> | ->]; run_ckpt; cbn;
    rewrite ?Hds, ?Hdn, ?Hes, ?Hen; reflexivity.
Qed.

(** X2. Two successful calls of [save] in a row make exactly two calls
    of the framework's [Saver.save], in the order of the calls, each on
    the saver and with the checkpoint name of its own mode, and with the
    session and the step it was handed; the attributes of the object and
    the directories are left as they were.  (Which checkpoint files exist
    afterwards is the framework's business: a saver deletes its oldest
    checkpoints beyond [max_to_keep].) *)
Theorem save_twice (s : state) (sess : pyobj) (step1 step2 : Z)
    (mode1 mode2 : string) (debug_saver epoch_saver : saver)
    (debug_name epoch_name : string) :
  attributes s !! "ckpt_debug_saver" = Some (VSaver debug_saver) ->
  attributes s !! "ckpt_debug_name" = Some (VStr debug_name) ->
  attributes s !! "ckpt_epoch_saver" = Some (VSaver epoch_saver) ->
  attributes s !! "ckpt_epoch_name" = Some (VStr epoch_name) ->
  mode1 = "debug" \/ mode1 = "epoch" ->
  mode2 = "debug" \/ mode2 = "epoch" ->
  let written (m : string) (step : Z) :=
    if String.eqb m "debug"
    then SaverSave debug_saver sess debug_name step
    else SaverSave epoch_saver sess epoch_name step in
  (SequenceCRF.save sess step1 mode1 ;;
   SequenceCRF.save sess step2 mode2) s
  = (Ok tt, with_saved (with_saved s (written mode1 step1))
                       (written mode2 step2)).
Proof.
  intros Hds Hdn Hes Hen H1 H2 written.
  unfold mbind, M_bind, bind.
  rewrite (save_writes s sess step1 mode1 _ _ _ _ Hds Hdn Hes Hen H1).
  exact (save_writes (with_saved s (written mode1 step1)) sess step2 mode2
           _ _ _ _ Hds Hdn Hes Hen H2).
Qed.

(** X3. [restore] checks the file before the type: with [ckpt_file] None it
    raises FileNotFoundError for every [ckpt_type], also an unsupported
    one, from every state.  With a file it hands the file to the
    framework's restore of the debug saver when [ckpt_type] is "debug", of
    the epoch saver when it is "epoch", and for every other type raises
    ValueError without restoring anything. *)
Theorem restore_by_type (s : state) (sess : pyobj) (ckpt_type : string) :
  SequenceCRF.restore sess None ckpt_type s
    = (Raise (FileNotFoundError "checkpoint file doesn't exist"), s) /\
  forall ckpt_file : string,
    (forall sv, ckpt_type = "debug" ->
       attributes s !! "ckpt_debug_saver" = Some (VSaver sv) ->
       SequenceCRF.restore sess (Some ckpt_file) ckpt_type s
       = Saver_restore sv sess ckpt_file s) /\
    (forall sv, ckpt_type = "epoch" ->
       attributes s !! "ckpt_epoch_saver" = Some (VSaver sv) ->
       SequenceCRF.restore sess (Some ckpt_file) ckpt_type s
       = Saver_restore sv sess ckpt_file s) /\
    (ckpt_type <> "debug" -> ckpt_type <> "epoch" ->
     SequenceCRF.restore sess (Some ckpt_file) ckpt_type s
     = (Raise (ValueError ("unsupported checkpoint type " +:+ ckpt_type)),
        s)).
Proof.
  split; [reflexivity |]. intros ckpt_file. repeat split.
  - intros sv -> Hs. run_ckpt. cbn. rewrite Hs. reflexivity.
  - intros sv -> Hs. run_ckpt. cbn. rewrite Hs. reflexivity.
  - intros Hd He. unfold SequenceCRF.restore.
    destruct (String.eqb_spec ckpt_type "debug"); [contradiction |].
    destruct (String.eqb_spec ckpt_type "epoch"); [contradiction |].
    reflexivity.
Qed.

(** X4. [get_latest_ckpt] reads only the directory of the requested type
    and never changes the state: it returns the latest checkpoint the
    framework finds in the debug directory for "debug" and in the epoch
    directory for "epoch", raises FileNotFoundError when there is none,
    and raises ValueError for every other type, whatever the object
    holds. *)
Theorem latest_ckpt_by_type (s : state) (ckpt_type : string) :
  (forall dir, ckpt_type = "debug" ->
     attributes s !! "ckpt_debug_dir" = Some (VStr dir) ->
     SequenceCRF.get_latest_ckpt ckpt_type s
     = (match latest_checkpoint s dir with
        | Some ckpt_file => Ok ckpt_file
        | None => Raise (FileNotFoundError
                           "latest checkpoint file doesn't exist")
        end, s)) /\
  (forall dir, ckpt_type = "epoch" ->
     attributes s !! "ckpt_epoch_dir" = Some (VStr dir) ->
     SequenceCRF.get_latest_ckpt ckpt_type s
     = (match latest_checkpoint s dir with
        | Some ckpt_file => Ok ckpt_file
        | None => Raise (FileNotFoundError
                           "latest checkpoint file doesn't exist")
        end, s)) /\
  (ckpt_type <> "debug" -> ckpt_type <> "epoch" ->
   SequenceCRF.get_latest_ckpt ckpt_type s
   = (Raise (ValueError ("unsupported checkpoint type " +:+ ckpt_type)), s)).
Proof.
  repeat split.
  - intros dir -> Hd. run_ckpt. cbn. rewrite Hd.
    destruct (latest_checkpoint s dir); reflexivity.
  - intros dir -> Hd. run_ckpt. cbn. rewrite Hd.
    destruct (latest_checkpoint s dir); reflexivity.
  - intros Hd He. unfold SequenceCRF.get_latest_ckpt.
    destruct (String.eqb_spec ckpt_type "debug"); [contradiction |].
    destruct (String.eqb_spec ckpt_type "epoch"); [contradiction |].
    reflexivity.
Qed.

(** X5. [get_ckpt_list] returns the checkpoint paths of the state the
    framework finds in the directory of the requested type and never
    changes the state; it raises FileNotFoundError
    only when there is no checkpoint state at all, and ValueError for
    every type other than "debug" and "epoch". *)
Theorem ckpt_list_by_type (s : state) (ckpt_type : string) :
  (forall dir,
     (ckpt_type = "debug" /\
      attributes s !! "ckpt_debug_dir" = Some (VStr dir)) \/
     (ckpt_type = "epoch" /\
      attributes s !! "ckpt_epoch_dir" = Some (VStr dir)) ->
     (forall paths, get_checkpoint_state s dir = Some paths ->
        SequenceCRF.get_ckpt_list ckpt_type s = (Ok paths, s)) /\
     (get_checkpoint_state s dir = None ->
        SequenceCRF.get_ckpt_list ckpt_type s
        = (Raise (FileNotFoundError "checkpoint files doesn't exist"), s))) /\
  (ckpt_type <> "debug" -> ckpt_type <> "epoch" ->
   SequenceCRF.get_ckpt_list ckpt_type s
   = (Raise (ValueError ("unsupported checkpoint type " +:+ ckpt_type)), s)).
Proof.
  split.
  - intros dir [[-> Hd] | [-> Hd]]; split.
    + intros paths Hp. run_ckpt. cbn. rewrite Hd, Hp. reflexivity.
    + intros Hp. run_ckpt. cbn. rewrite Hd, Hp. reflexivity.
    + intros paths Hp. run_ckpt. cbn. rewrite Hd, Hp. reflexivity.
    + intros Hp. run_ckpt. cbn. rewrite Hd, Hp. reflexivity.
  - intros Hd He. unfold SequenceCRF.get_ckpt_list.
    destruct (String.eqb_spec ckpt_type "debug"); [contradiction |].
    destruct (String.eqb_spec ckpt_type "epoch"); [contradiction |].
    reflexivity.
Qed.

(** X6. Restoring the latest checkpoint of a type,
    [restore(sess, get_latest_ckpt(t), t)], restores the latest file of
    that type's directory with that type's saver; when the directory holds
    no checkpoint it raises the FileNotFoundError of [get_latest_ckpt]
    and restores nothing. *)
Theorem restore_latest (s : state) (sess : pyobj) (ckpt_type : string)
    (debug_saver epoch_saver : saver) (debug_dir epoch_dir : string) :
  attributes s !! "ckpt_debug_saver" = Some (VSaver debug_saver) ->
  attributes s !! "ckpt_debug_dir" = Some (VStr debug_dir) ->
  attributes s !! "ckpt_epoch_saver" = Some (VSaver epoch_saver) ->
  attributes s !! "ckpt_epoch_dir" = Some (VStr epoch_dir) ->
  ckpt_type = "debug" \/ ckpt_type = "epoch" ->
  let dir := if String.eqb ckpt_type "debug" then debug_dir else epoch_dir in
  let sv :=
    if String.eqb ckpt_type "debug" then debug_saver else epoch_saver in
  (ckpt_file ← SequenceCRF.get_latest_ckpt ckpt_type;
   SequenceCRF.restore sess (Some ckpt_file) ckpt_type) s
  = match latest_checkpoint s dir with
    | Some ckpt_file => Saver_restore sv sess ckpt_file s
    | None =>
        (Raise (FileNotFoundError "latest checkpoint file doesn't exist"), s)
    end.
Proof.
  intros Hds Hdd Hes Hed [-> | ->] dir sv; subst dir sv;
    run_ckpt; cbn; rewrite ?Hdd, ?Hed;
    match goal with
    | |- context [latest_checkpoint s ?d] =>
        destruct (latest_checkpoint s d)
    end; cbn; rewrite ?Hds, ?Hes; reflexivity.
Qed.

End Checkpoints.

(* ------------------------------------------------------------------------- *)
(** ** More results: what the prediction graph reads and builds *)

Section Feeds.
Context {noise : Type} (I1 I2 : interp noise) (n : noise).
Hypothesis HI : same_but_feed I1 I2.

(** The value of a node depends on the feeds only through the inputs the
    node reads. *)
Lemma eval_depends_on_inputs (t : tensor) :
  (forall name, name ∈ inputs_of t -> feed I1 name = feed I2 name) ->
  eval I1 n t = eval I2 n t.
Proof.
  destruct HI as (Hv & Hl & Hf & Ho).
  revert t. fix IH 1. intros t.
  destruct t as [name | v | c | x axis | x axis | x y | x y | x axis | x
                | l args k | l feats masks k | l | x y z k | x y z w k
                | reg weights | decay vl ci | decay v | name args];
    intros Hfeed.
  - apply Hfeed. left.
  - cbn [eval]. rewrite Hv. reflexivity.
  - reflexivity.
  - cbn [eval]. rewrite (IH x Hfeed). reflexivity.
  - cbn [eval]. rewrite (IH x Hfeed). reflexivity.
  - cbn [eval inputs_of] in *.
    rewrite (IH x), (IH y); [reflexivity | |];
      intros name Hn; apply Hfeed, elem_of_app; auto.
  - cbn [eval inputs_of] in *.
    rewrite (IH x), (IH y), Ho; [reflexivity | |];
      intros name Hn; apply Hfeed, elem_of_app; auto.
  - cbn [eval]. rewrite (IH x Hfeed), Ho. reflexivity.
  - cbn [eval]. rewrite (IH x Hfeed), Ho. reflexivity.
  - change (inputs_of (Call l args k)) with (inputs_of_all args) in Hfeed.
    change (match evals I1 n args with
            | Some vs => layer_apply I1 l n vs k
            | None => None
            end
            = match evals I2 n args with
              | Some vs => layer_apply I2 l n vs k
              | None => None
              end).
    assert (E : evals I1 n args = evals I2 n args).
    { induction args as [| a args IHargs]; [reflexivity |].
      cbn [evals inputs_of_all] in *.
      rewrite (IH a), IHargs; [reflexivity | |];
        intros name Hn; apply Hfeed, elem_of_app; auto. }
    rewrite E, Hl. reflexivity.
  - change (inputs_of (CallLists l feats masks k))
      with (inputs_of_all feats ++ inputs_of_all masks) in Hfeed.
    change (match evals I1 n feats, evals I1 n masks with
            | Some fs, Some ms => fusion_apply I1 l n fs ms k
            | _, _ => None
            end
            = match evals I2 n feats, evals I2 n masks with
              | Some fs, Some ms => fusion_apply I2 l n fs ms k
              | _, _ => None
              end).
    assert (E : evals I1 n feats = evals I2 n feats).
    { assert (Hfeats : forall name, name ∈ inputs_of_all feats ->
                                    feed I1 name = feed I2 name)
        by (intros name Hn; apply Hfeed, elem_of_app; auto).
      clear Hfeed.
      induction feats as [| a feats IHfeats]; [reflexivity |].
      cbn [evals inputs_of_all] in *.
      rewrite (IH a), IHfeats; [reflexivity | |];
        intros name Hn; apply Hfeats, elem_of_app; auto. }
    assert (E' : evals I1 n masks = evals I2 n masks).
    { assert (Hmasks : forall name, name ∈ inputs_of_all masks ->
                                    feed I1 name = feed I2 name)
        by (intros name Hn; apply Hfeed, elem_of_app; auto).
      clear Hfeed.
      induction masks as [| a masks IHmasks]; [reflexivity |].
      cbn [evals inputs_of_all] in *.
      rewrite (IH a), IHmasks; [reflexivity | |];
        intros name Hn; apply Hmasks, elem_of_app; auto. }
    rewrite E, E', Hf. reflexivity.
  - reflexivity.
  - cbn [eval inputs_of] in *.
    rewrite (IH x), (IH y), (IH z), Ho; [reflexivity | | |];
      intros name Hn; apply Hfeed; rewrite !elem_of_app; auto.
  - cbn [eval inputs_of] in *.
    rewrite (IH x), (IH y), (IH z), (IH w), Ho; [reflexivity | | | |];
      intros name Hn; apply Hfeed; rewrite !elem_of_app; auto.
  - change (inputs_of (ApplyRegularization reg weights))
      with (inputs_of_all weights) in Hfeed.
    change (match evals I1 n weights with
            | Some vs => op_apply I1 "apply_regularization" vs 0
            | None => None
            end
            = match evals I2 n weights with
              | Some vs => op_apply I2 "apply_regularization" vs 0
              | None => None
              end).
    assert (E : evals I1 n weights = evals I2 n weights).
    { induction weights as [| a weights IHweights]; [reflexivity |].
      cbn [evals inputs_of_all] in *.
      rewrite (IH a), IHweights; [reflexivity | |];
        intros name Hn; apply Hfeed, elem_of_app; auto. }
    rewrite E, Ho. reflexivity.
  - reflexivity.
  - cbn [eval]. rewrite Hv. reflexivity.
  - change (inputs_of (Opaque name args)) with (inputs_of_all args) in Hfeed.
    change (match evals I1 n args with
            | Some vs => op_apply I1 name vs 0
            | None => None
            end
            = match evals I2 n args with
              | Some vs => op_apply I2 name vs 0
              | None => None
              end).
    assert (E : evals I1 n args = evals I2 n args).
    { induction args as [| a args IHargs]; [reflexivity |].
      cbn [evals inputs_of_all] in *.
      rewrite (IH a), IHargs; [reflexivity | |];
        intros name' Hn; apply Hfeed, elem_of_app; auto. }
    rewrite E, Ho. reflexivity.
Qed.

End Feeds.

Section GraphReads.
Context `{Framework} `{BaseModel}.
Context (self : base)
        (text_word text_word_mask text_char text_char_mask : tensor).

Lemma projection_inputs (k : nat) (name : string) :
  name ∈ inputs_of (Graph.text_projection_modeling self text_word
                      text_word_mask text_char text_char_mask k)
  <-> name ∈ enabled_inputs self text_word text_word_mask text_char
             text_char_mask.
Proof.
  unfold enabled_inputs. graph_terms.
  unfold WordFeat.input_word_embedding, CharFeat.input_char_embedding,
    CharFeat.input_char_embedding_mask.
  by_flags self; cbn; rewrite ?elem_of_app, ?elem_of_nil; tauto.
Qed.

End GraphReads.

Section GraphExtras.
Context `{Framework} `{BaseModel}.
Context (self : base)
        (text_word text_word_mask text_char text_char_mask : tensor).

(** X7. The scores and the mask [_build_graph] returns read exactly the
    inputs of the enabled streams: their value in a run does not change
    when anything else is fed differently (the labels, the tensors of a
    disabled stream), all else being equal. *)
Theorem scores_read_only_enabled_streams (s : state) :
  exists outputs s',
    SequenceCRF._build_graph self text_word text_word_mask text_char
      text_char_mask s = (Ok outputs, s') /\
    length outputs = 2%nat /\
    forall t, t ∈ outputs ->
      (forall name,
         name ∈ inputs_of t <->
         name ∈ enabled_inputs self text_word text_word_mask text_char
                  text_char_mask) /\
      forall (noise : Type) (I1 I2 : interp noise) (n : noise),
        same_but_feed I1 I2 ->
        (forall name,
           name ∈ enabled_inputs self text_word text_word_mask text_char
                    text_char_mask ->
           feed I1 name = feed I2 name) ->
        eval I1 n t = eval I2 n t.
Proof.
  do 2 eexists. split; [apply build_graph_run |]. split; [reflexivity |].
  intros t Ht.
  assert (Hin : forall name,
            name ∈ inputs_of t <->
            name ∈ enabled_inputs self text_word text_word_mask text_char
                     text_char_mask).
  { apply elem_of_cons in Ht as [-> | Ht];
      [| apply elem_of_cons in Ht as [-> | Ht]; [| inversion Ht]];
      apply projection_inputs. }
  split; [exact Hin |].
  intros noise I1 I2 n HI Hfeed.
  apply eval_depends_on_inputs; [exact HI |].
  intros name Hn. apply Hfeed, Hin, Hn.
Qed.

(** The layers and the attribute [_build_representation_layer] leaves. *)
Lemma build_representation_layer_state (s : state) :
  exists s',
    SequenceCRF._build_representation_layer self text_word text_word_mask
      text_char text_char_mask s
    = (Ok [Graph.text_feat self text_word text_word_mask text_char
             text_char_mask 0%nat;
           Graph.text_feat self text_word text_word_mask text_char
             text_char_mask 1%nat], s') /\
    attributes s' =
      <["word_embedding_placeholder" :=
          Graph.word_embedding_placeholder self]> (attributes s) /\
    scopes s' = scopes s.
Proof.
  run; graph_terms.
  by_flags self; run; eexists; (split; [reflexivity |]);
    split; reflexivity.
Qed.

(** X8. [self.word_embedding_placeholder] is the placeholder of the very
    embedding layer in which the word stream handed to the fusion module
    looks the words up, whether or not the embedding is pretrained; with
    the word stream disabled it is None and no word stream reaches the
    fusion module. *)
Theorem placeholder_of_word_stream (s : state) :
  exists s' fusion feats masks,
    SequenceCRF._build_representation_layer self text_word text_word_mask
      text_char text_char_mask s
    = (Ok [CallLists fusion feats masks 0;
           CallLists fusion feats masks 1], s') /\
    (model_word_feat_enable (hparams self) = true ->
     exists embedding dropout rest,
       attributes s' !! "word_embedding_placeholder"
         = Some (VTensor (EmbeddingPlaceholder embedding)) /\
       feats =
         Call dropout
           [Mul (Squeeze (Call embedding [text_word] 0) (-2))
                text_word_mask;
            text_word_mask] 0 :: rest /\
       embedding =
         create_embedding_layer (data_word_vocab_size (hparams self))
           (model_word_embed_dim (hparams self))
           (model_word_embed_pretrained (hparams self)) 0 0
           (train_random_seed (hparams self))
           (model_word_feat_trainable (hparams self))) /\
    (model_word_feat_enable (hparams self) = false ->
     attributes s' !! "word_embedding_placeholder" = Some VNone /\
     length feats = (if model_char_feat_enable (hparams self)
                     then 1 else 0)%nat).
Proof.
  destruct (build_representation_layer_state s) as (s' & E & A & _).
  exists s'. do 3 eexists. split; [exact E |].
  rewrite A, lookup_insert_eq.
  unfold Graph.word_embedding_placeholder, Graph.text_feat_list.
  split; intros Hw; rewrite Hw.
  - do 3 eexists. repeat split; reflexivity.
  - split; [reflexivity |].
    destruct (model_char_feat_enable (hparams self)); reflexivity.
Qed.

(** X9. A disabled stream builds nothing: [_build_graph] registers, in
    this order, the embedding and dropout layers of an enabled word stream
    under the scope [word_feat], the embedding, convolution and pooling
    layers of an enabled character stream under the scope [char_feat],
    then always the fusion module, the recurrent layer and the dense layer,
    all below the caller's scopes followed by "graph"; with a stream
    disabled no layer at all is registered under its scope. *)
Theorem disabled_stream_builds_nothing (s : state) :
  let hp := hparams self in
  let rate (configured : float) :=
    if String.eqb (mode self) "train" then configured else f0 in
  let representation := scopes s ++ ["graph"; "representation"] in
  let modeling := scopes s ++ ["graph"; "modeling"] in
  let word_layers :=
    [(representation ++ ["word_feat"],
      create_embedding_layer (data_word_vocab_size hp)
        (model_word_embed_dim hp) (model_word_embed_pretrained hp) 0 0
        (train_random_seed hp) (model_word_feat_trainable hp));
     (representation ++ ["word_feat"],
      create_dropout_layer (rate (model_word_dropout hp)) 0 0)] in
  let char_layers :=
    [(representation ++ ["char_feat"],
      create_embedding_layer (data_char_vocab_size hp)
        (model_char_embed_dim hp) false 0 0 (train_random_seed hp)
        (model_char_feat_trainable hp));
     (representation ++ ["char_feat"],
      create_convolution_layer "stacked_multi_1d" 1 (model_char_embed_dim hp)
        (model_char_unit_dim hp) (model_char_window_size hp) 1 "SAME"
        (model_char_hidden_activation hp) [rate (model_char_dropout hp)]
        None false false (num_gpus self) (default_gpu_id self)
        (regularizer self) (train_random_seed hp)
        (model_char_feat_trainable hp));
     (representation ++ ["char_feat"],
      create_pooling_layer (model_char_pooling_type hp) (-1) 1 0 0)] in
  let shared_layers :=
    [(representation,
      FusionModule
        ((if model_word_feat_enable hp then model_word_embed_dim hp else 0) +
         (if model_char_feat_enable hp then model_char_unit_dim hp else 0))
        (model_fusion_unit_dim hp) (model_fusion_type hp)
        (model_fusion_num_layer hp) (model_fusion_hidden_activation hp)
        (rate (model_fusion_dropout hp)) (num_gpus self)
        (default_gpu_id self) (regularizer self) (train_random_seed hp)
        (model_fusion_trainable hp));
     (modeling,
      create_recurrent_layer "bi" (model_sequence_num_layer hp)
        (model_sequence_unit_dim hp) (model_sequence_cell_type hp)
        (model_sequence_hidden_activation hp)
        (rate (model_sequence_dropout hp)) (model_sequence_forget_bias hp)
        (model_sequence_residual_connect hp) None (num_gpus self)
        (default_gpu_id self) (train_random_seed hp)
        (model_sequence_trainable hp));
     (modeling,
      create_dense_layer "single" 1 (model_projection_unit_dim hp) 1
        EmptyString [f0] None false false (num_gpus self)
        (default_gpu_id self) (regularizer self) (train_random_seed hp)
        (model_projection_trainable hp))] in
  exists outputs s' layers,
    SequenceCRF._build_graph self text_word text_word_mask text_char
      text_char_mask s = (Ok outputs, s') /\
    built s' = built s ++ layers /\
    layers =
      (if model_word_feat_enable hp then word_layers else []) ++
      (if model_char_feat_enable hp then char_layers else []) ++
      shared_layers /\
    length layers =
      ((if model_word_feat_enable hp then 2 else 0) +
       (if model_char_feat_enable hp then 3 else 0) + 3)%nat /\
    Forall (fun b => exists rest,
              fst b = scopes s ++ "graph" :: rest /\
              (model_word_feat_enable hp = false -> "word_feat" ∉ rest) /\
              (model_char_feat_enable hp = false -> "char_feat" ∉ rest))
           layers.
Proof.
  intros hp rate representation modeling word_layers char_layers
    shared_layers.
  do 3 eexists. split; [apply build_graph_run |].
  split; [reflexivity |]. subst hp. unfold Graph.layers_built.
  split.
  { subst word_layers char_layers shared_layers representation modeling.
    rewrite <- !app_assoc. reflexivity. }
  by_flags self; (split; [reflexivity |]);
    repeat (apply Forall_cons; split); try apply Forall_nil;
    cbn [fst]; eexists; (split; [reflexivity |]);
    split; intros Hf; try discriminate Hf;
    repeat (apply not_elem_of_cons; split; [discriminate |]);
    apply not_elem_of_nil.
Qed.

(** X10. With both streams disabled the module makes no check of its own
    and raises nothing: [_build_representation_layer] builds the fusion
    module with input dimension 0 and calls it on two empty lists, and the
    scores [_build_graph] returns read no input at all. *)
Theorem no_stream_enabled (s : state) :
  model_word_feat_enable (hparams self) = false ->
  model_char_feat_enable (hparams self) = false ->
  exists s' out_dim type num_layer activation dropout trainable,
    let fusion :=
      FusionModule 0 out_dim type num_layer activation dropout
        (num_gpus self) (default_gpu_id self) (regularizer self)
        (train_random_seed (hparams self)) trainable in
    SequenceCRF._build_representation_layer self text_word text_word_mask
      text_char text_char_mask s
    = (Ok [CallLists fusion [] [] 0; CallLists fusion [] [] 1], s') /\
    exists outputs s'',
      SequenceCRF._build_graph self text_word text_word_mask text_char
        text_char_mask s = (Ok outputs, s'') /\
      length outputs = 2%nat /\
      forall t, t ∈ outputs -> inputs_of t = [].
Proof.
  intros Hw Hc.
  destruct (build_representation_layer_state s) as (s' & E & _).
  exists s'. do 6 eexists. split.
  - rewrite E. unfold Graph.text_feat, Graph.text_feat_list,
      Graph.feat_fusion_layer, Graph.word_unit_dim, Graph.char_unit_dim.
    rewrite Hw, Hc. reflexivity.
  - do 2 eexists. split; [apply build_graph_run |].
    split; [reflexivity |].
    intros t Ht.
    apply elem_of_cons in Ht as [-> | Ht];
      [| apply elem_of_cons in Ht as [-> | Ht]; [| inversion Ht]];
      graph_terms; rewrite Hw, Hc; reflexivity.
Qed.

End GraphExtras.

Section Modes.
Context `{Framework} `{BaseModel}.

(** X11. The graph depends on the mode only through the test
    [mode == "train"]: in any two modes other than "train" ("infer" and
    "eval", say) [_build_graph] returns the same nodes and leaves the same
    state. *)
Theorem graph_same_outside_training (self : base) (mode1 mode2 : string)
    (text_word text_word_mask text_char text_char_mask : tensor)
    (s : state) :
  mode1 <> "train" -> mode2 <> "train" ->
  SequenceCRF._build_graph (with_mode mode1 self) text_word text_word_mask
    text_char text_char_mask s
  = SequenceCRF._build_graph (with_mode mode2 self) text_word text_word_mask
      text_char text_char_mask s.
Proof.
  intros H1 H2. rewrite !build_graph_run.
  assert (D1 : mode (with_mode mode1 self) <> "train") by exact H1.
  assert (D2 : mode (with_mode mode2 self) <> "train") by exact H2.
  destruct (dropout_outside_training _ D1) as (W1 & C1 & F1 & S1).
  destruct (dropout_outside_training _ D2) as (W2 & C2 & F2 & S2).
  graph_terms. rewrite W1, C1, F1, S1, W2, C2, F2, S2. reflexivity.
Qed.

End Modes.

(* ------------------------------------------------------------------------- *)
(** ** More results: the blocks after the graph build, one by one *)

Lemma existsb_eqb_elem (d : string) (l : list string) :
  existsb (String.eqb d) l = true <-> d ∈ l.
Proof.
  rewrite existsb_exists. split.
  - intros (x & Hx & E). apply String.eqb_eq in E as ->.
    apply list_elem_of_In. exact Hx.
  - intros Hd. exists d. split; [apply list_elem_of_In, Hd |].
    apply String.eqb_refl.
Qed.

Lemma ensure_elem (d : string) (l : list string) : d ∈ ensure d l.
Proof.
  unfold ensure. destruct (existsb (String.eqb d) l) eqn:E.
  - apply existsb_eqb_elem, E.
  - apply elem_of_app. right. left.
Qed.

Lemma ensure_keeps (d x : string) (l : list string) :
  x ∈ l -> x ∈ ensure d l.
Proof.
  unfold ensure. destruct (existsb (String.eqb d) l); [auto |].
  intros Hx. apply elem_of_app. left. exact Hx.
Qed.

Lemma ensure_present (d : string) (l : list string) :
  d ∈ l -> ensure d l = l.
Proof.
  intros Hd. unfold ensure.
  apply existsb_eqb_elem in Hd. rewrite Hd. reflexivity.
Qed.

Lemma ensure_NoDup (d : string) (l : list string) :
  NoDup l -> NoDup (ensure d l).
Proof.
  intros Hl. unfold ensure. destruct (existsb (String.eqb d) l) eqn:E.
  - exact Hl.
  - apply NoDup_app. split; [exact Hl |]. split.
    + intros x Hx Hx'. apply list_elem_of_singleton in Hx' as ->.
      apply existsb_eqb_elem in Hx. congruence.
    + apply NoDup_singleton.
Qed.

Section CheckpointBlock.
Context `{Framework} `{BaseModel}.

Lemma ensure_dir_run (d : string) (s : state) :
  SequenceCRF.ensure_dir d s = (Ok tt, with_dirs s (ensure d (dirs s))).
Proof.
  destruct s as [a l sc b c ds sv]. unfold with_dirs, ensure. run_blocks.
  destruct (existsb (String.eqb d) ds); reflexivity.
Qed.

Lemma os_path_join_relative (a : string) :
  exists sep, forall b,
    String.prefix "/" b = false -> os_path_join a b = a +:+ sep +:+ b.
Proof.
  unfold os_path_join.
  destruct (String.eqb a EmptyString || endswith_sep a).
  - exists EmptyString. intros b ->. reflexivity.
  - exists "/". intros b ->. reflexivity.
Qed.

Lemma append_inj_r (a x y : string) : a +:+ x = a +:+ y -> x = y.
Proof. apply String.app_inj. Qed.

Lemma append_empty (a : string) : a +:+ EmptyString = a.
Proof.
  induction a as [| c a IH]; [reflexivity |].
  change (String c (a +:+ EmptyString) = String c a). f_equal. exact IH.
Qed.

Lemma append_neq_self (a x : string) : x <> EmptyString -> a +:+ x <> a.
Proof.
  intros Hx E. apply Hx.
  apply (append_inj_r a). rewrite E, append_empty. reflexivity.
Qed.

(** X12. The block that sets up checkpointing (lines 109-125) leaves the
    output directory and its "debug" and "epoch" subdirectories existing,
    creating each only if it is missing: no directory is removed, a list
    of directories without duplicates stays so, and when all three exist
    nothing is created.  The two subdirectories differ from each other
    and from the output directory, and each checkpoint name lies in its
    own subdirectory.  All this is done before the savers are built at
    line 124, so it holds also when the framework refuses to build them
    (over an empty lookup), the only way the block can raise. *)
Theorem checkpoint_directories (self : base)
    (variable_lookup : gmap string tensor) (s : state) :
  let out := train_ckpt_output_dir (hparams self) in
  let debug_dir := os_path_join out "debug" in
  let epoch_dir := os_path_join out "epoch" in
  exists r s',
    SequenceCRF.create_checkpoint_saver self variable_lookup s = (r, s') /\
    (variable_lookup <> ∅ -> r = Ok tt) /\
    (variable_lookup = ∅ -> r = Raise (ValueError "No variables to save")) /\
    (out ∈ dirs s' /\ debug_dir ∈ dirs s' /\ epoch_dir ∈ dirs s') /\
    (forall d, d ∈ dirs s -> d ∈ dirs s') /\
    (NoDup (dirs s) -> NoDup (dirs s')) /\
    (out ∈ dirs s -> debug_dir ∈ dirs s -> epoch_dir ∈ dirs s ->
     dirs s' = dirs s) /\
    (debug_dir <> epoch_dir /\ debug_dir <> out /\ epoch_dir <> out) /\
    attributes s' !! "ckpt_debug_dir" = Some (VStr debug_dir) /\
    attributes s' !! "ckpt_epoch_dir" = Some (VStr epoch_dir) /\
    attributes s' !! "ckpt_debug_name"
      = Some (VStr (os_path_join debug_dir "model_debug_ckpt")) /\
    attributes s' !! "ckpt_epoch_name"
      = Some (VStr (os_path_join epoch_dir "model_epoch_ckpt")).
Proof.
  intros out debug_dir epoch_dir.
  assert (E : exists s',
    SequenceCRF.create_checkpoint_saver self variable_lookup s
      = (if (size variable_lookup =? 0)%nat
         then Raise (ValueError "No variables to save") else Ok tt, s') /\
    dirs s' = ensure epoch_dir (ensure debug_dir (ensure out (dirs s))) /\
    attributes s' !! "ckpt_debug_dir" = Some (VStr debug_dir) /\
    attributes s' !! "ckpt_epoch_dir" = Some (VStr epoch_dir) /\
    attributes s' !! "ckpt_debug_name"
      = Some (VStr (os_path_join debug_dir "model_debug_ckpt")) /\
    attributes s' !! "ckpt_epoch_name"
      = Some (VStr (os_path_join epoch_dir "model_epoch_ckpt"))).
  { unfold SequenceCRF.create_checkpoint_saver.
    cbv beta iota zeta delta [mbind mret M_bind M_ret bind ret].
    fold out. fold debug_dir. fold epoch_dir.
    rewrite ensure_dir_run. cbv beta iota.
    unfold set_attr at 1 2. unfold modify at 1 2. cbv beta iota.
    rewrite ensure_dir_run. cbv beta iota.
    rewrite ensure_dir_run. cbv beta iota.
    unfold tf_train_Saver, set_attr, modify, ret, raise. cbv beta iota.
    destruct (size variable_lookup =? 0)%nat;
      (eexists; split; [reflexivity |]);
      cbn [dirs with_dirs attributes]; repeat split; lookup_attr. }
  destruct E as (s' & E & D & A1 & A2 & A3 & A4).
  eexists. exists s'. split; [exact E |].
  rewrite D.
  split; [| split; [| split; [| split; [| split; [| split; [| split]]]]]].
  - intros Hne. destruct (size variable_lookup =? 0)%nat eqn:Es;
      [| reflexivity].
    exfalso. apply Hne, map_size_empty_iff, Nat.eqb_eq, Es.
  - intros ->. reflexivity.
  - auto using ensure_elem, ensure_keeps.
  - auto using ensure_keeps.
  - auto using ensure_NoDup.
  - intros Ho Hd He. rewrite (ensure_present out), (ensure_present debug_dir),
      (ensure_present epoch_dir); auto.
  - destruct (os_path_join_relative out) as (sep & Hsep).
    subst debug_dir epoch_dir.
    rewrite (Hsep "debug" eq_refl), (Hsep "epoch" eq_refl). repeat split.
    + intros E'. do 2 apply append_inj_r in E'. discriminate E'.
    + apply append_neq_self. destruct sep; discriminate.
    + apply append_neq_self. destruct sep; discriminate.
  - auto.
Qed.

End CheckpointBlock.

Section TailBlocks.
Context `{Framework} `{BaseModel}.
Context (self : base).

(** X13. The learning-rate block (lines 73-89) chains its two stages in a
    fixed order: the warm-up, when enabled, is applied to the constant
    initial rate, and the decay, when enabled, is applied to the result of
    the warm-up stage (the initial rate itself when warm-up is disabled);
    [self.learning_rate] is always the result of the decay stage, so with
    both disabled all four attributes hold the constant. *)
Theorem learning_rate_chain (s : state) :
  let hp := hparams self in
  let initial := Const (train_optimizer_learning_rate hp) in
  exists s' warmup decayed,
    SequenceCRF.learning_rate_block self s = (Ok decayed, s') /\
    attributes s' !! "initial_learning_rate" = Some (VTensor initial) /\
    attributes s' !! "warmup_learning_rate" = Some (VTensor warmup) /\
    attributes s' !! "decayed_learning_rate" = Some (VTensor decayed) /\
    attributes s' !! "learning_rate" = Some (VTensor decayed) /\
    (if train_optimizer_warmup_enable hp
     then exists me,
            warmup = _apply_learning_rate_warmup self me initial /\
            me !! "initial_learning_rate" = Some (VTensor initial)
     else warmup = initial) /\
    (if train_optimizer_decay_enable hp
     then exists me,
            decayed = _apply_learning_rate_decay self me warmup /\
            me !! "warmup_learning_rate" = Some (VTensor warmup)
     else decayed = warmup).
Proof.
  intros hp initial. subst hp initial. run_blocks.
  destruct (train_optimizer_warmup_enable (hparams self)),
    (train_optimizer_decay_enable (hparams self)); run_blocks;
    do 3 eexists; (split; [reflexivity |]);
    repeat split; lookup_attr;
    try (eexists; split; [reflexivity | lookup_attr]).
Qed.

Lemma untouched_after_build_graph_other
    (label sequence_length predict predict_mask transition_matrix : tensor)
    (k : string) :
  mode self <> "train" -> mode self <> "infer" ->
  k ∉ ["variable_list"; "variable_lookup"; "ema"] ->
  k ∉ checkpoint_attributes ->
  untouched k (SequenceCRF.after_build_graph self label sequence_length
                 predict predict_mask transition_matrix).
Proof.
  intros Ht Hi Hc Hs. unfold SequenceCRF.after_build_graph.
  destruct (String.eqb_spec (mode self) "train") as [E | _];
    [contradiction |].
  destruct (String.eqb_spec (mode self) "infer") as [E | _];
    [contradiction |].
  apply untouched_bind; [apply untouched_collect_variables; exact Hc |].
  intros [[variable_list ema] variable_lookup].
  apply untouched_bind; [apply untouched_ret |].
  intros _. apply untouched_bind; [apply untouched_ret |].
  intros lookup. apply untouched_create_checkpoint_saver. exact Hs.
Qed.

(** X14. The statements after the graph build (lines 48-125) do not check
    the mode: in a mode that is neither "train" nor "infer" they assign
    none of the attributes of the inference branch or of the training
    branch and go on to the checkpoint set-up.  There both savers are
    built, over the lookup of the trainable variables, when the graph has
    at least one trainable variable; with none the framework refuses the
    first saver at line 124 and its ValueError is the only exception the
    statements can end in. *)
Theorem mode_is_not_validated
    (label sequence_length predict predict_mask transition_matrix : tensor)
    (s : state) :
  mode self <> "train" -> mode self <> "infer" ->
  let lookup :=
    if train_ema_enable (hparams self)
    then dict_of (average_name (scopes s)) Var (variables_in s)
    else dict_of op_name Var (variables_in s) in
  exists s',
    SequenceCRF.after_build_graph self label sequence_length predict
      predict_mask transition_matrix s
    = (match variables_in s with
       | [] => Raise (ValueError "No variables to save")
       | _ => Ok tt
       end, s') /\
    (variables_in s <> [] ->
     attributes s' !! "ckpt_debug_saver"
       = Some (VSaver (Saver lookup Saver_default_max_to_keep)) /\
     attributes s' !! "ckpt_epoch_saver"
       = Some (VSaver (Saver lookup (train_num_epoch (hparams self))))) /\
    (variables_in s = [] ->
     attributes s' !! "ckpt_debug_saver" = attributes s !! "ckpt_debug_saver" /\
     attributes s' !! "ckpt_epoch_saver"
       = attributes s !! "ckpt_epoch_saver") /\
    forall k,
      k ∈ ["infer_predict"; "infer_predict_mask"; "infer_summary";
           "train_loss"; "initial_learning_rate"; "warmup_learning_rate";
           "decayed_learning_rate"; "learning_rate"; "optimizer";
           "update_model"; "clipped_gradients"; "gradient_norm";
           "update_op"; "train_summary"] ->
      attributes s' !! k = attributes s !! k.
Proof.
  intros Ht Hi lookup.
  destruct (after_build_graph_result self label sequence_length predict
              predict_mask transition_matrix s)
    as (s' & E & S & _).
  assert (EL : saver_lookup self s = lookup).
  { unfold saver_lookup, lookup_of_variables, lookup.
    destruct (String.eqb_spec (mode self) "train"); [contradiction |].
    reflexivity. }
  exists s'. split; [exact E |]. rewrite EL in S.
  split; [exact S |]. split.
  - intros Hv.
    assert (Es : snd (SequenceCRF.after_build_graph self label
                        sequence_length predict predict_mask
                        transition_matrix s) = s')
      by (rewrite E; reflexivity).
    rewrite <- Es. clear E S Es.
    unfold SequenceCRF.after_build_graph.
    destruct (collect_variables_run self s)
      as (s1 & E1 & W1 & _ & _ & A1 & _).
    unfold mbind, M_bind, bind. rewrite E1. cbv beta iota zeta.
    destruct (String.eqb_spec (mode self) "train"); [contradiction |].
    destruct (String.eqb_spec (mode self) "infer"); [contradiction |].
    cbv beta iota zeta delta [mret M_ret ret].
    assert (U : forall k, k ∉ ["variable_list"; "variable_lookup"; "ema"] ->
                          attributes s1 !! k = attributes s !! k).
    { intros k Hk.
      pose proof (untouched_collect_variables self k Hk s) as U.
      rewrite E1 in U. exact U. }
    assert (Z0 : (size (lookup_of_variables self s) =? 0)%nat = true).
    { pose proof (saver_lookup_size self s) as Z0.
      unfold saver_lookup in Z0.
      destruct (String.eqb_spec (mode self) "train"); [contradiction |].
      rewrite Z0, Hv. reflexivity. }
    split.
    + etransitivity;
        [apply (untouched_refused_savers "ckpt_debug_saver" self _ Z0);
         notin | apply U; notin].
    + etransitivity;
        [apply (untouched_refused_savers "ckpt_epoch_saver" self _ Z0);
         notin | apply U; notin].
  - intros k Hk.
    pose proof (untouched_after_build_graph_other label sequence_length
                  predict predict_mask transition_matrix k Ht Hi) as U.
    unfold untouched in U. specialize (fun a b => U a b s).
    rewrite E in U. apply U; clear U;
      repeat (apply elem_of_cons in Hk as [-> | Hk]; [notin |]);
      inversion Hk.
Qed.

Lemma untouched_ema_collect_variables :
  train_ema_enable (hparams self) = false ->
  untouched "ema" (SequenceCRF.collect_variables self).
Proof.
  intros He. unfold SequenceCRF.collect_variables. rewrite He. frame.
Qed.

(** X15. With moving averages disabled the statements of lines 48-125
    never make an averaging object ([self.ema] is not assigned), in mode
    "train" make the update op the model update itself, and build both
    savers, in every mode, over the lookup that holds each trainable
    variable under its own name; the savers are built when the graph has
    at least one trainable variable, and with none the framework's refusal
    at line 124 is the only exception. *)
Theorem without_moving_averages
    (label sequence_length predict predict_mask transition_matrix : tensor)
    (s : state) :
  train_ema_enable (hparams self) = false ->
  let lookup := dict_of op_name Var (variables_in s) in
  exists s',
    SequenceCRF.after_build_graph self label sequence_length predict
      predict_mask transition_matrix s
    = (match variables_in s with
       | [] => Raise (ValueError "No variables to save")
       | _ => Ok tt
       end, s') /\
    attributes s' !! "ema" = attributes s !! "ema" /\
    (variables_in s <> [] ->
     attributes s' !! "ckpt_debug_saver"
       = Some (VSaver (Saver lookup Saver_default_max_to_keep)) /\
     attributes s' !! "ckpt_epoch_saver"
       = Some (VSaver (Saver lookup (train_num_epoch (hparams self))))) /\
    (forall k t, lookup !! k = Some t ->
       exists v, v ∈ variables_in s /\ k = op_name v /\ t = Var v) /\
    (NoDup (op_name <$> variables_in s) ->
     forall v, v ∈ variables_in s -> lookup !! op_name v = Some (Var v)) /\
    (mode self = "train" ->
     exists update_model,
       attributes s' !! "update_model" = Some (VTensor update_model) /\
       attributes s' !! "update_op" = Some (VTensor update_model)).
Proof.
  intros He lookup.
  destruct (after_build_graph_result self label sequence_length predict
              predict_mask transition_matrix s)
    as (s' & E & S & _ & T).
  exists s'.
  assert (EL : saver_lookup self s = lookup).
  { unfold saver_lookup, lookup_of_averages, lookup_of_variables,
      ema_object. rewrite He.
    destruct (String.eqb (mode self) "train"); reflexivity. }
  split; [exact E |]. split.
  { assert (U : untouched "ema"
                  (SequenceCRF.after_build_graph self label sequence_length
                     predict predict_mask transition_matrix)).
    { unfold SequenceCRF.after_build_graph.
      apply untouched_bind; [apply untouched_ema_collect_variables, He |].
      intros [[variable_list ema] variable_lookup].
      apply untouched_bind.
      { destruct (String.eqb (mode self) "infer");
          [apply untouched_infer_block; notin | apply untouched_ret]. }
      intros _. apply untouched_bind.
      { destruct (String.eqb (mode self) "train");
          [apply untouched_train_block; notin | apply untouched_ret]. }
      intros lookup'. apply untouched_create_checkpoint_saver. notin. }
    specialize (U s). rewrite E in U. exact U. }
  rewrite EL in S. split; [exact S |].
  split; [| split].
  - intros k t Hk.
    destruct (dict_of_lookup_Some _ _ _ _ _ Hk) as (v & Hv & <- & ->).
    exists v. auto.
  - intros Hnd v Hv. apply dict_of_lookup; assumption.
  - intros Hm. destruct (T Hm) as (um & _ & P & Q).
    exists um. split; [exact P |].
    unfold update_op_of, ema_object in Q. rewrite He in Q. exact Q.
Qed.

End TailBlocks.

(* ------------------------------------------------------------------------- *)
(** ** More results on the example object *)

Section MoreRuns.
#[local] Existing Instance Example.framework.
#[local] Existing Instance Example.base_model.
#[local] Existing Instance Example.store.

(** On the object the constructor leaves behind, [save] finds no saver. *)
Lemma save_without_saver_witness :
  SequenceCRF.save (PyObj "session") 7 "epoch" (Example.stopped "train")
  = (Raise (AttributeError
              "'SequenceCRF' object has no attribute 'ckpt_epoch_saver'"),
     Example.stopped "train").
Proof.
  apply (save_without_saver (Example.stopped "train") (PyObj "session") 7
           "epoch").
  - right. reflexivity.
  - vm_compute. reflexivity.
Defined.

(** A debug checkpoint followed by an epoch checkpoint. *)
Lemma save_twice_witness :
  saved (snd ((SequenceCRF.save (PyObj "session") 1 "debug";;
               SequenceCRF.save (PyObj "session") 2 "epoch")
                Example.constructed))
  = [SaverSave Example.debug_saver (PyObj "session")
       "output/debug/model_debug_ckpt" 1;
     SaverSave Example.epoch_saver (PyObj "session")
       "output/epoch/model_epoch_ckpt" 2].
Proof.
  rewrite (save_twice Example.constructed (PyObj "session") 1 2 "debug"
             "epoch" Example.debug_saver Example.epoch_saver
             "output/debug/model_debug_ckpt"
             "output/epoch/model_epoch_ckpt").
  - reflexivity.
  - vm_compute. reflexivity.
  - vm_compute. reflexivity.
  - vm_compute. reflexivity.
  - vm_compute. reflexivity.
  - left. reflexivity.
  - right. reflexivity.
Defined.

(** Restoring a debug checkpoint, an epoch checkpoint, and a checkpoint of
    an unsupported type. *)
Lemma restore_by_type_witness :
  SequenceCRF.restore (PyObj "session") (Some "f") "debug"
    Example.constructed
  = log_print "restored f" Example.constructed /\
  SequenceCRF.restore (PyObj "session") (Some "f") "epoch"
    Example.constructed
  = log_print "restored f" Example.constructed /\
  SequenceCRF.restore (PyObj "session") (Some "f") "best"
    Example.constructed
  = (Raise (ValueError "unsupported checkpoint type best"),
     Example.constructed) /\
  SequenceCRF.restore (PyObj "session") None "best" Example.constructed
  = (Raise (FileNotFoundError "checkpoint file doesn't exist"),
     Example.constructed).
Proof.
  destruct (restore_by_type Example.constructed (PyObj "session") "debug")
    as [_ Hd].
  destruct (Hd "f") as (Hd' & _ & _).
  destruct (restore_by_type Example.constructed (PyObj "session") "epoch")
    as [_ He].
  destruct (He "f") as (_ & He' & _).
  destruct (restore_by_type Example.constructed (PyObj "session") "best")
    as [Hn Hb].
  destruct (Hb "f") as (_ & _ & Hb').
  split; [| split; [| split]].
  - apply (Hd' Example.debug_saver); [reflexivity | vm_compute; reflexivity].
  - apply (He' Example.epoch_saver); [reflexivity | vm_compute; reflexivity].
  - apply Hb'; discriminate.
  - exact Hn.
Defined.

(** After two debug checkpoints the latest is the second, and there is no
    epoch checkpoint. *)
Lemma latest_ckpt_by_type_witness :
  SequenceCRF.get_latest_ckpt "debug" Example.after_two_saves
  = (Ok "output/debug/model_debug_ckpt-2", Example.after_two_saves) /\
  SequenceCRF.get_latest_ckpt "epoch" Example.after_two_saves
  = (Raise (FileNotFoundError "latest checkpoint file doesn't exist"),
     Example.after_two_saves) /\
  SequenceCRF.get_latest_ckpt "best" Example.after_two_saves
  = (Raise (ValueError "unsupported checkpoint type best"),
     Example.after_two_saves).
Proof.
  destruct (latest_ckpt_by_type Example.after_two_saves "debug")
    as (Hd & _ & _).
  destruct (latest_ckpt_by_type Example.after_two_saves "epoch")
    as (_ & He & _).
  destruct (latest_ckpt_by_type Example.after_two_saves "best")
    as (_ & _ & Hb).
  split; [| split].
  - rewrite (Hd "output/debug"); [reflexivity | reflexivity |].
    vm_compute. reflexivity.
  - rewrite (He "output/epoch"); [reflexivity | reflexivity |].
    vm_compute. reflexivity.
  - apply Hb; discriminate.
Defined.

(** After two debug checkpoints both are listed, oldest first, and the
    epoch directory has no checkpoint state. *)
Lemma ckpt_list_by_type_witness :
  SequenceCRF.get_ckpt_list "debug" Example.after_two_saves
  = (Ok ["output/debug/model_debug_ckpt-1";
         "output/debug/model_debug_ckpt-2"], Example.after_two_saves) /\
  SequenceCRF.get_ckpt_list "epoch" Example.after_two_saves
  = (Raise (FileNotFoundError "checkpoint files doesn't exist"),
     Example.after_two_saves) /\
  SequenceCRF.get_ckpt_list "best" Example.after_two_saves
  = (Raise (ValueError "unsupported checkpoint type best"),
     Example.after_two_saves).
Proof.
  destruct (ckpt_list_by_type Example.after_two_saves "debug") as [Hd _].
  destruct (ckpt_list_by_type Example.after_two_saves "epoch") as [He _].
  destruct (ckpt_list_by_type Example.after_two_saves "best") as [_ Hb].
  split; [| split].
  - destruct (Hd "output/debug") as [Hp _].
    + left. split; [reflexivity | vm_compute; reflexivity].
    + apply Hp. vm_compute. reflexivity.
  - destruct (He "output/epoch") as [_ Hp].
    + right. split; [reflexivity | vm_compute; reflexivity].
    + apply Hp. vm_compute. reflexivity.
  - apply Hb; discriminate.
Defined.

(** Restoring the latest debug checkpoint after two saves restores the
    second. *)
Lemma restore_latest_witness :
  (ckpt_file ← SequenceCRF.get_latest_ckpt "debug";
   SequenceCRF.restore (PyObj "session") (Some ckpt_file) "debug")
    Example.after_two_saves
  = log_print "restored output/debug/model_debug_ckpt-2"
      Example.after_two_saves.
Proof.
  rewrite (restore_latest Example.after_two_saves (PyObj "session") "debug"
             Example.debug_saver Example.epoch_saver
             "output/debug" "output/epoch").
  - reflexivity.
  - vm_compute. reflexivity.
  - vm_compute. reflexivity.
  - vm_compute. reflexivity.
  - vm_compute. reflexivity.
  - left. reflexivity.
Defined.

(** The scores of the example model are the same whatever the labels. *)
Lemma scores_read_only_enabled_streams_witness :
  eval (Example.labelled_run f0) tt
    (Graph.text_projection_modeling (Example.model "infer")
       (Input "text_word") (Input "text_word_mask") (Input "text_char")
       (Input "text_char_mask") 0)
  = eval (Example.labelled_run f1) tt
      (Graph.text_projection_modeling (Example.model "infer")
         (Input "text_word") (Input "text_word_mask") (Input "text_char")
         (Input "text_char_mask") 0).
Proof.
  destruct (scores_read_only_enabled_streams (Example.model "infer")
              (Input "text_word") (Input "text_word_mask")
              (Input "text_char") (Input "text_char_mask") state0)
    as (outputs & s' & E & _ & P).
  rewrite build_graph_run in E. injection E as <- _.
  refine (proj2 (P _ _) unit _ _ tt _ _).
  - left.
  - repeat split.
  - intros name Hn. vm_compute in Hn.
    repeat (apply elem_of_cons in Hn as [-> | Hn]; [reflexivity |]).
    inversion Hn.
Defined.

(** The placeholder of the example model. *)
Lemma placeholder_of_word_stream_witness :
  attributes
    (snd (SequenceCRF._build_representation_layer (Example.model "train")
            (Input "text_word") (Input "text_word_mask")
            (Input "text_char") (Input "text_char_mask") state0))
    !! "word_embedding_placeholder"
  = Some (VTensor (EmbeddingPlaceholder
                     (create_embedding_layer 100 8 false 0 0 0 true))).
Proof.
  destruct (placeholder_of_word_stream (Example.model "train")
              (Input "text_word") (Input "text_word_mask")
              (Input "text_char") (Input "text_char_mask") state0)
    as (s' & fusion & feats & masks & E & Hw & _).
  rewrite E. destruct (Hw eq_refl) as (embedding & dropout & rest & A & _ & ->).
  exact A.
Defined.

(** With the word stream disabled the example model registers six layers,
    none of them under the scope of the word stream. *)
Lemma disabled_stream_builds_nothing_witness :
  exists layers,
    built (snd (SequenceCRF._build_graph
                  (Example.model_of false true true "train")
                  (Input "text_word") (Input "text_word_mask")
                  (Input "text_char") (Input "text_char_mask") state0))
      = layers /\
    length layers = 6%nat /\
    Forall (fun b => "word_feat" ∉ fst b) layers.
Proof.
  destruct (disabled_stream_builds_nothing
              (Example.model_of false true true "train")
              (Input "text_word") (Input "text_word_mask")
              (Input "text_char") (Input "text_char_mask") state0)
    as (outputs & s' & layers & E & B & _ & L & F).
  exists layers. rewrite E. split; [exact B |]. split; [exact L |].
  eapply Forall_impl; [exact F |].
  intros b (rest & -> & Hw & _).
  apply not_elem_of_cons. split; [discriminate | apply Hw; reflexivity].
Defined.

(** The example model with both streams disabled. *)
Lemma no_stream_enabled_witness :
  exists fusion s',
    SequenceCRF._build_representation_layer
      (Example.model_of false false true "infer")
      (Input "text_word") (Input "text_word_mask") (Input "text_char")
      (Input "text_char_mask") state0
    = (Ok [CallLists fusion [] [] 0; CallLists fusion [] [] 1], s').
Proof.
  destruct (no_stream_enabled (Example.model_of false false true "infer")
              (Input "text_word") (Input "text_word_mask")
              (Input "text_char") (Input "text_char_mask") state0
              eq_refl eq_refl)
    as (s' & out_dim & type & num_layer & activation & dropout & trainable
        & E & _).
  do 2 eexists. exact E.
Defined.

(** The example model builds the same graph for inference and for
    evaluation. *)
Lemma graph_same_outside_training_witness :
  SequenceCRF._build_graph (with_mode "infer" (Example.model "train"))
    (Input "text_word") (Input "text_word_mask") (Input "text_char")
    (Input "text_char_mask") state0
  = SequenceCRF._build_graph (with_mode "eval" (Example.model "train"))
      (Input "text_word") (Input "text_word_mask") (Input "text_char")
      (Input "text_char_mask") state0.
Proof.
  apply (graph_same_outside_training (Example.model "train") "infer"
           "eval"); discriminate.
Defined.

(** The checkpointing block from no directory at all, and again, with no
    variable to save, on an object whose three directories exist. *)
Lemma checkpoint_directories_witness :
  (fst (SequenceCRF.create_checkpoint_saver (Example.model "train")
          Example.variable_lookup state0) = Ok tt /\
   "output/debug" ∈ dirs Example.checkpointed /\
   NoDup (dirs Example.checkpointed)) /\
  (fst (SequenceCRF.create_checkpoint_saver (Example.model "train") ∅
          Example.constructed) = Raise (ValueError "No variables to save") /\
   dirs (snd (SequenceCRF.create_checkpoint_saver (Example.model "train") ∅
                Example.constructed))
   = dirs Example.constructed).
Proof.
  split.
  - destruct (checkpoint_directories (Example.model "train")
                Example.variable_lookup state0)
      as (r & s' & E & Hr & _ & (_ & Hd & _) & _ & Hn & _).
    unfold Example.checkpointed. rewrite E. split; [| split].
    + apply Hr. intros Hc. apply (f_equal size) in Hc.
      vm_compute in Hc. discriminate Hc.
    + exact Hd.
    + apply Hn. apply NoDup_nil_2.
  - destruct (checkpoint_directories (Example.model "train") ∅
                Example.constructed)
      as (r & s' & E & _ & Hr & _ & _ & _ & Hi & _).
    rewrite E. split; [apply Hr; reflexivity |]. apply Hi.
    + left.
    + right. left.
    + right. right. left.
Defined.

(** The example model in mode "eval": from the state at line 46, and from
    a state with no layer, hence no variable, at all. *)
Lemma mode_is_not_validated_witness :
  (exists s',
     SequenceCRF.after_build_graph (Example.model "eval") (Input "label")
       (Opaque "sequence_length" []) (Opaque "predict" [])
       (Opaque "predict_mask" []) (Opaque "transition_matrix" [])
       (Example.at_line_46 (Example.model "eval"))
     = (Ok tt, s') /\
     attributes s' !! "train_loss" = None /\
     attributes s' !! "infer_predict" = None) /\
  (exists s',
     SequenceCRF.after_build_graph (Example.model "eval") (Input "label")
       (Opaque "sequence_length" []) (Opaque "predict" [])
       (Opaque "predict_mask" []) (Opaque "transition_matrix" []) state0
     = (Raise (ValueError "No variables to save"), s') /\
     attributes s' !! "ckpt_debug_saver" = None).
Proof.
  split.
  - destruct (mode_is_not_validated (Example.model "eval")
                (Input "label") (Opaque "sequence_length" [])
                (Opaque "predict" []) (Opaque "predict_mask" [])
                (Opaque "transition_matrix" [])
                (Example.at_line_46 (Example.model "eval")))
      as (s' & E & _ & _ & U).
    + discriminate.
    + discriminate.
    + exists s'. split; [| split].
      * rewrite E.
        destruct (variables_in (Example.at_line_46 (Example.model "eval")))
          eqn:V; [vm_compute in V; discriminate V | reflexivity].
      * rewrite (U "train_loss"); [reflexivity |]. do 3 right. left.
      * rewrite (U "infer_predict"); [reflexivity |]. left.
  - destruct (mode_is_not_validated (Example.model "eval")
                (Input "label") (Opaque "sequence_length" [])
                (Opaque "predict" []) (Opaque "predict_mask" [])
                (Opaque "transition_matrix" []) state0)
      as (s' & E & _ & N & _).
    + discriminate.
    + discriminate.
    + exists s'. split; [exact E |].
      destruct (N eq_refl) as [Nd _]. rewrite Nd. reflexivity.
Defined.

(** The example model without moving averages, in mode "train": from the
    state at line 46, and from a state with no variable at all. *)
Lemma without_moving_averages_witness :
  (exists s' update_model,
     SequenceCRF.after_build_graph
       (Example.model_of true true false "train") (Input "label")
       (Opaque "sequence_length" []) (Opaque "predict" [])
       (Opaque "predict_mask" []) (Opaque "transition_matrix" [])
       (Example.at_line_46 (Example.model_of true true false "train"))
     = (Ok tt, s') /\
     attributes s' !! "ema" = None /\
     attributes s' !! "update_model" = Some (VTensor update_model) /\
     attributes s' !! "update_op" = Some (VTensor update_model)) /\
  fst (SequenceCRF.after_build_graph
         (Example.model_of true true false "train") (Input "label")
         (Opaque "sequence_length" []) (Opaque "predict" [])
         (Opaque "predict_mask" []) (Opaque "transition_matrix" []) state0)
  = Raise (ValueError "No variables to save").
Proof.
  split.
  - destruct (without_moving_averages
                (Example.model_of true true false "train")
                (Input "label") (Opaque "sequence_length" [])
                (Opaque "predict" []) (Opaque "predict_mask" [])
                (Opaque "transition_matrix" [])
                (Example.at_line_46
                   (Example.model_of true true false "train"))
                eq_refl)
      as (s' & E & A & _ & _ & _ & T).
    destruct (T eq_refl) as (update_model & P & Q).
    exists s', update_model. split; [| split; [| split; assumption]].
    + rewrite E.
      destruct (variables_in
                  (Example.at_line_46
                     (Example.model_of true true false "train")))
        eqn:V; [vm_compute in V; discriminate V | reflexivity].
    + rewrite A. reflexivity.
  - destruct (without_moving_averages
                (Example.model_of true true false "train")
                (Input "label") (Opaque "sequence_length" [])
                (Opaque "predict" []) (Opaque "predict_mask" [])
                (Opaque "transition_matrix" []) state0 eq_refl)
      as (s' & E & _).
    rewrite E. reflexivity.
Defined.

End MoreRuns.
